(** * Social-media ROI attribution: the generator, the weighting function and
      the scoring script, embedded and verified

    The development follows the Python sources:

    - [src/config.py]          the benchmark tables, as the record [Config] and
                               its shipped value [config];
    - [src/distributions.py]   the samplers ([Dist]) and the attribution
                               weighting function ([Attribution]);
    - [src/data_generator.py]  [SyntheticDataGenerator] ([Gen]);
    - [generate_scores.py]     the composite score and its segment ([Scores]);
    - [src/validators.py]      the referential-integrity checks, the report
                               and the counts of [check_data_quality]
                               ([Validators]).

    Number model.  [generate_attribution_weights] is pure and works on small
    integers and float literals: it is embedded over binary64 itself (Rocq's
    primitive floats), so its results are the bits Python computes.  The
    samplers go through [np.log]/[np.exp] and numpy's generator: they are
    embedded over the real numbers.  Where a result is clipped or compared
    against bounds that binary64 represents, a float operation is read as the
    exact operation; where [int()] truncates a float at a bound the exact
    result can touch ([generate_follower_count],
    [generate_reach_impressions]), each operation carries its rounding error
    ([Fp]), and [np.random.uniform] ranges over the closed interval.  An
    integer that numpy returns is a [numpy.int64], kept apart from Python's
    [int] ([Py.integer]).

    Randomness.  numpy's global generator is a stream of variates fixed by the
    seed; [uuid4] reads the operating system's entropy, which no seed fixes.
    Both, and the rounding of the platform's arithmetic, are explicit in the
    state [World] threaded by the monad [M]; Python exceptions are the error
    component of [M]. *)

From Stdlib Require Import ZArith List String Ascii Bool Lia.
From Stdlib Require Import Floats Uint63.
From Stdlib Require Import Reals Lra.
Import ListNotations.

Set Warnings "-inexact-float".

(* ===================================================================== *)
(** * Python values and exceptions *)
(* ===================================================================== *)

(** The exceptions the embedded code can raise. *)
Inductive exn : Type :=
  | ZeroDivisionError
  | KeyError
  | ValueError
  | TypeError
  | AttributeError
  | IndexError
  | OverflowError.

(** The outcome of a Python expression: a value, or a raised exception. *)
Inductive result (A : Type) : Type :=
  | Ok (a : A)
  | Raise (e : exn).
Arguments Ok {A} a.
Arguments Raise {A} e.

(** [range(n)] as a list of integers; empty when [n <= 0]. *)
Definition py_range (n : Z) : list Z :=
  map Z.of_nat (seq 0 (Z.to_nat n)).

(** [[x] * k] on lists: [k] copies, none when [k <= 0]. *)
Definition py_list_mul {A : Type} (x : A) (k : Z) : list A :=
  repeat x (Z.to_nat k).

(* ===================================================================== *)
(** * distributions.py: generate_attribution_weights (binary64) *)
(* ===================================================================== *)

Module Attribution.

Local Open Scope float_scope.

(** Python's int -> float conversion.  Exact below 2^53, correctly rounded
    below 2^63; touchpoint counts stay far below both. *)
Definition float_of_int (z : Z) : float :=
  if (z <? 0)%Z
  then PrimFloat.opp (PrimFloat.of_uint63 (Uint63.of_Z (- z)))
  else PrimFloat.of_uint63 (Uint63.of_Z z).

(** [float / int]: the int operand is converted, a zero divisor raises. *)
Definition float_div_int (x : float) (n : Z) : result float :=
  if (n =? 0)%Z then Raise ZeroDivisionError
  else Ok (x / float_of_int n).

(** [int / int] (true division).  For operands below 2^53 the correctly
    rounded quotient is the binary64 quotient of the converted operands. *)
Definition int_div_int (a b : Z) : result float :=
  if (b =? 0)%Z then Raise ZeroDivisionError
  else Ok (float_of_int a / float_of_int b).

(** A list comprehension whose element expression may raise. *)
Fixpoint comprehension {A B : Type} (f : A -> result B) (l : list A)
  : result (list B) :=
  match l with
  | [] => Ok []
  | x :: r =>
      match f x with
      | Raise e => Raise e
      | Ok y =>
          match comprehension f r with
          | Raise e => Raise e
          | Ok ys => Ok (y :: ys)
          end
      end
  end.

(** [sum] over Python ints. *)
Definition int_sum (l : list Z) : Z := fold_left Z.add l 0%Z.

(** [sum(weights)]: left to right from the int [0]. *)
Definition py_sum (l : list float) : float := fold_left PrimFloat.add l 0.

Definition generate_attribution_weights (n_touchpoints : Z) (model : string)
  : result (list float) :=
  if String.eqb model "first_touch" then
    Ok ([1.0] ++ py_list_mul 0.0 (n_touchpoints - 1))
  else if String.eqb model "last_touch" then
    Ok (py_list_mul 0.0 (n_touchpoints - 1) ++ [1.0])
  else if String.eqb model "linear" then
    match float_div_int 1.0 n_touchpoints with
    | Raise e => Raise e
    | Ok w => Ok (py_list_mul w n_touchpoints)
    end
  else if String.eqb model "time_decay" then
    let raw_weights := map (fun i => 2 ^ i)%Z (py_range n_touchpoints) in
    let total := int_sum raw_weights in
    comprehension (fun w => int_div_int w total) raw_weights
  else if String.eqb model "position_based" then
    if (n_touchpoints =? 1)%Z then Ok [1.0]
    else if (n_touchpoints =? 2)%Z then Ok [0.5; 0.5]
    else
      match float_div_int 0.2 (n_touchpoints - 2) with
      | Raise e => Raise e
      | Ok middle_weight =>
          Ok ([0.4] ++ py_list_mul middle_weight (n_touchpoints - 2) ++ [0.4])
      end
  else
    match float_div_int 1.0 n_touchpoints with
    | Raise e => Raise e
    | Ok w => Ok (py_list_mul w n_touchpoints)
    end.

(** The five model names the function knows. *)
Definition known_models : list string :=
  ["first_touch"; "last_touch"; "linear"; "time_decay"; "position_based"]%string.

(** [abs(sum(ws) - 1.0) <= 1e-6], evaluated in binary64. *)
Definition sums_to_one (ws : list float) : bool :=
  PrimFloat.leb (PrimFloat.abs (py_sum ws - 1.0)) 1e-6.

(** Every weight is strictly below its successor. *)
Fixpoint strictly_increasing (ws : list float) : bool :=
  match ws with
  | a :: ((b :: _) as r) => PrimFloat.ltb a b && strictly_increasing r
  | _ => true
  end.

End Attribution.

(* ===================================================================== *)
(** * Python numbers over the reals *)
(* ===================================================================== *)

Module Py.

Local Open Scope R_scope.

(** Comparisons as Python booleans. *)
Definition lt (x y : R) : bool := if Rlt_dec x y then true else false.
Definition gt (x y : R) : bool := lt y x.
Definition ge (x y : R) : bool := if Rle_dec y x then true else false.

(** [int(x)]: truncation towards zero. *)
Definition int (x : R) : Z := if Rle_dec 0 x then Zfloor x else Zceil x.

(** [np.clip(x, lo, hi)] is [minimum(maximum(x, lo), hi)]. *)
Definition clip (x lo hi : R) : R := Rmin (Rmax x lo) hi.
Definition clip_int (x lo hi : Z) : Z := Z.min (Z.max x lo) hi.

(** An integer as a call receives it: Python's own [int], or the
    [numpy.int64] that numpy returns for an integer result, [np.clip] on
    ints included.  A [numpy.int64] is no [int]: a table column stores it
    as it stores an [int], but [timedelta] refuses it. *)
Inductive integer : Type :=
  | Int (n : Z)
  | Int64 (n : Z).

(** The number itself, as a column holds it. *)
Definition item (x : integer) : Z :=
  match x with Int n => n | Int64 n => n end.

(** Rounding to the nearest integer, ties to even. *)
Definition round_half_even (x : R) : Z :=
  let f := Zfloor x in
  let d := x - IZR f in
  if Rlt_dec d (1 / 2) then f
  else if Rlt_dec (1 / 2) d then (f + 1)%Z
  else if Z.even f then f else (f + 1)%Z.

(** [round(x, ndigits)]: the multiple of [10^-ndigits] nearest to [x], ties
    to even. *)
Definition round (x : R) (ndigits : nat) : R :=
  IZR (round_half_even (x * 10 ^ ndigits)) / 10 ^ ndigits.

(** [f"{n:05d}"]-style formatting: decimal digits, zero-padded on the left. *)
Fixpoint digits_fuel (fuel : nat) (n : Z) (acc : string) : string :=
  match fuel with
  | O => acc
  | S k =>
      let d := String (ascii_of_nat (48 + Z.to_nat (n mod 10))) acc in
      if (n / 10 =? 0)%Z then d else digits_fuel k (n / 10) d
  end.

Definition str_int (n : Z) : string :=
  if (n <? 0)%Z
  then String "-" (digits_fuel (S (Z.to_nat (Z.log2 (- n)))) (- n) EmptyString)
  else digits_fuel (S (Z.to_nat (Z.log2 n))) n EmptyString.

Fixpoint zeros (k : nat) : string :=
  match k with O => EmptyString | S j => String "0" (zeros j) end.

Definition format_0d (width : nat) (n : Z) : string :=
  let s := str_int n in
  if (n <? 0)%Z
  then String "-" (zeros (width - String.length s)
                   ++ substring 1 (String.length s - 1) s)%string
  else (zeros (width - String.length s) ++ s)%string.

End Py.

(* ===================================================================== *)
(** * datetime: dates as proleptic Gregorian ordinals *)
(* ===================================================================== *)

(** A ["%Y-%m-%d"] string is kept as the triple it denotes; [strptime] checks
    the triple and yields the ordinal ([date.toordinal]), [timedelta(days=k)]
    for a Python [int] [k] is [k], and a date column holds ordinals. *)
Module Datetime.

Local Open Scope Z_scope.

Record ymd : Type := mk_ymd { year : Z; month : Z; day : Z }.

Definition _is_leap (y : Z) : bool :=
  (y mod 4 =? 0) && (negb (y mod 100 =? 0) || (y mod 400 =? 0)).

Definition _days_before_year (y : Z) : Z :=
  let y := y - 1 in y * 365 + y / 4 - y / 100 + y / 400.

Definition _DAYS_IN_MONTH : list Z :=
  [-1; 31; 28; 31; 30; 31; 30; 31; 31; 30; 31; 30; 31].

Definition _DAYS_BEFORE_MONTH : list Z :=
  [-1; 0; 31; 59; 90; 120; 151; 181; 212; 243; 273; 304; 334].

Definition _days_in_month (y m : Z) : Z :=
  if (m =? 2) && _is_leap y then 29 else nth (Z.to_nat m) _DAYS_IN_MONTH 0.

Definition _days_before_month (y m : Z) : Z :=
  nth (Z.to_nat m) _DAYS_BEFORE_MONTH 0
  + (if (2 <? m) && _is_leap y then 1 else 0).

Definition _ymd2ord (y m d : Z) : Z :=
  _days_before_year y + _days_before_month y m + d.

Definition _DI400Y : Z := 146097.
Definition _DI100Y : Z := 36524.
Definition _DI4Y : Z := 1461.

Definition _ord2ymd (n : Z) : ymd :=
  let n := n - 1 in
  let n400 := n / _DI400Y in
  let n := n mod _DI400Y in
  let y := n400 * 400 + 1 in
  let n100 := n / _DI100Y in
  let n := n mod _DI100Y in
  let n4 := n / _DI4Y in
  let n := n mod _DI4Y in
  let n1 := n / 365 in
  let n := n mod 365 in
  let y := y + n100 * 100 + n4 * 4 + n1 in
  if (n1 =? 4) || (n100 =? 4) then mk_ymd (y - 1) 12 31
  else
    let leapyear := (n1 =? 3) && (negb (n4 =? 24) || (n100 =? 3)) in
    let m := Z.shiftr (n + 50) 5 in
    let preceding :=
      nth (Z.to_nat m) _DAYS_BEFORE_MONTH 0
      + (if (2 <? m) && leapyear then 1 else 0) in
    if n <? preceding then
      let m := m - 1 in
      let preceding :=
        preceding
        - (nth (Z.to_nat m) _DAYS_IN_MONTH 0
           + (if (m =? 2) && leapyear then 1 else 0)) in
      mk_ymd y m (n - preceding + 1)
    else mk_ymd y m (n - preceding + 1).

Definition MINYEAR : Z := 1.
Definition MAXYEAR : Z := 9999.
Definition _MAXORDINAL : Z := 3652059.

(** [datetime.strptime(s, "%Y-%m-%d")]: a date out of range is a
    [ValueError]. *)
Definition strptime (s : ymd) : result Z :=
  if (MINYEAR <=? year s) && (year s <=? MAXYEAR)
     && (1 <=? month s) && (month s <=? 12)
     && (1 <=? day s) && (day s <=? _days_in_month (year s) (month s))
  then Ok (_ymd2ord (year s) (month s) (day s))
  else Raise ValueError.

(** [timedelta(days=x)]: the components must be [int] or [float]; a
    [numpy.int64] is neither ("unsupported type for timedelta days
    component").  [np.random.randint] returns an [int], so the call sites
    that pass its result add the number of days directly. *)
Definition timedelta (days : Py.integer) : result Z :=
  match days with
  | Py.Int n => Ok n
  | Py.Int64 _ => Raise TypeError
  end.

(** [date + timedelta(days)]: leaving years 1..9999 is an [OverflowError]. *)
Definition add_days (d days : Z) : result Z :=
  if (1 <=? d + days) && (d + days <=? _MAXORDINAL)
  then Ok (d + days)
  else Raise OverflowError.

Definition month_of (d : Z) : Z := month (_ord2ymd d).

End Datetime.

(* ===================================================================== *)
(** * The state of a run and the monad of the generator *)
(* ===================================================================== *)

(** What a run reads besides its arguments.  [mt19937] is numpy's generator
    as a function: the seed fixes the whole sequence of variates, and
    [np_drawn] counts those already consumed.  [os_entropy] is what
    [os.urandom] returns, call after call; no seed reaches it.  [rounding]
    is the floating-point arithmetic of the platform, libm included: for an
    exact result, the relative error of the binary64 result computed in its
    place. *)
Record World : Type := mk_World {
  mt19937 : Z -> nat -> R;
  np_seed : Z;
  np_drawn : nat;
  os_entropy : nat -> N;
  os_read : nat;
  rounding : R -> R
}.

(** A computation reads and advances the world, and returns or raises. *)
Definition M (A : Type) : Type := World -> result (A * World).

Definition ret {A : Type} (a : A) : M A := fun w => Ok (a, w).

Definition bind {A B : Type} (c : M A) (k : A -> M B) : M B :=
  fun w =>
    match c w with
    | Ok (a, w') => k a w'
    | Raise e => Raise e
    end.

Definition raise {A : Type} (e : exn) : M A := fun _ => Raise e.

Definition lift {A : Type} (r : result A) : M A :=
  fun w => match r with Ok a => Ok (a, w) | Raise e => Raise e end.

Declare Scope monad_scope.
Delimit Scope monad_scope with monad.
Notation "x <- c ;; k" := (bind c (fun x => k))
  (at level 61, c at next level, right associativity) : monad_scope.
Notation "' pat <- c ;; k" := (bind c (fun x => match x with pat => k end))
  (at level 61, pat pattern, c at next level, right associativity)
  : monad_scope.
Local Open Scope monad_scope.

(** [for i in range(n): rows.append(body(i))]. *)
Fixpoint for_range {A : Type} (body : Z -> M A) (i : Z) (n : nat)
  : M (list A) :=
  match n with
  | O => ret []
  | S k =>
      x <- body i ;;
      xs <- for_range body (i + 1) k ;;
      ret (x :: xs)
  end.

Definition for_in_range {A : Type} (n : Z) (body : Z -> M A) : M (list A) :=
  for_range body 0 (Z.to_nat n).

(** [d[k]] on a dict kept as an association list in insertion order. *)
Fixpoint getitem {K V : Type} (eqb : K -> K -> bool) (d : list (K * V))
  (k : K) : result V :=
  match d with
  | [] => Raise KeyError
  | (k', v) :: r => if eqb k k' then Ok v else getitem eqb r k
  end.

(** [d.get(k, default)]. *)
Definition get_default {K V : Type} (eqb : K -> K -> bool) (d : list (K * V))
  (k : K) (default : V) : V :=
  match getitem eqb d k with Ok v => v | Raise _ => default end.

Definition keys {K V : Type} (d : list (K * V)) : list K := map fst d.
Definition values {K V : Type} (d : list (K * V)) : list V := map snd d.

(* ===================================================================== *)
(** * binary64 where the last bit decides *)
(* ===================================================================== *)

(** The samplers are read over the real numbers.  Where [int()] truncates a
    float right at a bound that the exact result can touch (the ends of a
    follower range, the product behind the reach), the rounding of binary64
    decides on which side the integer falls.  There each operation is written
    with its rounding: the binary64 result of an operation, a literal or a
    conversion is the exact result times [1 + e], where [e] is the relative
    error the world assigns to it and [|e|] is at most the unit roundoff
    [2^-53]; for [np.log] and [np.exp], which libm does not round correctly,
    at most one unit in the last place, [2^-52].  Overflow and underflow are
    out of reach of the numbers the generator handles. *)
Module Fp.

Local Open Scope R_scope.

(** The unit roundoff of binary64. *)
Definition u : R := / 2 ^ 53.

(** The relative error of the binary64 result that stands for the exact
    result [x], kept within [bound]. *)
Definition err (bound x : R) : M R :=
  fun w => Ok (Py.clip (rounding w x) (- bound) bound, w).

(** A correctly rounded result: an arithmetic operation, a decimal literal,
    a conversion. *)
Definition rnd (x : R) : M R :=
  e <- err u x ;; ret (x * (1 + e)).

(** A result of libm. *)
Definition libm (x : R) : M R :=
  e <- err (2 * u) x ;; ret (x * (1 + e)).

(** [float(n)]: exact up to [2^53]. *)
Definition of_int (n : Z) : M R :=
  if (Z.abs n <=? 2 ^ 53)%Z then ret (IZR n) else rnd (IZR n).

End Fp.

(* ===================================================================== *)
(** * numpy.random and uuid *)
(* ===================================================================== *)

(** Each sampler consumes one variate of the stream and maps it onto the
    support numpy documents for it: [random] onto [[0, 1)], [uniform] onto
    [[low, high]], [normal] onto the reals, [exponential] onto the
    non-negative reals, [geometric] onto the positive and [poisson] onto the
    non-negative integers, [randint] onto [[low, high)].  [choice] with [p]
    validates [p] and inverts the cumulative distribution, as numpy does. *)
Module Np.

Local Open Scope R_scope.

Definition variate : M R :=
  fun w =>
    Ok (mt19937 w (np_seed w) (np_drawn w),
        mk_World (mt19937 w) (np_seed w) (S (np_drawn w))
                 (os_entropy w) (os_read w) (rounding w)).

(** [np.random.seed(seed)]: restarts the stream; seeds are 32-bit. *)
Definition seed (s : Z) : M unit :=
  fun w =>
    if ((0 <=? s) && (s <? 2 ^ 32))%Z
    then Ok (tt, mk_World (mt19937 w) s O (os_entropy w) (os_read w)
                          (rounding w))
    else Raise ValueError.

Definition random : M R :=
  v <- variate ;; ret (v - IZR (Zfloor v)).

(** [np.random.uniform(low, high)] is [low + (high - low) * random_sample()]
    computed in binary64, whose rounding can return [high] itself, as numpy
    documents: the draw ranges over the closed interval. *)
Definition uniform (low high : R) : M R :=
  v <- variate ;; ret (low + (high - low) * Py.clip v 0 1).

(** [np.log] and [np.exp] on a float. *)
Definition log (x : R) : M R := Fp.libm (ln x).
Definition exp (x : R) : M R := Fp.libm (Rtrigo_def.exp x).

Definition normal (loc scale : R) : M R :=
  if Py.lt scale 0 then raise ValueError
  else z <- variate ;; ret (loc + scale * z).

Definition exponential (scale : R) : M R :=
  if Py.lt scale 0 then raise ValueError
  else z <- variate ;; ret (scale * Rabs z).

Definition geometric (p : R) : M Z :=
  if Py.lt 0 p && Py.ge 1 p
  then z <- variate ;; ret (1 + Z.abs (Zfloor z))%Z
  else raise ValueError.

Definition poisson (lam : R) : M Z :=
  if Py.lt lam 0 then raise ValueError
  else z <- variate ;; ret (Z.abs (Zfloor z)).

Definition randint (low high : Z) : M Z :=
  if (low <? high)%Z
  then u <- random ;; ret (low + Zfloor (u * IZR (high - low)))%Z
  else raise ValueError.

(** [np.random.choice(a)]: uniform over a non-empty sequence. *)
Definition choice {A : Type} (a : list A) : M A :=
  match a with
  | [] => raise ValueError
  | x0 :: _ =>
      i <- randint 0 (Z.of_nat (List.length a)) ;;
      ret (nth (Z.to_nat i) a x0)
  end.

(** [np.random.choice(a, size)]. *)
Fixpoint choice_size {A : Type} (a : list A) (size : nat) : M (list A) :=
  match size with
  | O => ret []
  | S k => x <- choice a ;; xs <- choice_size a k ;; ret (x :: xs)
  end.

Definition sum (l : list R) : R := fold_left Rplus l 0.

Fixpoint cumsum_from (acc : R) (l : list R) : list R :=
  match l with
  | [] => []
  | x :: r => (acc + x) :: cumsum_from (acc + x) r
  end.

Definition cumsum (l : list R) : list R := cumsum_from 0 l.

(** [cdf.searchsorted(u, side='right')] on a non-decreasing [cdf]. *)
Fixpoint searchsorted_right (cdf : list R) (u : R) : nat :=
  match cdf with
  | [] => O
  | c :: r => if Rle_dec c u then S (searchsorted_right r u) else O
  end.

(** [sqrt(np.finfo(np.float64).eps)], the tolerance on [sum(p)]. *)
Definition atol : R := / 2 ^ 26.

(** The checks [choice] makes on [p] before it draws. *)
Definition valid_p {A : Type} (a : list A) (p : list R) : bool :=
  (List.length a =? List.length p)%nat
  && negb (existsb (fun q => Py.lt q 0) p)
  && negb (Py.gt (Rabs (sum p - 1)) atol).

Definition draw_p {A : Type} (a : list A) (p : list R) (x0 : A) : M A :=
  u <- random ;;
  let total := sum p in
  let cdf := map (fun c => c / total) (cumsum p) in
  ret (nth (searchsorted_right cdf u) a x0).

Fixpoint draws_p {A : Type} (a : list A) (p : list R) (x0 : A) (size : nat)
  : M (list A) :=
  match size with
  | O => ret []
  | S k => x <- draw_p a p x0 ;; xs <- draws_p a p x0 k ;; ret (x :: xs)
  end.

(** [np.random.choice(a, p=p)]. *)
Definition choice_p {A : Type} (a : list A) (p : list R) : M A :=
  match a with
  | [] => raise ValueError
  | x0 :: _ => if valid_p a p then draw_p a p x0 else raise ValueError
  end.

(** [np.random.choice(a, size=size, p=p)]. *)
Definition choice_p_size {A : Type} (a : list A) (size : Z) (p : list R)
  : M (list A) :=
  match a with
  | [] => raise ValueError
  | x0 :: _ =>
      if (size <? 0)%Z then raise ValueError
      else if valid_p a p then draws_p a p x0 (Z.to_nat size)
      else raise ValueError
  end.

End Np.

Module Uuid.

(** [uuid4()]: sixteen bytes of [os.urandom] with the version and variant
    bits set.  An id is kept as the 128-bit integer; [str] renders it
    injectively. *)
Definition version4 (int : N) : N :=
  let int := N.ldiff int (N.shiftl 0xc000 48) in
  let int := N.lor int (N.shiftl 0x8000 48) in
  let int := N.ldiff int (N.shiftl 0xf000 64) in
  N.lor int (N.shiftl 4 76).

Definition uuid4 : M N :=
  fun w =>
    let bytes := (os_entropy w (os_read w) mod 2 ^ 128)%N in
    Ok (version4 bytes,
        mk_World (mt19937 w) (np_seed w) (np_drawn w)
                 (os_entropy w) (S (os_read w)) (rounding w)).

End Uuid.

(* ===================================================================== *)
(** * config.py *)
(* ===================================================================== *)

(** The module's constants that the generator reads (the paths and the three
    conversion-rate constants, which it never reads, are left out). *)
Record Config : Type := mk_Config {
  RANDOM_SEED : Z;
  N_INFLUENCERS : Z;
  N_POSTS : Z;
  N_BRANDS : Z;
  N_CONVERSIONS : Z;
  N_TOUCHPOINTS : Z;
  DATE_START : Datetime.ymd;
  DATE_END : Datetime.ymd;
  PLATFORM_DISTRIBUTION : list (string * R);
  TIER_DISTRIBUTION : list (string * R);
  TIER_FOLLOWER_RANGES : list (string * (Z * Z));
  TIER_ENGAGEMENT_RATES : list (string * (R * R));
  TIER_AUTHENTICITY_SCORES : list (string * (R * R));
  TIER_COST_PER_POST : list (string * (Z * Z));
  CONTENT_CATEGORIES : list string;
  COUNTRY_DISTRIBUTION : list (string * R);
  GENDER_DISTRIBUTION : list (string * R);
  AGE_GROUP_DISTRIBUTION : list (string * R);
  CONTENT_TYPE_BY_PLATFORM : list (string * list (string * R));
  POSTING_TIME_DISTRIBUTION : list (Z * R);
  DAY_OF_WEEK_DISTRIBUTION : list (Z * R);
  VISUAL_STYLES : list (string * R);
  DOMINANT_COLORS : list string;
  BRAND_TIERS : list (string * R);
  BRAND_AOV : list (string * (Z * Z));
  MONTHLY_SEASONALITY : list (Z * R)
}.

(** The values of [src/config.py]. *)
Definition config : Config := {|
  RANDOM_SEED := 42;
  N_INFLUENCERS := 1500;
  N_POSTS := 50000;
  N_BRANDS := 25;
  N_CONVERSIONS := 30000;
  N_TOUCHPOINTS := 100000;
  DATE_START := Datetime.mk_ymd 2024 2 1;
  DATE_END := Datetime.mk_ymd 2025 1 31;
  PLATFORM_DISTRIBUTION :=
    [("Instagram", 0.45); ("TikTok", 0.35); ("YouTube", 0.12);
     ("Twitter", 0.08)]%string%R;
  TIER_DISTRIBUTION :=
    [("nano", 0.40); ("micro", 0.35); ("mid", 0.15); ("macro", 0.07);
     ("mega", 0.03)]%string%R;
  TIER_FOLLOWER_RANGES :=
    [("nano", (1000, 10000)); ("micro", (10000, 100000));
     ("mid", (100000, 500000)); ("macro", (500000, 1000000));
     ("mega", (1000000, 10000000))]%string%Z;
  TIER_ENGAGEMENT_RATES :=
    [("nano", (6.0, 1.5)); ("micro", (3.5, 1.0)); ("mid", (2.2, 0.6));
     ("macro", (1.5, 0.4)); ("mega", (1.0, 0.3))]%string%R;
  TIER_AUTHENTICITY_SCORES :=
    [("nano", (0.92, 0.05)); ("micro", (0.88, 0.06)); ("mid", (0.82, 0.08));
     ("macro", (0.75, 0.10)); ("mega", (0.70, 0.12))]%string%R;
  TIER_COST_PER_POST :=
    [("nano", (50, 150)); ("micro", (150, 1000)); ("mid", (1000, 5000));
     ("macro", (5000, 15000)); ("mega", (15000, 100000))]%string%Z;
  CONTENT_CATEGORIES :=
    ["Luxury Fashion"; "Streetwear"; "Sustainable Fashion"; "Fast Fashion";
     "Accessories"; "Footwear"; "Activewear"; "Vintage/Thrift"]%string;
  COUNTRY_DISTRIBUTION :=
    [("United States", 0.30); ("United Kingdom", 0.12); ("Germany", 0.08);
     ("France", 0.07); ("Italy", 0.05); ("Spain", 0.05); ("Australia", 0.05);
     ("Canada", 0.05); ("Japan", 0.04); ("South Korea", 0.04);
     ("Brazil", 0.04); ("India", 0.04); ("Mexico", 0.03);
     ("Netherlands", 0.02); ("Sweden", 0.02)]%string%R;
  GENDER_DISTRIBUTION :=
    [("Female", 0.48); ("Male", 0.45); ("Non-binary", 0.05);
     ("Unknown", 0.02)]%string%R;
  AGE_GROUP_DISTRIBUTION :=
    [("18-24", 0.35); ("25-34", 0.40); ("35-44", 0.18); ("45+", 0.07)]%string%R;
  CONTENT_TYPE_BY_PLATFORM :=
    [("Instagram",
      [("photo", 0.35); ("carousel", 0.25); ("reel", 0.30); ("story", 0.10)]);
     ("TikTok", [("video", 0.95); ("photo", 0.05)]);
     ("YouTube", [("video", 0.85); ("shorts", 0.15)]);
     ("Twitter", [("photo", 0.50); ("video", 0.25); ("text", 0.25)])]%string%R;
  POSTING_TIME_DISTRIBUTION :=
    [(6%Z, 0.02); (7%Z, 0.03); (8%Z, 0.05); (9%Z, 0.07); (10%Z, 0.08);
     (11%Z, 0.10); (12%Z, 0.12); (13%Z, 0.10); (14%Z, 0.07); (15%Z, 0.06);
     (16%Z, 0.05); (17%Z, 0.04); (18%Z, 0.06); (19%Z, 0.08); (20%Z, 0.10);
     (21%Z, 0.08); (22%Z, 0.05); (23%Z, 0.03)]%R;
  DAY_OF_WEEK_DISTRIBUTION :=
    [(0%Z, 0.12); (1%Z, 0.16); (2%Z, 0.17); (3%Z, 0.16); (4%Z, 0.14); (5%Z, 0.13);
     (6%Z, 0.12)]%R;
  VISUAL_STYLES :=
    [("lifestyle", 0.35); ("product_shot", 0.30); ("behind_scenes", 0.15);
     ("user_generated", 0.12); ("editorial", 0.08)]%string%R;
  DOMINANT_COLORS :=
    ["neutral_beige"; "cream_white"; "classic_black"; "navy_blue";
     "olive_green"; "terracotta"; "dusty_rose"; "burgundy";
     "camel_brown"; "sage_green"; "lavender"; "rust_orange";
     "charcoal_grey"; "ivory"; "forest_green"]%string;
  BRAND_TIERS :=
    [("Luxury", 0.20); ("Premium", 0.25); ("Mid-market", 0.30);
     ("Fast-fashion", 0.15); ("DTC", 0.10)]%string%R;
  BRAND_AOV :=
    [("Luxury", (500, 2000)); ("Premium", (150, 500));
     ("Mid-market", (50, 150)); ("Fast-fashion", (25, 75));
     ("DTC", (75, 200))]%string%Z;
  MONTHLY_SEASONALITY :=
    [(1%Z, 0.85); (2%Z, 0.90); (3%Z, 0.95); (4%Z, 1.00); (5%Z, 0.95); (6%Z, 0.85);
     (7%Z, 0.80); (8%Z, 0.90); (9%Z, 1.05); (10%Z, 1.10); (11%Z, 1.20);
     (12%Z, 1.25)]%R
|}.

(* ===================================================================== *)
(** * distributions.py: the samplers (reals) *)
(* ===================================================================== *)

Module Dist.

Local Open Scope R_scope.

(** [a[0]] on a sequence. *)
Definition item0 {A : Type} (a : list A) : M A :=
  match a with
  | x :: _ => ret x
  | [] => raise IndexError
  end.

(** The dict [generate_engagement_metrics] returns. *)
Record EngagementMetrics : Type := mk_EngagementMetrics {
  likes : Z;
  comments : Z;
  shares : Z;
  saves : Z
}.

Definition sample_from_distribution {K : Type} (distribution : list (K * R))
  (size : Z) : M (list K) :=
  let categories := keys distribution in
  let probabilities := values distribution in
  Np.choice_p_size categories size probabilities.

Section WithConfig.

Variable cfg : Config.

(** The logarithm of a bound that is not positive is [-inf] or [nan]; the
    range of the draw is then not finite, which [uniform] refuses. *)
Definition generate_follower_count (tier : string) : M Z :=
  '(low, high) <- lift (getitem String.eqb (TIER_FOLLOWER_RANGES cfg) tier) ;;
  if ((low <=? 0) || (high <=? 0))%Z then raise OverflowError
  else
    low <- Fp.of_int low ;;
    high <- Fp.of_int high ;;
    log_low <- Np.log low ;;
    log_high <- Np.log high ;;
    log_followers <- Np.uniform log_low log_high ;;
    followers <- Np.exp log_followers ;;
    ret (Py.int followers).

Definition generate_engagement_rate (tier : string) (add_noise : bool) : M R :=
  '(mean, std) <- lift (getitem String.eqb (TIER_ENGAGEMENT_RATES cfg) tier) ;;
  rate <- Np.normal mean std ;;
  rate <- (if add_noise
           then noise <- Np.uniform (-0.3) 0.3 ;; ret (rate + noise)
           else ret rate) ;;
  ret (Py.clip rate 0.5 12.0).

Definition generate_authenticity_score (tier : string) : M R :=
  '(mean, std) <- lift (getitem String.eqb (TIER_AUTHENTICITY_SCORES cfg) tier) ;;
  score <- Np.normal mean std ;;
  ret (Py.clip score 0.4 0.99).

Definition generate_cost_per_post (tier : string) (followers : Z) : M R :=
  '(low, high) <- lift (getitem String.eqb (TIER_COST_PER_POST cfg) tier) ;;
  tier_range <- lift (getitem String.eqb (TIER_FOLLOWER_RANGES cfg) tier) ;;
  position <- (if (snd tier_range - fst tier_range =? 0)%Z
               then raise ZeroDivisionError
               else ret (IZR (followers - fst tier_range)
                         / IZR (snd tier_range - fst tier_range))) ;;
  let base_cost := IZR low + position * IZR (high - low) in
  variance <- Np.uniform 0.8 1.2 ;;
  ret (Py.round (base_cost * variance) 2).

Definition generate_engagement_metrics (followers : Z) (engagement_rate : R)
  (content_type : string) (is_viral : bool) : M EngagementMetrics :=
  let base_engagement := Py.int (IZR followers * (engagement_rate / 100)) in
  variance <- Np.uniform 0.7 1.3 ;;
  variance <- (if is_viral
               then boost <- Np.uniform 3 10 ;; ret (variance * boost)
               else ret variance) ;;
  let total_engagement := Py.int (IZR base_engagement * variance) in
  like_share <- Np.uniform 0.85 0.92 ;;
  let likes := Py.int (IZR total_engagement * like_share) in
  comment_rate <- Np.uniform 0.03 0.08 ;;
  let comments := Py.int (IZR likes * comment_rate) in
  share_rate <- Np.uniform 0.01 0.025 ;;
  let shares := Py.int (IZR likes * share_rate) in
  save_rate <- (if existsb (String.eqb content_type)
                     ["product_shot"; "carousel"]%string
                then Np.uniform 0.03 0.06
                else Np.uniform 0.02 0.04) ;;
  let saves := Py.int (IZR likes * save_rate) in
  ret {| likes := Z.max 1 likes;
         comments := Z.max 0 comments;
         shares := Z.max 0 shares;
         saves := Z.max 0 saves |}.

(** [a * b] on floats. *)
Definition fmul (a b : R) : M R := Fp.rnd (a * b).

Definition generate_reach_impressions (followers : Z) (engagement_rate : R)
  : M (Z * Z) :=
  low <- Fp.rnd 0.20 ;;
  high <- Fp.rnd 0.40 ;;
  reach_rate <- Np.uniform low high ;;
  reach_rate <-
    (if Py.gt engagement_rate 5
     then boost <- Fp.rnd 1.3 ;; fmul reach_rate boost
     else if Py.gt engagement_rate 3
     then boost <- Fp.rnd 1.1 ;; fmul reach_rate boost
     else ret reach_rate) ;;
  followers <- Fp.of_int followers ;;
  product <- fmul followers reach_rate ;;
  let reach := Py.int product in
  low <- Fp.rnd 1.2 ;;
  high <- Fp.rnd 1.8 ;;
  impression_multiplier <- Np.uniform low high ;;
  reach_float <- Fp.of_int reach ;;
  product <- fmul reach_float impression_multiplier ;;
  let impressions := Py.int product in
  ret (reach, impressions).

Definition generate_post_time : M (Z * Z) :=
  hours <- sample_from_distribution (POSTING_TIME_DISTRIBUTION cfg) 1 ;;
  hour <- item0 hours ;;
  days <- sample_from_distribution (DAY_OF_WEEK_DISTRIBUTION cfg) 1 ;;
  day <- item0 days ;;
  ret (hour, day).

Definition generate_caption_length : M Py.integer :=
  x <- Np.normal 180 80 ;;
  let length := Py.int x in
  ret (Py.Int64 (Py.clip_int length 20 500)).

Definition generate_hashtag_count (platform : string) : M Py.integer :=
  if String.eqb platform "Instagram" then
    x <- Np.normal 8 4 ;; ret (Py.Int64 (Py.clip_int (Py.int x) 1 30))
  else if String.eqb platform "TikTok" then
    x <- Np.normal 4 2 ;; ret (Py.Int64 (Py.clip_int (Py.int x) 1 10))
  else if String.eqb platform "Twitter" then
    x <- Np.normal 2 1 ;; ret (Py.Int64 (Py.clip_int (Py.int x) 0 5))
  else
    x <- Np.uniform 1 5 ;; ret (Py.Int (Py.int x)).

Definition generate_order_value (brand_tier : string) : M R :=
  '(low, high) <- lift (getitem String.eqb (BRAND_AOV cfg) brand_tier) ;;
  let log_low := ln (IZR low) in
  let log_high := ln (IZR high) in
  log_value <- Np.normal ((log_low + log_high) / 2) ((log_high - log_low) / 4) ;;
  let value := exp log_value in
  ret (Py.round (Py.clip value (IZR low * 0.5) (IZR high * 1.5)) 2).

Definition generate_customer_journey_length : M Py.integer :=
  x <- Np.exponential 7 ;;
  let length := Py.int x in
  ret (Py.Int64 (Py.clip_int length 1 90)).

Definition generate_touchpoints_count : M Py.integer :=
  count <- Np.geometric 0.3 ;;
  ret (Py.Int64 (Py.clip_int count 1 15)).

Definition apply_seasonality (base_value : R) (month : Z) : R :=
  let seasonality := get_default Z.eqb (MONTHLY_SEASONALITY cfg) month 1.0 in
  base_value * seasonality.

Definition generate_outlier_probability (tier : string) : M R :=
  r <- Np.random ;;
  if Py.lt r 0.07
  then Np.choice_p [0.3; 3.0; 5.0] [0.3; 0.5; 0.2]
  else ret 1.0.

End WithConfig.

End Dist.

(* ===================================================================== *)
(** * data_generator.py: the five tables *)
(* ===================================================================== *)

(** One record per row dict; a table is the list of its rows, in order. *)

Module Brand.
Record t : Type := mk {
  brand_id : N;
  brand_name : string;
  brand_tier : string;
  monthly_social_budget : R;
  primary_platform : string;
  avg_product_price : R;
  target_demographic : string;
  founded_year : Z
}.
End Brand.

Module Influencer.
Record t : Type := mk {
  influencer_id : N;
  username : string;
  platform : string;
  tier : string;
  follower_count : Z;
  engagement_rate : R;
  country : string;
  content_category : string;
  avg_post_frequency : R;
  audience_authenticity_score : R;
  avg_collaboration_cost : R;
  account_age_months : Z;
  gender : string;
  age_group : string;
  verified : bool;
  active : bool
}.
End Influencer.

Module Post.
Record t : Type := mk {
  post_id : N;
  influencer_id : N;
  brand_id : option N;
  platform : string;
  post_date : Z;
  post_time_hour : Z;
  day_of_week : Z;
  content_type : string;
  caption_length : Z;
  hashtag_count : Z;
  has_cta : bool;
  product_count : Z;
  visual_style : string;
  dominant_color : string;
  is_sponsored : bool;
  discount_code_present : bool;
  likes : Z;
  comments : Z;
  shares : Z;
  saves : Z;
  reach : Z;
  impressions : Z
}.
End Post.

Module Conversion.
Record t : Type := mk {
  conversion_id : N;
  customer_id : N;
  post_id : option N;
  influencer_id : option N;
  brand_id : option N;
  conversion_date : Z;
  attribution_type : string;
  utm_source : string;
  utm_medium : string;
  order_value : R;
  product_category : string;
  discount_code_used : bool;
  customer_journey_length : Z;
  touchpoints_count : Z
}.
End Conversion.

Module Touchpoint.
Record t : Type := mk {
  touchpoint_id : N;
  customer_id : N;
  post_id : option N;
  touchpoint_type : string;
  touchpoint_date : Z;
  platform : string;
  contributed_to_conversion : bool;
  conversion_id : option N;
  attribution_weight : R
}.
End Touchpoint.

Module Gen.

Local Open Scope R_scope.

(** The attributes of a [SyntheticDataGenerator]; [None] until generated. *)
Record t : Type := mk {
  influencers_df : option (list Influencer.t);
  brands_df : option (list Brand.t);
  posts_df : option (list Post.t);
  conversions_df : option (list Conversion.t);
  touchpoints_df : option (list Touchpoint.t)
}.

(** [df[col]]: [None] is not subscriptable, and the frame built from an
    empty list of rows has no column at all. *)
Definition column {A : Type} (df : option (list A)) : M (list A) :=
  match df with
  | None => raise TypeError
  | Some [] => raise KeyError
  | Some rows => ret rows
  end.

(** [df.set_index(col)]: [None] has no such attribute. *)
Definition set_index {A : Type} (df : option (list A)) : M (list A) :=
  match df with
  | None => raise AttributeError
  | Some [] => raise KeyError
  | Some rows => ret rows
  end.

Fixpoint has_duplicates (ids : list N) : bool :=
  match ids with
  | [] => false
  | x :: r => existsb (N.eqb x) r || has_duplicates r
  end.

(** [.to_dict("index")] on the re-indexed frame: refuses an index with
    duplicates. *)
Definition to_dict_index {A : Type} (key : A -> N) (rows : list A)
  : M (list (N * A)) :=
  if has_duplicates (map key rows) then raise ValueError
  else ret (map (fun r => (key r, r)) rows).

(** [df.sample(1).iloc[0]]: one row, drawn from numpy's global generator. *)
Definition sample1 {A : Type} (rows : list A) : M A := Np.choice rows.

Definition is_some {A : Type} (o : option A) : bool :=
  match o with Some _ => true | None => false end.

(** [SyntheticDataGenerator.__init__]. *)
Definition init (seed : Z) : M t :=
  _ <- Np.seed seed ;;
  ret {| influencers_df := None; brands_df := None; posts_df := None;
         conversions_df := None; touchpoints_df := None |}.

Section WithConfig.

Variable cfg : Config.

Definition brand_prefixes : list string :=
  ["Maison"; "Atelier"; "Casa"; "Studio"; "House of";
   "La"; "Le"; "The"; "Modern"; "Classic"; "Urban"; "Luxe";
   "Prima"; "Bella"; "Nova"; "Vero"; "Alto"; "Aria"; "Luna"]%string.

Definition brand_suffixes : list string :=
  ["Mode"; "Style"; "Vogue"; "Chic"; "Edit"; "Label";
   "Collective"; "Co"; "Design"; "Wear"; "Fashion"; "Threads"]%string.

Definition budget_ranges : list (string * (Z * Z)) :=
  [("Luxury", (200000, 500000));
   ("Premium", (100000, 250000));
   ("Mid-market", (50000, 150000));
   ("Fast-fashion", (75000, 200000));
   ("DTC", (25000, 100000))]%string%Z.

Definition brand_row (tiers : list string) (i : Z) : M Brand.t :=
  tier <- (match nth_error tiers (Z.to_nat i) with
           | Some x => ret x
           | None => raise IndexError
           end) ;;
  prefix <- Np.choice brand_prefixes ;;
  suffix <- Np.choice brand_suffixes ;;
  let brand_name := (prefix ++ " " ++ suffix)%string in
  '(low, high) <- lift (getitem String.eqb budget_ranges tier) ;;
  monthly_budget <- Np.uniform (IZR low) (IZR high) ;;
  brand_id <- Uuid.uuid4 ;;
  platforms <- Dist.sample_from_distribution (PLATFORM_DISTRIBUTION cfg) 1 ;;
  primary_platform <- Dist.item0 platforms ;;
  avg_product_price <- Dist.generate_order_value cfg tier ;;
  target_demographic <-
    Np.choice ["18-24"; "25-34"; "35-44"; "25-44"]%string ;;
  founded_year <- Np.randint 1990 2022 ;;
  ret {| Brand.brand_id := brand_id;
         Brand.brand_name := brand_name;
         Brand.brand_tier := tier;
         Brand.monthly_social_budget := Py.round monthly_budget 2;
         Brand.primary_platform := primary_platform;
         Brand.avg_product_price := avg_product_price;
         Brand.target_demographic := target_demographic;
         Brand.founded_year := founded_year |}.

Definition generate_brands : M (list Brand.t) :=
  tiers <- Dist.sample_from_distribution (BRAND_TIERS cfg) (N_BRANDS cfg) ;;
  for_in_range (N_BRANDS cfg) (brand_row tiers).

(** The columns sampled before the loop of [generate_influencers]. *)
Record InfluencerColumns : Type := mk_columns {
  tiers : list string;
  platforms : list string;
  countries : list string;
  genders : list string;
  age_groups : list string;
  categories : list string
}.

Definition at_ (col : list string) (i : Z) : M string :=
  match nth_error col (Z.to_nat i) with
  | Some x => ret x
  | None => raise IndexError
  end.

Definition influencer_row (cols : InfluencerColumns) (i : Z)
  : M Influencer.t :=
  tier <- at_ (tiers cols) i ;;
  followers <- Dist.generate_follower_count cfg tier ;;
  engagement_rate <- Dist.generate_engagement_rate cfg tier true ;;
  influencer_id <- Uuid.uuid4 ;;
  platform <- at_ (platforms cols) i ;;
  country <- at_ (countries cols) i ;;
  content_category <- at_ (categories cols) i ;;
  avg_post_frequency <- Np.normal 4.2 1.5 ;;
  authenticity <- Dist.generate_authenticity_score cfg tier ;;
  avg_collaboration_cost <- Dist.generate_cost_per_post cfg tier followers ;;
  account_age_months <- Np.randint 12 96 ;;
  gender <- at_ (genders cols) i ;;
  age_group <- at_ (age_groups cols) i ;;
  r_verified <- Np.random ;;
  r_active <- Np.random ;;
  ret {| Influencer.influencer_id := influencer_id;
         Influencer.username :=
           ("creator_" ++ Py.format_0d 5 (i + 1))%string;
         Influencer.platform := platform;
         Influencer.tier := tier;
         Influencer.follower_count := followers;
         Influencer.engagement_rate := Py.round engagement_rate 2;
         Influencer.country := country;
         Influencer.content_category := content_category;
         Influencer.avg_post_frequency := Py.round avg_post_frequency 1;
         Influencer.audience_authenticity_score := Py.round authenticity 2;
         Influencer.avg_collaboration_cost := avg_collaboration_cost;
         Influencer.account_age_months := account_age_months;
         Influencer.gender := gender;
         Influencer.age_group := age_group;
         Influencer.verified :=
           Py.lt r_verified
                 (if existsb (String.eqb tier) ["nano"; "micro"]%string
                  then 0.1 else 0.5);
         Influencer.active := Py.lt r_active 0.95 |}.

Definition generate_influencers : M (list Influencer.t) :=
  let n := N_INFLUENCERS cfg in
  tiers <- Dist.sample_from_distribution (TIER_DISTRIBUTION cfg) n ;;
  platforms <- Dist.sample_from_distribution (PLATFORM_DISTRIBUTION cfg) n ;;
  countries <- Dist.sample_from_distribution (COUNTRY_DISTRIBUTION cfg) n ;;
  genders <- Dist.sample_from_distribution (GENDER_DISTRIBUTION cfg) n ;;
  age_groups <- Dist.sample_from_distribution (AGE_GROUP_DISTRIBUTION cfg) n ;;
  categories <-
    (if (n <? 0)%Z then raise ValueError
     else Np.choice_size (CONTENT_CATEGORIES cfg) (Z.to_nat n)) ;;
  for_in_range n
    (influencer_row (mk_columns tiers platforms countries genders age_groups
                                categories)).

(** What [generate_posts] computes before its loop. *)
Record PostContext : Type := mk_post_context {
  pc_start_date : Z;
  pc_date_range : Z;
  pc_influencer_ids : list N;
  pc_brand_ids : list N;
  pc_inf_lookup : list (N * Influencer.t)
}.

Definition post_row (ctx : PostContext) (i : Z) : M Post.t :=
  inf_id <- Np.choice (pc_influencer_ids ctx) ;;
  inf_data <- lift (getitem N.eqb (pc_inf_lookup ctx) inf_id) ;;
  let platform := Influencer.platform inf_data in
  random_days <- Np.randint 0 (pc_date_range ctx) ;;
  post_date <- lift (Datetime.add_days (pc_start_date ctx) random_days) ;;
  let month := Datetime.month_of post_date in
  '(hour, day_of_week) <- Dist.generate_post_time cfg ;;
  let content_types :=
    get_default String.eqb (CONTENT_TYPE_BY_PLATFORM cfg) platform
                [("photo"%string, 1.0)] in
  sampled <- Dist.sample_from_distribution content_types 1 ;;
  content_type <- Dist.item0 sampled ;;
  r_sponsored <- Np.random ;;
  let is_sponsored :=
    Py.lt r_sponsored
          (if existsb (String.eqb (Influencer.tier inf_data))
                      ["mid"; "macro"; "mega"]%string
           then 0.25 else 0.10) in
  outlier_mult <- Dist.generate_outlier_probability (Influencer.tier inf_data) ;;
  seasonality <- lift (getitem Z.eqb (MONTHLY_SEASONALITY cfg) month) ;;
  base_engagement <-
    Dist.generate_engagement_metrics
      (Influencer.follower_count inf_data)
      (Influencer.engagement_rate inf_data * seasonality)
      content_type
      (Py.gt outlier_mult 2) ;;
  '(reach, impressions) <-
    Dist.generate_reach_impressions
      (Influencer.follower_count inf_data)
      (Influencer.engagement_rate inf_data) ;;
  post_id <- Uuid.uuid4 ;;
  brand_id <- (if is_sponsored
               then b <- Np.choice (pc_brand_ids ctx) ;; ret (Some b)
               else ret None) ;;
  caption_length <- Dist.generate_caption_length ;;
  hashtag_count <- Dist.generate_hashtag_count platform ;;
  r_cta <- Np.random ;;
  product_count <- (if is_sponsored then Np.poisson 2 else ret 0%Z) ;;
  styles <- Dist.sample_from_distribution (VISUAL_STYLES cfg) 1 ;;
  visual_style <- Dist.item0 styles ;;
  dominant_color <- Np.choice (DOMINANT_COLORS cfg) ;;
  discount_code_present <-
    (if is_sponsored
     then r <- Np.random ;; ret (Py.lt r 0.30)
     else ret false) ;;
  ret {| Post.post_id := post_id;
         Post.influencer_id := inf_id;
         Post.brand_id := brand_id;
         Post.platform := platform;
         Post.post_date := post_date;
         Post.post_time_hour := hour;
         Post.day_of_week := day_of_week;
         Post.content_type := content_type;
         Post.caption_length := Py.item caption_length;
         Post.hashtag_count := Py.item hashtag_count;
         Post.has_cta := Py.lt r_cta 0.45;
         Post.product_count := product_count;
         Post.visual_style := visual_style;
         Post.dominant_color := dominant_color;
         Post.is_sponsored := is_sponsored;
         Post.discount_code_present := discount_code_present;
         Post.likes := Dist.likes base_engagement;
         Post.comments := Dist.comments base_engagement;
         Post.shares := Dist.shares base_engagement;
         Post.saves := Dist.saves base_engagement;
         Post.reach := reach;
         Post.impressions := impressions |}.

Definition generate_posts (self : t) : M (list Post.t) :=
  start_date <- lift (Datetime.strptime (DATE_START cfg)) ;;
  end_date <- lift (Datetime.strptime (DATE_END cfg)) ;;
  let date_range := (end_date - start_date)%Z in
  influencers <- column (influencers_df self) ;;
  let influencer_ids := map Influencer.influencer_id influencers in
  brands <- column (brands_df self) ;;
  let brand_ids := map Brand.brand_id brands in
  inf_lookup <- to_dict_index Influencer.influencer_id influencers ;;
  for_in_range (N_POSTS cfg)
    (post_row (mk_post_context start_date date_range influencer_ids brand_ids
                               inf_lookup)).

(** What [generate_conversions] computes before its loop. *)
Record ConversionContext : Type := mk_conversion_context {
  cc_sponsored_posts : list Post.t;
  cc_brand_lookup : list (N * Brand.t);
  cc_start_date : Z;
  cc_end_date : Z;
  cc_date_range : Z
}.

Definition product_categories : list string :=
  ["Clothing"; "Accessories"; "Footwear"; "Bags"; "Jewelry"]%string.

Definition conversion_row (self : t) (ctx : ConversionContext) (i : Z)
  : M Conversion.t :=
  r_attribution <- Np.random ;;
  let has_attribution := Py.lt r_attribution 0.65 in
  '(post_id, influencer_id, brand_id, conversion_date, journey_length) <-
    (if has_attribution
        && (0 <? Z.of_nat (List.length (cc_sponsored_posts ctx)))%Z
     then
       post <- sample1 (cc_sponsored_posts ctx) ;;
       let post_date := Post.post_date post in
       journey_length <- Dist.generate_customer_journey_length ;;
       days <- lift (Datetime.timedelta journey_length) ;;
       shifted <- lift (Datetime.add_days post_date days) ;;
       ret (Some (Post.post_id post), Some (Post.influencer_id post),
            Post.brand_id post, Z.min shifted (cc_end_date ctx),
            journey_length)
     else
       brands <- column (brands_df self) ;;
       brand_id <- Np.choice (map Brand.brand_id brands) ;;
       random_days <- Np.randint 0 (cc_date_range ctx) ;;
       conversion_date <-
         lift (Datetime.add_days (cc_start_date ctx) random_days) ;;
       journey_length <- Dist.generate_customer_journey_length ;;
       ret (None, None, Some brand_id, conversion_date, journey_length)) ;;
  brand_tier <-
    (match brand_id with
     | Some b =>
         brand <- lift (getitem N.eqb (cc_brand_lookup ctx) b) ;;
         ret (Brand.brand_tier brand)
     | None => ret "Mid-market"%string
     end) ;;
  conversion_id <- Uuid.uuid4 ;;
  customer_id <- Uuid.uuid4 ;;
  attribution_type <-
    Np.choice_p
      ["first_touch"; "last_touch"; "linear"; "time_decay";
       "position_based"]%string
      [0.15; 0.25; 0.20; 0.25; 0.15] ;;
  utm_source <-
    Np.choice ["instagram"; "tiktok"; "youtube"; "twitter"; "direct";
               "organic"]%string ;;
  utm_medium <-
    Np.choice ["social"; "influencer"; "organic"; "paid"]%string ;;
  order_value <- Dist.generate_order_value cfg brand_tier ;;
  product_category <- Np.choice product_categories ;;
  discount_code_used <-
    (if is_some post_id
     then r <- Np.random ;; ret (Py.lt r 0.40)
     else ret false) ;;
  touchpoints_count <- Dist.generate_touchpoints_count ;;
  ret {| Conversion.conversion_id := conversion_id;
         Conversion.customer_id := customer_id;
         Conversion.post_id := post_id;
         Conversion.influencer_id := influencer_id;
         Conversion.brand_id := brand_id;
         Conversion.conversion_date := conversion_date;
         Conversion.attribution_type := attribution_type;
         Conversion.utm_source := utm_source;
         Conversion.utm_medium := utm_medium;
         Conversion.order_value := order_value;
         Conversion.product_category := product_category;
         Conversion.discount_code_used := discount_code_used;
         Conversion.customer_journey_length := Py.item journey_length;
         Conversion.touchpoints_count := Py.item touchpoints_count |}.

Definition generate_conversions (self : t) : M (list Conversion.t) :=
  posts <- column (posts_df self) ;;
  let sponsored_posts := filter Post.is_sponsored posts in
  brands <- set_index (brands_df self) ;;
  brand_lookup <- to_dict_index Brand.brand_id brands ;;
  start_date <- lift (Datetime.strptime (DATE_START cfg)) ;;
  end_date <- lift (Datetime.strptime (DATE_END cfg)) ;;
  let date_range := (end_date - start_date)%Z in
  for_in_range (N_CONVERSIONS cfg)
    (conversion_row self
       (mk_conversion_context sponsored_posts brand_lookup start_date end_date
                              date_range)).

Definition touchpoint_types : list string :=
  ["view"; "click"; "save"; "like"; "comment"; "website_visit";
   "add_to_cart"]%string.

Definition touchpoint_row (self : t)
  (conversions_with_posts : list Conversion.t) (i : Z) : M Touchpoint.t :=
  r_leads <- Np.random ;;
  let leads_to_conversion := Py.lt r_leads 0.30 in
  '(conversion_id, customer_id, post_id, touchpoint_date) <-
    (if leads_to_conversion
        && (0 <? Z.of_nat (List.length conversions_with_posts))%Z
     then
       conversion <- sample1 conversions_with_posts ;;
       let conv_date := Conversion.conversion_date conversion in
       days_before <-
         Np.randint 0 (Z.max 1 (Conversion.customer_journey_length conversion)) ;;
       touchpoint_date <- lift (Datetime.add_days conv_date (- days_before)) ;;
       ret (Some (Conversion.conversion_id conversion),
            Conversion.customer_id conversion,
            Conversion.post_id conversion,
            touchpoint_date)
     else
       customer_id <- Uuid.uuid4 ;;
       r_post <- Np.random ;;
       post_id <- (if Py.lt r_post 0.7
                   then
                     posts <- column (posts_df self) ;;
                     p <- Np.choice (map Post.post_id posts) ;;
                     ret (Some p)
                   else ret None) ;;
       start_date <- lift (Datetime.strptime (DATE_START cfg)) ;;
       end_date <- lift (Datetime.strptime (DATE_END cfg)) ;;
       random_days <- Np.randint 0 (end_date - start_date) ;;
       touchpoint_date <- lift (Datetime.add_days start_date random_days) ;;
       ret (None, customer_id, post_id, touchpoint_date)) ;;
  platform <-
    (match post_id with
     | Some pid =>
         posts <- column (posts_df self) ;;
         let post_platform :=
           map Post.platform
               (filter (fun p => N.eqb (Post.post_id p) pid) posts) in
         match post_platform with
         | x :: _ => ret x
         | [] => Np.choice ["Instagram"; "TikTok"; "YouTube"; "Twitter"]%string
         end
     | None =>
         Np.choice ["Instagram"; "TikTok"; "YouTube"; "Twitter";
                    "Website"]%string
     end) ;;
  touchpoint_id <- Uuid.uuid4 ;;
  touchpoint_type <-
    Np.choice_p touchpoint_types [0.35; 0.20; 0.10; 0.15; 0.05; 0.10; 0.05] ;;
  attribution_weight <-
    (if leads_to_conversion
     then u <- Np.uniform 0.05 0.40 ;; ret (Py.round u 3)
     else ret 0.0) ;;
  ret {| Touchpoint.touchpoint_id := touchpoint_id;
         Touchpoint.customer_id := customer_id;
         Touchpoint.post_id := post_id;
         Touchpoint.touchpoint_type := touchpoint_type;
         Touchpoint.touchpoint_date := touchpoint_date;
         Touchpoint.platform := platform;
         Touchpoint.contributed_to_conversion := leads_to_conversion;
         Touchpoint.conversion_id := conversion_id;
         Touchpoint.attribution_weight := attribution_weight |}.

Definition generate_touchpoints (self : t) : M (list Touchpoint.t) :=
  conversions <- column (conversions_df self) ;;
  let conversions_with_posts :=
    filter (fun c => is_some (Conversion.post_id c)) conversions in
  for_in_range (N_TOUCHPOINTS cfg)
    (touchpoint_row self conversions_with_posts).

(** [generate_all]: the five tables in dependency order, each stored on
    [self] before the next is generated.  Writing the CSV files ([save]) is
    outside the model. *)
Definition generate_all (self : t) : M t :=
  brands <- generate_brands ;;
  let self := mk (influencers_df self) (Some brands) (posts_df self)
                 (conversions_df self) (touchpoints_df self) in
  influencers <- generate_influencers ;;
  let self := mk (Some influencers) (brands_df self) (posts_df self)
                 (conversions_df self) (touchpoints_df self) in
  posts <- generate_posts self ;;
  let self := mk (influencers_df self) (brands_df self) (Some posts)
                 (conversions_df self) (touchpoints_df self) in
  conversions <- generate_conversions self ;;
  let self := mk (influencers_df self) (brands_df self) (posts_df self)
                 (Some conversions) (touchpoints_df self) in
  touchpoints <- generate_touchpoints self ;;
  ret (mk (influencers_df self) (brands_df self) (posts_df self)
          (conversions_df self) (Some touchpoints)).

(** [main]: a generator seeded with [config.RANDOM_SEED], then [generate_all]. *)
Definition main : M t :=
  generator <- init (RANDOM_SEED cfg) ;;
  generate_all generator.

End WithConfig.

End Gen.

(* ===================================================================== *)
(** * generate_scores.py *)
(* ===================================================================== *)

(** The script from the three tables it reads to the rows it writes; reading
    and writing the CSV files is outside the model.  A float column that a
    left merge leaves without a value holds NaN, kept as [None]. *)
Module Scores.

Local Open Scope R_scope.

(** A row of [influencer_scores.csv] ([output_cols]). *)
Record ScoreRow : Type := mk {
  influencer_id : N;
  username : string;
  platform : string;
  tier : string;
  follower_count : Z;
  engagement_rate : R;
  audience_authenticity_score : R;
  avg_collaboration_cost : R;
  total_posts : option Z;
  sponsored_posts : option Z;
  conversions : Z;
  revenue : R;
  engagement_quality_score : R;
  authenticity_score : R;
  conversion_score : R;
  roi_score : R;
  brand_alignment_score : R;
  influencer_score : R;
  performance_segment : string
}.

(** One group of [posts.groupby('influencer_id').agg(...)]. *)
Record PostMetrics : Type := mk_metrics {
  pm_total_posts : Z;
  pm_likes : Z;
  pm_comments : Z;
  pm_saves : Z;
  pm_shares : Z;
  pm_reach : Z;
  pm_sponsored_posts : Z
}.

Definition sum_int {A : Type} (f : A -> Z) (rows : list A) : Z :=
  fold_left (fun acc r => (acc + f r)%Z) rows 0%Z.

Definition sum_float {A : Type} (f : A -> R) (rows : list A) : R :=
  fold_left (fun acc r => acc + f r) rows 0.

(** The group of one influencer, [None] when it has no post. *)
Definition inf_post_metrics (posts : list Post.t) (id : N)
  : option PostMetrics :=
  match filter (fun p => N.eqb (Post.influencer_id p) id) posts with
  | [] => None
  | group =>
      Some {| pm_total_posts := Z.of_nat (List.length group);
              pm_likes := sum_int Post.likes group;
              pm_comments := sum_int Post.comments group;
              pm_saves := sum_int Post.saves group;
              pm_shares := sum_int Post.shares group;
              pm_reach := sum_int Post.reach group;
              pm_sponsored_posts :=
                sum_int (fun p => if Post.is_sponsored p then 1 else 0)%Z
                        group |}
  end.

(** The group of one influencer among the conversions that name an
    influencer: [(conversions, revenue)], after [fillna(0)]. *)
Definition inf_conversions (conversions : list Conversion.t) (id : N)
  : Z * R :=
  let group :=
    filter (fun c => match Conversion.influencer_id c with
                     | Some i => N.eqb i id
                     | None => false
                     end) conversions in
  (Z.of_nat (List.length group), sum_float Conversion.order_value group).

(** [engagement_quality], after [fillna(0)].  A zero follower count gives
    NaN (filled) when the weighted engagement is zero or missing, and an
    infinity otherwise, which the scaler refuses. *)
Definition engagement_quality (inf : Influencer.t) (m : option PostMetrics)
  : result R :=
  match m with
  | None => Ok 0
  | Some m =>
      let weighted_engagement :=
        (pm_likes m + pm_comments m * 2 + pm_saves m * 3 + pm_shares m * 2)%Z in
      if (Influencer.follower_count inf =? 0)%Z
      then if (weighted_engagement =? 0)%Z then Ok 0 else Raise ValueError
      else Ok (IZR weighted_engagement
               / (IZR (Influencer.follower_count inf) / 1000))
  end.

(** [conversion_rate]: [np.where(sponsored_posts > 0, conversions /
    sponsored_posts, 0)]. *)
Definition conversion_rate (m : option PostMetrics) (conversions : Z) : R :=
  match m with
  | Some m =>
      if (0 <? pm_sponsored_posts m)%Z
      then IZR conversions / IZR (pm_sponsored_posts m)
      else 0
  | None => 0
  end.

(** [roi_capped]. *)
Definition roi_capped (inf : Influencer.t) (m : option PostMetrics)
  (revenue : R) : R :=
  let sponsored := match m with Some m => IZR (pm_sponsored_posts m) | None => 0 end in
  let total_cost := Influencer.avg_collaboration_cost inf * sponsored in
  let roi := if Py.gt total_cost 0
             then (revenue - total_cost) / total_cost
             else 0 in
  Py.clip roi (-1) 10.

(** [np.finfo(np.float64).eps]. *)
Definition eps : R := / 2 ^ 52.

(** [MinMaxScaler(feature_range=(0, 100)).fit_transform] on one column: a
    column without rows is refused, and a constant column keeps scale 100.
    The scaling [X * scale_ + min_] is written here as the exact operation;
    scikit-learn computes it in binary64 and does not clip, so a scaled value
    of the script can differ from this one in its last bits (a maximum of
    99.99999999999997 or 100.00000000000001 for 100).  What is proved of
    [generate_scores] takes the scaled columns as they come and does not
    depend on their values. *)
Definition fit_transform (X : list R) : result (list R) :=
  match X with
  | [] => Raise ValueError
  | x0 :: r =>
      let data_min := fold_left Rmin r x0 in
      let data_max := fold_left Rmax r x0 in
      let data_range := data_max - data_min in
      let scale := (100 - 0) / (if Py.lt data_range (10 * eps)
                                then 1 else data_range) in
      let min_ := 0 - data_min * scale in
      Ok (map (fun x => x * scale + min_) X)
  end.

Definition alignment_scores : list (string * R) :=
  [("Luxury Fashion", 95); ("Streetwear", 85); ("Sustainable Fashion", 90);
   ("Fast Fashion", 80); ("Accessories", 85); ("Footwear", 82);
   ("Activewear", 78); ("Vintage/Thrift", 88)]%string.

(** The composite score of five sub-scores. *)
Definition influencer_score_of (engagement_quality_score authenticity_score
  conversion_score roi_score brand_alignment_score : R) : R :=
  0.25 * engagement_quality_score + 0.25 * authenticity_score
  + 0.30 * conversion_score + 0.15 * roi_score
  + 0.05 * brand_alignment_score.

(** The lambda applied to the composite score. *)
Definition performance_segment_of (x : R) : string :=
  if Py.ge x 75 then "High Performer"
  else if Py.ge x 50 then "Medium Performer"
  else "Low Performer".

Fixpoint traverse {A B : Type} (f : A -> result B) (l : list A)
  : result (list B) :=
  match l with
  | [] => Ok []
  | x :: r =>
      match f x with
      | Raise e => Raise e
      | Ok y =>
          match traverse f r with
          | Raise e => Raise e
          | Ok ys => Ok (y :: ys)
          end
      end
  end.

(** One output row from an influencer and its three scaled scores. *)
Definition score_row (posts : list Post.t) (conversions : list Conversion.t)
  (entry : Influencer.t * R * R * R) : ScoreRow :=
  let '(inf, eq_score, conv_score, roi_score) := entry in
  let m := inf_post_metrics posts (Influencer.influencer_id inf) in
  let cr := inf_conversions conversions (Influencer.influencer_id inf) in
  let authenticity := Influencer.audience_authenticity_score inf * 100 in
  let alignment :=
    get_default String.eqb alignment_scores
                (Influencer.content_category inf) 75 in
  let score :=
    influencer_score_of eq_score authenticity conv_score roi_score alignment in
  {| influencer_id := Influencer.influencer_id inf;
     username := Influencer.username inf;
     platform := Influencer.platform inf;
     tier := Influencer.tier inf;
     follower_count := Influencer.follower_count inf;
     engagement_rate := Influencer.engagement_rate inf;
     audience_authenticity_score := Influencer.audience_authenticity_score inf;
     avg_collaboration_cost := Influencer.avg_collaboration_cost inf;
     total_posts := option_map pm_total_posts m;
     sponsored_posts := option_map pm_sponsored_posts m;
     conversions := fst cr;
     revenue := snd cr;
     engagement_quality_score := eq_score;
     authenticity_score := authenticity;
     conversion_score := conv_score;
     roi_score := roi_score;
     brand_alignment_score := alignment;
     influencer_score := score;
     performance_segment := performance_segment_of score |}.

(** The script on tables with rows: one output row per influencer row, in
    order. *)
Definition score_table (influencers : list Influencer.t)
  (posts : list Post.t) (conversions : list Conversion.t)
  : result (list ScoreRow) :=
  let metrics inf := inf_post_metrics posts (Influencer.influencer_id inf) in
  let conv inf := inf_conversions conversions (Influencer.influencer_id inf) in
  match traverse (fun inf => engagement_quality inf (metrics inf)) influencers with
  | Raise e => Raise e
  | Ok qualities =>
      match fit_transform qualities with
      | Raise e => Raise e
      | Ok eq_scores =>
          match fit_transform
                  (map (fun inf => conversion_rate (metrics inf) (fst (conv inf)))
                       influencers) with
          | Raise e => Raise e
          | Ok conv_scores =>
              match fit_transform
                      (map (fun inf => roi_capped inf (metrics inf)
                                                  (snd (conv inf)))
                           influencers) with
              | Raise e => Raise e
              | Ok roi_scores =>
                  Ok (map (score_row posts conversions)
                          (combine (combine (combine influencers eq_scores)
                                            conv_scores)
                                   roi_scores))
              end
          end
      end
  end.

(** The script.  A [posts.csv] without rows is read with [object] columns,
    and the left merge leaves them so: the arithmetic on them is Python's
    own, and the division by the total cost, which is zero for every
    influencer, raises [ZeroDivisionError] where a float column gives NaN.
    With no influencer either, the scaler meets its empty column first. *)
Definition generate_scores (influencers : list Influencer.t)
  (posts : list Post.t) (conversions : list Conversion.t)
  : result (list ScoreRow) :=
  match posts, influencers with
  | [], _ :: _ => Raise ZeroDivisionError
  | _, _ => score_table influencers posts conversions
  end.

End Scores.

(* ===================================================================== *)
(** * Worlds and tables used as concrete inputs *)
(* ===================================================================== *)

(** The world whose generator yields the variate [z] at every draw, whose
    entropy source yields [id] at every read and whose floating-point results
    all carry the relative error [e] (as far as the operation allows);
    with [e = 0], the world of exact arithmetic. *)
Definition rounding_world (z : R) (id : N) (e : R) : World :=
  mk_World (fun _ _ => z) 42 0 (fun _ => id) 0 (fun _ => e).

Definition constant_world (z : R) (id : N) : World := rounding_world z id 0.

(** The shipped configuration with the posting-time weights divided by their
    sum, 1.19, so that numpy accepts them. *)
Definition config_normalised : Config := {|
  RANDOM_SEED := RANDOM_SEED config;
  N_INFLUENCERS := N_INFLUENCERS config;
  N_POSTS := N_POSTS config;
  N_BRANDS := N_BRANDS config;
  N_CONVERSIONS := N_CONVERSIONS config;
  N_TOUCHPOINTS := N_TOUCHPOINTS config;
  DATE_START := DATE_START config;
  DATE_END := DATE_END config;
  PLATFORM_DISTRIBUTION := PLATFORM_DISTRIBUTION config;
  TIER_DISTRIBUTION := TIER_DISTRIBUTION config;
  TIER_FOLLOWER_RANGES := TIER_FOLLOWER_RANGES config;
  TIER_ENGAGEMENT_RATES := TIER_ENGAGEMENT_RATES config;
  TIER_AUTHENTICITY_SCORES := TIER_AUTHENTICITY_SCORES config;
  TIER_COST_PER_POST := TIER_COST_PER_POST config;
  CONTENT_CATEGORIES := CONTENT_CATEGORIES config;
  COUNTRY_DISTRIBUTION := COUNTRY_DISTRIBUTION config;
  GENDER_DISTRIBUTION := GENDER_DISTRIBUTION config;
  AGE_GROUP_DISTRIBUTION := AGE_GROUP_DISTRIBUTION config;
  CONTENT_TYPE_BY_PLATFORM := CONTENT_TYPE_BY_PLATFORM config;
  POSTING_TIME_DISTRIBUTION :=
    map (fun hp => (fst hp, (snd hp / 1.19)%R)) (POSTING_TIME_DISTRIBUTION config);
  DAY_OF_WEEK_DISTRIBUTION := DAY_OF_WEEK_DISTRIBUTION config;
  VISUAL_STYLES := VISUAL_STYLES config;
  DOMINANT_COLORS := DOMINANT_COLORS config;
  BRAND_TIERS := BRAND_TIERS config;
  BRAND_AOV := BRAND_AOV config;
  MONTHLY_SEASONALITY := MONTHLY_SEASONALITY config
|}.

(** A brand table and an influencer table of one row each. *)
Definition brand0 : Brand.t := {|
  Brand.brand_id := 1;
  Brand.brand_name := "Maison Mode";
  Brand.brand_tier := "Luxury";
  Brand.monthly_social_budget := 300000;
  Brand.primary_platform := "Instagram";
  Brand.avg_product_price := 900;
  Brand.target_demographic := "25-34";
  Brand.founded_year := 2001
|}.

Definition influencer0 : Influencer.t := {|
  Influencer.influencer_id := 7;
  Influencer.username := "creator_00001";
  Influencer.platform := "Instagram";
  Influencer.tier := "mid";
  Influencer.follower_count := 250000;
  Influencer.engagement_rate := 2.2;
  Influencer.country := "France";
  Influencer.content_category := "Streetwear";
  Influencer.avg_post_frequency := 4.2;
  Influencer.audience_authenticity_score := 0.82;
  Influencer.avg_collaboration_cost := 2500;
  Influencer.account_age_months := 36;
  Influencer.gender := "Female";
  Influencer.age_group := "25-34";
  Influencer.verified := true;
  Influencer.active := true
|}.

(** A generator that holds these two tables and no other. *)
Definition generator0 : Gen.t := {|
  Gen.influencers_df := Some [influencer0];
  Gen.brands_df := Some [brand0];
  Gen.posts_df := None;
  Gen.conversions_df := None;
  Gen.touchpoints_df := None
|}.

(** The same generator once it holds the post table [posts]. *)
Definition generator0_with_posts (posts : list Post.t) : Gen.t := {|
  Gen.influencers_df := Some [influencer0];
  Gen.brands_df := Some [brand0];
  Gen.posts_df := Some posts;
  Gen.conversions_df := None;
  Gen.touchpoints_df := None
|}.

(** A sponsored post of [influencer0] for [brand0], dated 2024-03-01. *)
Definition post0 : Post.t := {|
  Post.post_id := 11;
  Post.influencer_id := 7;
  Post.brand_id := Some 1%N;
  Post.platform := "Instagram";
  Post.post_date := 738946;
  Post.post_time_hour := 12;
  Post.day_of_week := 4;
  Post.content_type := "reel";
  Post.caption_length := 180;
  Post.hashtag_count := 8;
  Post.has_cta := true;
  Post.product_count := 2;
  Post.visual_style := "lifestyle";
  Post.dominant_color := "ivory";
  Post.is_sponsored := true;
  Post.discount_code_present := false;
  Post.likes := 5000;
  Post.comments := 250;
  Post.shares := 100;
  Post.saves := 150;
  Post.reach := 75000;
  Post.impressions := 110000
|}.

(** A conversion attributed to [post0] three days later, and one attributed
    to no post. *)
Definition conversion0 : Conversion.t := {|
  Conversion.conversion_id := 21;
  Conversion.customer_id := 31;
  Conversion.post_id := Some 11%N;
  Conversion.influencer_id := Some 7%N;
  Conversion.brand_id := Some 1%N;
  Conversion.conversion_date := 738949;
  Conversion.attribution_type := "linear";
  Conversion.utm_source := "instagram";
  Conversion.utm_medium := "social";
  Conversion.order_value := 850;
  Conversion.product_category := "Bags";
  Conversion.discount_code_used := false;
  Conversion.customer_journey_length := 3;
  Conversion.touchpoints_count := 2
|}.

Definition conversion_without_post : Conversion.t := {|
  Conversion.conversion_id := 22;
  Conversion.customer_id := 32;
  Conversion.post_id := None;
  Conversion.influencer_id := None;
  Conversion.brand_id := Some 1%N;
  Conversion.conversion_date := 738950;
  Conversion.attribution_type := "last_touch";
  Conversion.utm_source := "direct";
  Conversion.utm_medium := "organic";
  Conversion.order_value := 640;
  Conversion.product_category := "Clothing";
  Conversion.discount_code_used := false;
  Conversion.customer_journey_length := 5;
  Conversion.touchpoints_count := 1
|}.

(** A generator holding [post0] and the given conversion table. *)
Definition generator_with_conversions (conversions : list Conversion.t)
  : Gen.t := {|
  Gen.influencers_df := Some [influencer0];
  Gen.brands_df := Some [brand0];
  Gen.posts_df := Some [post0];
  Gen.conversions_df := Some conversions;
  Gen.touchpoints_df := None
|}.

(** The worlds whose generator yields the variate 0 at every draw, whatever
    the seed. *)
Definition zero_world (w : World) : Prop :=
  forall s n, mt19937 w s n = 0%R.

(** The worlds whose generator yields the variate 0.7 at every draw: no draw
    of [np.random.random()] falls below 0.65. *)
Definition late_world (w : World) : Prop :=
  forall s n, mt19937 w s n = 0.7%R.

(** The worlds whose entropy source yields [id] at every read. *)
Definition entropy_is (id : N) (w : World) : Prop :=
  forall n, os_entropy w n = id.

(** The worlds in which every draw of [uniform] is the largest one and every
    floating-point result is rounded up as far as it can be. *)
Definition top_world (w : World) : Prop :=
  (forall s n, mt19937 w s n = 1%R) /\ (forall x, rounding w x = 1%R).

(** The worlds in which every draw of [uniform] is the smallest one and every
    floating-point result is rounded down as far as it can be. *)
Definition bottom_world (w : World) : Prop :=
  (forall s n, mt19937 w s n = 0%R) /\ (forall x, rounding w x = (-1)%R).

(* ===================================================================== *)
(** * Specifications of computations *)
(* ===================================================================== *)

(** [post c Q]: whenever [c] returns, its value satisfies [Q]. *)
Definition post {A : Type} (c : M A) (Q : A -> Prop) : Prop :=
  forall w a w', c w = Ok (a, w') -> Q a.

(** [total c Q]: from every world [c] returns, and its value satisfies [Q]. *)
Definition total {A : Type} (c : M A) (Q : A -> Prop) : Prop :=
  forall w, exists a w', c w = Ok (a, w') /\ Q a.

(** [total_in I c Q]: from every world satisfying [I], [c] returns a value
    satisfying [Q] and leaves a world satisfying [I]. *)
Definition total_in (I : World -> Prop) {A : Type} (c : M A) (Q : A -> Prop)
  : Prop :=
  forall w, I w -> exists a w', c w = Ok (a, w') /\ Q a /\ I w'.

(** A property of worlds that speaks of the two sources and of the
    arithmetic only, not of how far the sources have been read nor of the
    current seed. *)
Definition stable (I : World -> Prop) : Prop :=
  forall w s n k,
    I w -> I (mk_World (mt19937 w) s n (os_entropy w) k (rounding w)).

(** [raises c e]: from every world [c] raises [e]. *)
Definition raises {A : Type} (c : M A) (e : exn) : Prop :=
  forall w, c w = Raise e.

(** An influencer row against the shipped tables: one of the five tiers, an
    engagement rate within [0.5, 12], and a follower count that the
    truncation of [exp(log ...)] keeps from one below the lower end of the
    tier's range up to its upper end. *)
Definition influencer_near_range (r : Influencer.t) : Prop :=
  In (Influencer.tier r) ["nano"; "micro"; "mid"; "macro"; "mega"]%string
  /\ (exists low high,
        getitem String.eqb (TIER_FOLLOWER_RANGES config) (Influencer.tier r)
        = Ok (low, high)
        /\ (low - 1 <= Influencer.follower_count r <= high)%Z)
  /\ (0.5 <= Influencer.engagement_rate r <= 12.0)%R.

(** What one iteration of [generate_posts] guarantees of its row. *)
Definition post_row_ok (ctx : Gen.PostContext) (p : Post.t) : Prop :=
  (Post.is_sponsored p = true <-> Post.brand_id p <> None)
  /\ (forall b, Post.brand_id p = Some b -> In b (Gen.pc_brand_ids ctx))
  /\ In (Post.influencer_id p) (Gen.pc_influencer_ids ctx)
  /\ (Gen.pc_start_date ctx <= Post.post_date p
       < Gen.pc_start_date ctx + Gen.pc_date_range ctx)%Z.

(** What one iteration of [generate_conversions] guarantees of its row: the
    journey length is within [1, 90], and the row names no post and no
    influencer, because the branch that attributes a conversion to a post
    hands [timedelta] a [numpy.int64] and never returns. *)
Definition conversion_row_ok (c : Conversion.t) : Prop :=
  (1 <= Conversion.customer_journey_length c <= 90)%Z
  /\ Conversion.post_id c = None
  /\ Conversion.influencer_id c = None.

(** What one iteration of [generate_touchpoints] guarantees of its row. *)
Definition touchpoint_row_ok (conversions_with_posts : list Conversion.t)
  (tp : Touchpoint.t) : Prop :=
  (forall cid, Touchpoint.conversion_id tp = Some cid ->
     Touchpoint.contributed_to_conversion tp = true
     /\ exists c,
          In c conversions_with_posts
          /\ Conversion.conversion_id c = cid
          /\ Touchpoint.customer_id tp = Conversion.customer_id c
          /\ Touchpoint.post_id tp = Conversion.post_id c
          /\ (Touchpoint.touchpoint_date tp <= Conversion.conversion_date c)%Z
          /\ (Conversion.conversion_date c - Touchpoint.touchpoint_date tp
              < Z.max 1 (Conversion.customer_journey_length c))%Z)
  /\ (conversions_with_posts <> [] ->
      Touchpoint.contributed_to_conversion tp = true ->
      Touchpoint.conversion_id tp <> None)
  /\ (Touchpoint.contributed_to_conversion tp = true ->
      (0.05 <= Touchpoint.attribution_weight tp <= 0.40)%R)
  /\ (Touchpoint.contributed_to_conversion tp = false ->
      Touchpoint.attribution_weight tp = 0%R).

(** C3 on one post row: sponsored exactly when a brand id is present, and a
    present brand id is the id of a row of [brands]. *)
Definition sponsored_iff_brand (brands : list Brand.t) (p : Post.t) : Prop :=
  (Post.is_sponsored p = true <-> Post.brand_id p <> None)
  /\ (Post.is_sponsored p = false -> Post.brand_id p = None)
  /\ (forall b, Post.brand_id p = Some b ->
        exists brand, In brand brands /\ Brand.brand_id brand = b).

(** C5 on one touchpoint row, as the code has it: a conversion reference is
    to a conversion of [conversions] that has a post, whose customer and post
    the touchpoint inherits, and the touchpoint is dated on or before the
    conversion, less than [max(1, customer_journey_length)] days before.
    When the conversion ids of the table are pairwise distinct, the bound
    holds of whichever row carries the id. *)
Definition touchpoint_not_after_conversion (conversions : list Conversion.t)
  (tp : Touchpoint.t) : Prop :=
  forall cid, Touchpoint.conversion_id tp = Some cid ->
    (exists c,
       In c conversions
       /\ Conversion.conversion_id c = cid
       /\ Conversion.post_id c <> None
       /\ Touchpoint.customer_id tp = Conversion.customer_id c
       /\ Touchpoint.post_id tp = Conversion.post_id c
       /\ (Touchpoint.touchpoint_date tp <= Conversion.conversion_date c)%Z
       /\ (Conversion.conversion_date c - Touchpoint.touchpoint_date tp
           < Z.max 1 (Conversion.customer_journey_length c))%Z)
    /\ (NoDup (map Conversion.conversion_id conversions) ->
        forall c, In c conversions -> Conversion.conversion_id c = cid ->
          (Touchpoint.touchpoint_date tp <= Conversion.conversion_date c)%Z).

(** C6 on one touchpoint row, as the code has it. *)
Definition touchpoint_weight_ok (conversions : list Conversion.t)
  (tp : Touchpoint.t) : Prop :=
  (Touchpoint.conversion_id tp <> None ->
     Touchpoint.contributed_to_conversion tp = true
     /\ (0 < Touchpoint.attribution_weight tp)%R)
  /\ (Touchpoint.contributed_to_conversion tp = true ->
        (0.05 <= Touchpoint.attribution_weight tp <= 0.40)%R)
  /\ (Touchpoint.contributed_to_conversion tp = false ->
        Touchpoint.attribution_weight tp = 0%R)
  /\ ((exists c, In c conversions /\ Conversion.post_id c <> None) ->
        (Touchpoint.conversion_id tp <> None
         <-> Touchpoint.contributed_to_conversion tp = true)
        /\ (Touchpoint.conversion_id tp = None ->
              Touchpoint.attribution_weight tp = 0%R)).

(** C9 on one row of the score table. *)
Definition score_row_ok (r : Scores.ScoreRow) : Prop :=
  (Scores.influencer_score r
   = 0.25 * Scores.engagement_quality_score r
     + 0.25 * Scores.authenticity_score r
     + 0.30 * Scores.conversion_score r
     + 0.15 * Scores.roi_score r
     + 0.05 * Scores.brand_alignment_score r)%R
  /\ (Scores.performance_segment r = "High Performer"%string
      <-> (75 <= Scores.influencer_score r)%R)
  /\ (Scores.performance_segment r = "Medium Performer"%string
      <-> (50 <= Scores.influencer_score r < 75)%R)
  /\ (Scores.performance_segment r = "Low Performer"%string
      <-> (Scores.influencer_score r < 50)%R).

(* ===================================================================== *)
(** * validators.py *)
(* ===================================================================== *)

(** [DataValidator]: the referential-integrity checks, the report, and the
    two counts of [check_data_quality] that do not go through scipy.  The
    distribution and correlation checks print pandas statistics and are
    outside the model; of their results [generate_report] reads one boolean
    each. *)
Module Validators.

Local Open Scope R_scope.







(** [self.validation_results] as [generate_report] reads it: under
    ["correlations"] one dict per check, of which it reads the entry
    ["valid"] ([None] when the dict has none); under
    ["referential_integrity"] one boolean per check.  A key is absent until
    its check has run. *)
Record ValidationResults : Type := mk_results {
  correlations : option (list (string * option bool));
  referential_integrity : option (list (string * bool))
}.

(** One of the two counting loops: [(total_checks, passed_checks)] after
    the items of a dict. *)
Definition tally {V : Type} (passes : V -> bool) (items : list (string * V))
  (counts : Z * Z) : Z * Z :=
  fold_left
    (fun counts item =>
       ((fst counts + 1)%Z,
        if passes (snd item) then (snd counts + 1)%Z else snd counts))
    items counts.

(** [generate_report]. *)
Definition generate_report (validation_results : ValidationResults)
  : string :=
  let counts := (0%Z, 0%Z) in
  let counts :=
    match correlations validation_results with
    | Some items =>
        tally (fun val => match val with Some b => b | None => false end)
              items counts
    | None => counts
    end in
  let counts :=
    match referential_integrity validation_results with
    | Some items => tally (fun val => val) items counts
    | None => counts
    end in
  if (snd counts =? fst counts)%Z then "PASS"%string else "REVIEW"%string.

(** [df[id_col].duplicated()]: a row is marked when its id is the id of an
    earlier row. *)
Fixpoint duplicated_from (seen ids : list N) : list bool :=
  match ids with
  | [] => []
  | x :: r => existsb (N.eqb x) seen :: duplicated_from (x :: seen) r
  end.

Definition duplicated (ids : list N) : list bool := duplicated_from [] ids.

(** [duplicates = df[id_col].duplicated().sum()]. *)
Definition duplicates (ids : list N) : Z :=
  fold_left (fun acc (b : bool) => if b then (acc + 1)%Z else acc)
            (duplicated ids) 0%Z.

(** [missing_pct = (missing / len(df) * 100).round(2)] for one column; on a
    frame without rows the quotient is NaN, kept as [None]. *)
Definition missing_pct (missing len_df : Z) : option R :=
  if (len_df =? 0)%Z then None
  else Some (Py.round (IZR missing / IZR len_df * 100) 2).

(** Whether the column is kept in [cols_with_missing]: [missing_pct > 0],
    which NaN does not satisfy. *)
Definition in_cols_with_missing (missing len_df : Z) : bool :=
  match missing_pct missing len_df with
  | Some pct => Py.gt pct 0
  | None => false
  end.

End Validators.



(* ===================================================================== *)
(** * Specifications of the rows, column by column *)
(* ===================================================================== *)

(** What [generate_engagement_metrics] guarantees of the dict it returns. *)
Definition engagement_metrics_ok (content_type : string)
  (m : Dist.EngagementMetrics) : Prop :=
  (1 <= Dist.likes m)%Z
  /\ (0 <= Dist.comments m)%Z
  /\ (0 <= Dist.shares m)%Z
  /\ (0 <= Dist.saves m)%Z
  /\ (IZR (Dist.comments m) <= 0.08 * IZR (Dist.likes m))%R
  /\ (IZR (Dist.shares m) <= 0.025 * IZR (Dist.likes m))%R
  /\ (IZR (Dist.saves m) <= 0.06 * IZR (Dist.likes m))%R
  /\ (~ In content_type ["product_shot"; "carousel"]%string ->
      (IZR (Dist.saves m) <= 0.04 * IZR (Dist.likes m))%R).

(** The range of [generate_hashtag_count] for each platform. *)
Definition hashtag_count_ok (platform : string) (n : Z) : Prop :=
  (platform = "Instagram"%string -> (1 <= n <= 30)%Z)
  /\ (platform = "TikTok"%string -> (1 <= n <= 10)%Z)
  /\ (platform = "Twitter"%string -> (0 <= n <= 5)%Z)
  /\ (~ In platform ["Instagram"; "TikTok"; "Twitter"]%string ->
      (1 <= n <= 5)%Z)
  /\ (0 <= n <= 30)%Z.

(** What [generate_brands] guarantees of each row. *)
Definition brand_row_ok (cfg : Config) (b : Brand.t) : Prop :=
  In (Brand.brand_tier b) (keys (BRAND_TIERS cfg))
  /\ (exists prefix suffix,
        In prefix Gen.brand_prefixes /\ In suffix Gen.brand_suffixes
        /\ Brand.brand_name b = (prefix ++ " " ++ suffix)%string)
  /\ (exists low high,
        getitem String.eqb Gen.budget_ranges (Brand.brand_tier b)
        = Ok (low, high)
        /\ (IZR low <= Brand.monthly_social_budget b <= IZR high)%R)
  /\ In (Brand.primary_platform b) (keys (PLATFORM_DISTRIBUTION cfg))
  /\ In (Brand.target_demographic b)
        ["18-24"; "25-34"; "35-44"; "25-44"]%string
  /\ (1990 <= Brand.founded_year b <= 2021)%Z
  /\ (forall lo hi,
        getitem String.eqb (BRAND_AOV cfg) (Brand.brand_tier b) = Ok (lo, hi) ->
        (0 < lo <= hi)%Z ->
        (IZR lo * 0.5 <= Brand.avg_product_price b <= IZR hi * 1.5)%R).

(** What [generate_influencers] guarantees of the row appended at iteration
    [i]. *)
Definition influencer_row_ok (cfg : Config) (i : Z) (r : Influencer.t)
  : Prop :=
  Influencer.username r = ("creator_" ++ Py.format_0d 5 (i + 1))%string
  /\ In (Influencer.tier r) (keys (TIER_DISTRIBUTION cfg))
  /\ In (Influencer.platform r) (keys (PLATFORM_DISTRIBUTION cfg))
  /\ In (Influencer.country r) (keys (COUNTRY_DISTRIBUTION cfg))
  /\ In (Influencer.gender r) (keys (GENDER_DISTRIBUTION cfg))
  /\ In (Influencer.age_group r) (keys (AGE_GROUP_DISTRIBUTION cfg))
  /\ In (Influencer.content_category r) (CONTENT_CATEGORIES cfg)
  /\ (0.5 <= Influencer.engagement_rate r <= 12.0)%R
  /\ (0.4 <= Influencer.audience_authenticity_score r <= 0.99)%R
  /\ (12 <= Influencer.account_age_months r <= 95)%Z
  /\ (forall flo fhi,
        getitem String.eqb (TIER_FOLLOWER_RANGES cfg) (Influencer.tier r)
        = Ok (flo, fhi) ->
        (0 < flo < fhi)%Z -> (fhi <= 10 ^ 7)%Z ->
        (flo - 1 <= Influencer.follower_count r <= fhi)%Z
        /\ forall low high,
             getitem String.eqb (TIER_COST_PER_POST cfg) (Influencer.tier r)
             = Ok (low, high) ->
             (0 <= low <= high)%Z ->
             (flo <= Influencer.follower_count r)%Z ->
             (0.8 * IZR low <= Influencer.avg_collaboration_cost r
              <= 1.2 * IZR high)%R).

(** What one iteration of [generate_posts] guarantees of its row, besides
    [post_row_ok]: the row of the lookup it was derived from, and the ranges
    of its columns. *)
Definition post_row_columns (cfg : Config) (ctx : Gen.PostContext)
  (p : Post.t) : Prop :=
  (exists inf,
     getitem N.eqb (Gen.pc_inf_lookup ctx) (Post.influencer_id p) = Ok inf
     /\ Post.platform p = Influencer.platform inf
     /\ ((1 <= Influencer.follower_count inf <= 10 ^ 14)%Z ->
         (IZR (Post.reach p) <= 0.52 * IZR (Influencer.follower_count inf))%R
         /\ (Post.reach p < Influencer.follower_count inf)%Z
         /\ (IZR (Post.impressions p) <= 1.8 * IZR (Post.reach p))%R))
  /\ In (Post.post_time_hour p) (keys (POSTING_TIME_DISTRIBUTION cfg))
  /\ In (Post.day_of_week p) (keys (DAY_OF_WEEK_DISTRIBUTION cfg))
  /\ In (Post.content_type p)
        (keys (get_default String.eqb (CONTENT_TYPE_BY_PLATFORM cfg)
                           (Post.platform p) [("photo"%string, 1.0%R)]))
  /\ In (Post.visual_style p) (keys (VISUAL_STYLES cfg))
  /\ In (Post.dominant_color p) (DOMINANT_COLORS cfg)
  /\ engagement_metrics_ok
       (Post.content_type p)
       (Dist.mk_EngagementMetrics (Post.likes p) (Post.comments p)
                                  (Post.shares p) (Post.saves p))
  /\ (20 <= Post.caption_length p <= 500)%Z
  /\ hashtag_count_ok (Post.platform p) (Post.hashtag_count p)
  /\ (0 <= Post.product_count p)%Z
  /\ (Post.is_sponsored p = false ->
      Post.product_count p = 0%Z /\ Post.discount_code_present p = false).

(** A post row against the influencer table: it names an influencer of the
    table, shows that influencer's platform, reaches fewer accounts than the
    influencer has followers, and is dated inside the window, its last day
    excluded. *)
Definition post_references_ok (influencers : list Influencer.t)
  (start_date end_date : Z) (p : Post.t) : Prop :=
  (exists inf,
     In inf influencers
     /\ Influencer.influencer_id inf = Post.influencer_id p
     /\ Post.platform p = Influencer.platform inf
     /\ ((1 <= Influencer.follower_count inf <= 10 ^ 14)%Z ->
         (IZR (Post.reach p) <= 0.52 * IZR (Influencer.follower_count inf))%R
         /\ (Post.reach p < Influencer.follower_count inf)%Z
         /\ (IZR (Post.impressions p) <= 1.8 * IZR (Post.reach p))%R))
  /\ (start_date <= Post.post_date p < end_date)%Z.

(** The columns of a post row that depend on no other table. *)
Definition post_columns_ok (cfg : Config) (p : Post.t) : Prop :=
  In (Post.post_time_hour p) (keys (POSTING_TIME_DISTRIBUTION cfg))
  /\ In (Post.day_of_week p) (keys (DAY_OF_WEEK_DISTRIBUTION cfg))
  /\ In (Post.content_type p)
        (keys (get_default String.eqb (CONTENT_TYPE_BY_PLATFORM cfg)
                           (Post.platform p) [("photo"%string, 1.0%R)]))
  /\ In (Post.visual_style p) (keys (VISUAL_STYLES cfg))
  /\ In (Post.dominant_color p) (DOMINANT_COLORS cfg)
  /\ engagement_metrics_ok
       (Post.content_type p)
       (Dist.mk_EngagementMetrics (Post.likes p) (Post.comments p)
                                  (Post.shares p) (Post.saves p))
  /\ (20 <= Post.caption_length p <= 500)%Z
  /\ hashtag_count_ok (Post.platform p) (Post.hashtag_count p)
  /\ (0 <= Post.product_count p)%Z
  /\ (Post.is_sponsored p = false ->
      Post.product_count p = 0%Z /\ Post.discount_code_present p = false).

(** What one iteration of [generate_conversions] guarantees of its row,
    besides [conversion_row_ok]. *)
Definition conversion_row_columns (cfg : Config) (self : Gen.t)
  (ctx : Gen.ConversionContext) (c : Conversion.t) : Prop :=
  In (Conversion.attribution_type c) Attribution.known_models
  /\ (1 <= Conversion.touchpoints_count c <= 15)%Z
  /\ In (Conversion.utm_source c)
        ["instagram"; "tiktok"; "youtube"; "twitter"; "direct";
         "organic"]%string
  /\ In (Conversion.utm_medium c)
        ["social"; "influencer"; "organic"; "paid"]%string
  /\ In (Conversion.product_category c) Gen.product_categories
  /\ Conversion.discount_code_used c = false
  /\ (exists brands b,
        Gen.brands_df self = Some brands
        /\ Conversion.brand_id c = Some b
        /\ In b (map Brand.brand_id brands))
  /\ (Gen.cc_start_date ctx <= Conversion.conversion_date c
      < Gen.cc_start_date ctx + Gen.cc_date_range ctx)%Z
  /\ (forall b, Conversion.brand_id c = Some b ->
        exists brand,
          getitem N.eqb (Gen.cc_brand_lookup ctx) b = Ok brand
          /\ forall lo hi,
               getitem String.eqb (BRAND_AOV cfg) (Brand.brand_tier brand)
               = Ok (lo, hi) ->
               (0 < lo <= hi)%Z ->
               (IZR lo * 0.5 <= Conversion.order_value c <= IZR hi * 1.5)%R).

(** A conversion row against the brand table and the window: it names a
    brand of the table, its order value lies in the clip range of that
    brand's tier, and it is dated inside the window. *)
Definition conversion_columns_ok (cfg : Config) (brands : list Brand.t)
  (start_date end_date : Z) (c : Conversion.t) : Prop :=
  Conversion.post_id c = None
  /\ Conversion.influencer_id c = None
  /\ Conversion.discount_code_used c = false
  /\ (exists brand,
        In brand brands
        /\ Conversion.brand_id c = Some (Brand.brand_id brand)
        /\ forall lo hi,
             getitem String.eqb (BRAND_AOV cfg) (Brand.brand_tier brand)
             = Ok (lo, hi) ->
             (0 < lo <= hi)%Z ->
             (IZR lo * 0.5 <= Conversion.order_value c <= IZR hi * 1.5)%R)
  /\ (start_date <= Conversion.conversion_date c < end_date)%Z
  /\ (1 <= Conversion.customer_journey_length c <= 90)%Z
  /\ (1 <= Conversion.touchpoints_count c <= 15)%Z
  /\ In (Conversion.attribution_type c) Attribution.known_models
  /\ In (Conversion.utm_source c)
        ["instagram"; "tiktok"; "youtube"; "twitter"; "direct";
         "organic"]%string
  /\ In (Conversion.utm_medium c)
        ["social"; "influencer"; "organic"; "paid"]%string
  /\ In (Conversion.product_category c) Gen.product_categories.

(** A touchpoint row against the post table of the generator. *)
Definition touchpoint_columns_ok (cfg : Config) (self : Gen.t)
  (tp : Touchpoint.t) : Prop :=
  In (Touchpoint.touchpoint_type tp) Gen.touchpoint_types
  /\ (forall pid, Touchpoint.post_id tp = Some pid ->
        exists posts,
          Gen.posts_df self = Some posts
          /\ match find (fun p => N.eqb (Post.post_id p) pid) posts with
             | Some p => Touchpoint.platform tp = Post.platform p
             | None =>
                 In (Touchpoint.platform tp)
                    ["Instagram"; "TikTok"; "YouTube"; "Twitter"]%string
             end)
  /\ (Touchpoint.post_id tp = None ->
      In (Touchpoint.platform tp)
         ["Instagram"; "TikTok"; "YouTube"; "Twitter"; "Website"]%string)
  /\ (Touchpoint.conversion_id tp = None ->
      (forall pid, Touchpoint.post_id tp = Some pid ->
         exists posts,
           Gen.posts_df self = Some posts /\ In pid (map Post.post_id posts))
      /\ exists start_date end_date,
           Datetime.strptime (DATE_START cfg) = Ok start_date
           /\ Datetime.strptime (DATE_END cfg) = Ok end_date
           /\ (start_date <= Touchpoint.touchpoint_date tp < end_date)%Z).

(** A generator holding two influencer rows with the same id. *)
Definition generator_with_twins : Gen.t := {|
  Gen.influencers_df := Some [influencer0; influencer0];
  Gen.brands_df := Some [brand0];
  Gen.posts_df := None;
  Gen.conversions_df := None;
  Gen.touchpoints_df := None
|}.



(* ===================================================================== *)
(** * Theorems: the attribution weighting function *)
(* ===================================================================== *)

Section AttributionFacts.

Import Attribution.
Local Open Scope float_scope.

Lemma count_cases (n : Z) :
  (1 <= n <= 15)%Z ->
  In n [1; 2; 3; 4; 5; 6; 7; 8; 9; 10; 11; 12; 13; 14; 15]%Z.
Proof.
  intros H. simpl.
  assert (n = 1 \/ n = 2 \/ n = 3 \/ n = 4 \/ n = 5 \/ n = 6 \/ n = 7 \/ n = 8
          \/ n = 9 \/ n = 10 \/ n = 11 \/ n = 12 \/ n = 13 \/ n = 14
          \/ n = 15)%Z as C by lia.
  intuition auto.
Qed.

(** A model name outside the five known ones reaches the final [else], whose
    body is the [linear] branch. *)
Lemma unknown_model_is_linear (n : Z) (model : string) :
  ~ In model known_models ->
  generate_attribution_weights n model = generate_attribution_weights n "linear".
Proof.
  intros H. unfold generate_attribution_weights.
  destruct (String.eqb_spec model "first_touch") as [->|_];
    [exfalso; apply H; simpl; auto|].
  destruct (String.eqb_spec model "last_touch") as [->|_];
    [exfalso; apply H; simpl; auto|].
  destruct (String.eqb_spec model "linear") as [->|_];
    [exfalso; apply H; simpl; auto 6|].
  destruct (String.eqb_spec model "time_decay") as [->|_];
    [exfalso; apply H; simpl; auto 6|].
  destruct (String.eqb_spec model "position_based") as [->|_];
    [exfalso; apply H; simpl; auto 7|].
  reflexivity.
Qed.

Ltac weights_by_computation :=
  repeat match goal with
    | |- _ /\ _ => split
    | |- forall model, ~ In model known_models -> _ =>
        exact (unknown_model_is_linear _)
    | |- forall _, _ => intro
    | H : In _ known_models |- _ =>
        simpl in H; repeat (destruct H as [<- | H]); try contradiction
    | H : (?a = ?b)%Z |- _ => discriminate H
    | H : (_ <= _)%Z |- _ => exfalso; lia
    | |- exists _, _ => eexists
    | |- _ = _ => vm_compute; reflexivity
    end.

(** C1.  For each of the five models and each touchpoint count from 1 to 15
    the function returns [n] weights whose binary64 sum is within 1e-6 of 1.0;
    [first_touch] is [1, 0, ..., 0], [last_touch] is [0, ..., 0, 1], [linear]
    is [n] copies of [1/n], [time_decay] gives position [i] the weight
    [2^i / (2^n - 1)], which is [2^i] times the first weight and grows with
    [i], [position_based] is [1.0] for one touchpoint, [0.5, 0.5] for two and
    [0.4, 0.2/(n-2), ..., 0.2/(n-2), 0.4] from three on, and a model name
    outside the five gives the [linear] weights. *)
Theorem generate_attribution_weights_spec (n : Z) :
  (1 <= n <= 15)%Z ->
  (forall model, In model known_models ->
     exists ws, generate_attribution_weights n model = Ok ws
                /\ Z.of_nat (List.length ws) = n
                /\ sums_to_one ws = true)
  /\ generate_attribution_weights n "first_touch"
       = Ok (1.0 :: repeat 0.0 (Z.to_nat (n - 1)))
  /\ generate_attribution_weights n "last_touch"
       = Ok (repeat 0.0 (Z.to_nat (n - 1)) ++ [1.0])
  /\ generate_attribution_weights n "linear"
       = Ok (repeat (1.0 / float_of_int n) (Z.to_nat n))
  /\ (exists ws,
        generate_attribution_weights n "time_decay" = Ok ws
        /\ ws = map (fun i => float_of_int (2 ^ i) / float_of_int (2 ^ n - 1))
                    (py_range n)
        /\ ws = map (fun i => float_of_int (2 ^ i) * nth 0 ws 0) (py_range n)
        /\ strictly_increasing ws = true)
  /\ (n = 1%Z -> generate_attribution_weights n "position_based" = Ok [1.0])
  /\ (n = 2%Z -> generate_attribution_weights n "position_based" = Ok [0.5; 0.5])
  /\ ((3 <= n)%Z ->
        generate_attribution_weights n "position_based"
        = Ok (0.4 :: repeat (0.2 / float_of_int (n - 2)) (Z.to_nat (n - 2))
                  ++ [0.4]))
  /\ (forall model, ~ In model known_models ->
        generate_attribution_weights n model
        = generate_attribution_weights n "linear").
Proof.
  intros H. apply count_cases in H. simpl in H.
  repeat (destruct H as [<- | H]); try contradiction;
    weights_by_computation.
Qed.

(** The statement of C1 at four touchpoints. *)
Lemma generate_attribution_weights_spec_witness :
  (forall model, In model known_models ->
     exists ws, generate_attribution_weights 4 model = Ok ws
                /\ Z.of_nat (List.length ws) = 4%Z
                /\ sums_to_one ws = true)
  /\ generate_attribution_weights 4 "first_touch" = Ok [1.0; 0.0; 0.0; 0.0]
  /\ generate_attribution_weights 4 "last_touch" = Ok [0.0; 0.0; 0.0; 1.0]
  /\ generate_attribution_weights 4 "linear" = Ok [0.25; 0.25; 0.25; 0.25]
  /\ generate_attribution_weights 4 "position_based" = Ok [0.4; 0.1; 0.1; 0.4].
Proof.
  destruct (generate_attribution_weights_spec 4%Z ltac:(lia))
    as (Hall & Hfirst & Hlast & Hlin & _ & _ & _ & Hpos & _).
  exact (conj Hall (conj Hfirst (conj Hlast (conj Hlin (Hpos ltac:(lia)))))).
Defined.

End AttributionFacts.

(* ===================================================================== *)
(** * Theorems: rules for [post] and [total] *)
(* ===================================================================== *)

Local Open Scope monad_scope.

Lemma bind_inv {A B : Type} (c : M A) (k : A -> M B) w b w' :
  bind c k w = Ok (b, w') ->
  exists a w1, c w = Ok (a, w1) /\ k a w1 = Ok (b, w').
Proof.
  unfold bind. destruct (c w) as [[a w1]|e]; [|discriminate].
  intros H. exists a, w1. split; [reflexivity|exact H].
Qed.

Lemma total_post {A : Type} (c : M A) (Q : A -> Prop) :
  total c Q -> post c Q.
Proof.
  intros H w a w' E. destruct (H w) as (a0 & w0 & E0 & Q0).
  rewrite E in E0. inversion E0. subst. exact Q0.
Qed.

Lemma post_ret {A : Type} (a : A) (Q : A -> Prop) : Q a -> post (ret a) Q.
Proof. intros H w b w' E. inversion E. subst. exact H. Qed.

Lemma total_ret {A : Type} (a : A) (Q : A -> Prop) : Q a -> total (ret a) Q.
Proof. intros H w. exists a, w. split; [reflexivity|exact H]. Qed.

Lemma post_raise {A : Type} (e : exn) (Q : A -> Prop) : post (raise e) Q.
Proof. intros w b w' E. discriminate E. Qed.

Lemma post_bind {A B : Type} (c : M A) (k : A -> M B) (P : A -> Prop)
  (Q : B -> Prop) :
  post c P -> (forall a, P a -> post (k a) Q) -> post (bind c k) Q.
Proof.
  intros Hc Hk w b w' E. apply bind_inv in E. destruct E as (a & w1 & E1 & E2).
  exact (Hk a (Hc _ _ _ E1) _ _ _ E2).
Qed.

Lemma total_bind {A B : Type} (c : M A) (k : A -> M B) (P : A -> Prop)
  (Q : B -> Prop) :
  total c P -> (forall a, P a -> total (k a) Q) -> total (bind c k) Q.
Proof.
  intros Hc Hk w. destruct (Hc w) as (a & w1 & E1 & Pa).
  destruct (Hk a Pa w1) as (b & w2 & E2 & Qb).
  exists b, w2. split; [|exact Qb]. unfold bind. rewrite E1. exact E2.
Qed.

Lemma post_weaken {A : Type} (c : M A) (P Q : A -> Prop) :
  post c P -> (forall a, P a -> Q a) -> post c Q.
Proof. intros H I w a w' E. apply I. exact (H _ _ _ E). Qed.

Lemma total_weaken {A : Type} (c : M A) (P Q : A -> Prop) :
  total c P -> (forall a, P a -> Q a) -> total c Q.
Proof.
  intros H I w. destruct (H w) as (a & w' & E & Pa).
  exists a, w'. split; [exact E|exact (I _ Pa)].
Qed.

Lemma post_true {A : Type} (c : M A) : post c (fun _ => True).
Proof. intros w a w' _. exact I. Qed.

Lemma post_conj {A : Type} (c : M A) (P Q : A -> Prop) :
  post c P -> post c Q -> post c (fun a => P a /\ Q a).
Proof. intros H1 H2 w a w' E. split; [exact (H1 _ _ _ E)|exact (H2 _ _ _ E)]. Qed.

Lemma post_lift {A : Type} (r : result A) (Q : A -> Prop) :
  (forall a, r = Ok a -> Q a) -> post (lift r) Q.
Proof.
  intros H w a w' E. unfold lift in E. destruct r as [x|e]; [|discriminate].
  inversion E. subst. apply H. reflexivity.
Qed.

Lemma total_lift {A : Type} (r : result A) (a : A) (Q : A -> Prop) :
  r = Ok a -> Q a -> total (lift r) Q.
Proof.
  intros -> H w. exists a, w. split; [reflexivity|exact H].
Qed.

Lemma raises_bind {A B : Type} (c : M A) (k : A -> M B) (e : exn) :
  raises c e -> raises (bind c k) e.
Proof. intros H w. unfold bind. rewrite (H w). reflexivity. Qed.

Lemma bind_ok {A B : Type} (c : M A) (k : A -> M B) (w w1 : World) (a : A) :
  c w = Ok (a, w1) -> bind c k w = k a w1.
Proof. intros E. unfold bind. rewrite E. reflexivity. Qed.

Lemma total_bind_raises {A B : Type} (c : M A) (k : A -> M B) (P : A -> Prop)
  (e : exn) :
  total c P -> (forall a, P a -> raises (k a) e) -> raises (bind c k) e.
Proof.
  intros Hc Hk w. destruct (Hc w) as (a & w1 & E1 & Pa).
  unfold bind. rewrite E1. exact (Hk a Pa w1).
Qed.

(** The loop: every appended row satisfies what each iteration guarantees,
    and there is one row per iteration. *)
Lemma post_for_range {A : Type} (body : Z -> M A) (Q : A -> Prop) :
  (forall i, post (body i) Q) ->
  forall n i,
    post (for_range body i n)
         (fun rows => Forall Q rows /\ List.length rows = n).
Proof.
  intros Hb. induction n as [|n IH]; intros i; simpl.
  - apply post_ret. split; [constructor|reflexivity].
  - eapply post_bind; [apply Hb|]. intros x Qx.
    eapply post_bind; [apply IH|]. intros xs [Qxs Len].
    apply post_ret. split; [constructor; assumption|simpl; congruence].
Qed.

Lemma total_for_range {A : Type} (body : Z -> M A) (Q : A -> Prop) :
  (forall i, total (body i) Q) ->
  forall n i,
    total (for_range body i n)
          (fun rows => Forall Q rows /\ List.length rows = n).
Proof.
  intros Hb. induction n as [|n IH]; intros i; simpl.
  - apply total_ret. split; [constructor|reflexivity].
  - eapply total_bind; [apply Hb|]. intros x Qx.
    eapply total_bind; [apply IH|]. intros xs [Qxs Len].
    apply total_ret. split; [constructor; assumption|simpl; congruence].
Qed.

(** Inside [range(n)] the loop index stays within the bounds. *)
Lemma total_for_range_bounded {A : Type} (body : Z -> M A) (Q : A -> Prop)
  (hi : Z) :
  (forall i, (0 <= i < hi)%Z -> total (body i) Q) ->
  forall n i,
    (0 <= i)%Z -> (i + Z.of_nat n <= hi)%Z ->
    total (for_range body i n)
          (fun rows => Forall Q rows /\ List.length rows = n).
Proof.
  intros Hb. induction n as [|n IH]; intros i Hi Hn; simpl.
  - apply total_ret. split; [constructor|reflexivity].
  - eapply total_bind; [apply Hb; lia|]. intros x Qx.
    eapply total_bind; [apply IH; lia|]. intros xs [Qxs Len].
    apply total_ret. split; [constructor; assumption|simpl; congruence].
Qed.

(** The same rules under an invariant of the world. *)
Lemma stable_True : stable (fun _ => True).
Proof. intros w s n k _. exact I. Qed.

Lemma total_in_total {A : Type} (c : M A) (Q : A -> Prop) :
  total_in (fun _ => True) c Q -> total c Q.
Proof.
  intros H w. destruct (H w I) as (a & w' & E & Qa & _).
  exists a, w'. split; assumption.
Qed.

Lemma total_in_ret (I : World -> Prop) {A : Type} (a : A) (Q : A -> Prop) :
  Q a -> total_in I (ret a) Q.
Proof. intros H w Iw. exists a, w. split; [reflexivity|split; assumption]. Qed.

Lemma total_in_bind (I : World -> Prop) {A B : Type} (c : M A) (k : A -> M B)
  (P : A -> Prop) (Q : B -> Prop) :
  total_in I c P -> (forall a, P a -> total_in I (k a) Q) ->
  total_in I (bind c k) Q.
Proof.
  intros Hc Hk w Iw. destruct (Hc w Iw) as (a & w1 & E1 & Pa & I1).
  destruct (Hk a Pa w1 I1) as (b & w2 & E2 & Qb & I2).
  exists b, w2. split; [|split; assumption]. unfold bind. rewrite E1. exact E2.
Qed.

Lemma total_in_weaken (I : World -> Prop) {A : Type} (c : M A)
  (P Q : A -> Prop) :
  total_in I c P -> (forall a, P a -> Q a) -> total_in I c Q.
Proof.
  intros H W w Iw. destruct (H w Iw) as (a & w' & E & Pa & I').
  exists a, w'. split; [exact E|split; [exact (W _ Pa)|exact I']].
Qed.

Lemma total_in_lift (I : World -> Prop) {A : Type} (r : result A) (a : A)
  (Q : A -> Prop) :
  r = Ok a -> Q a -> total_in I (lift r) Q.
Proof.
  intros -> H w Iw. exists a, w. split; [reflexivity|split; assumption].
Qed.


Lemma total_in_for_range (I : World -> Prop) {A : Type} (body : Z -> M A)
  (Q : A -> Prop) (hi : Z) :
  (forall i, (0 <= i < hi)%Z -> total_in I (body i) Q) ->
  forall n i,
    (0 <= i)%Z -> (i + Z.of_nat n <= hi)%Z ->
    total_in I (for_range body i n)
             (fun rows => Forall Q rows /\ List.length rows = n).
Proof.
  intros Hb. induction n as [|n IH]; intros i Hi Hn; simpl.
  - apply total_in_ret. split; [constructor|reflexivity].
  - eapply total_in_bind; [apply Hb; lia|]. intros x Qx.
    eapply total_in_bind; [apply IH; lia|]. intros xs [Qxs Len].
    apply total_in_ret. split; [constructor; assumption|simpl; congruence].
Qed.

Lemma total_in_for_in_range (I : World -> Prop) {A : Type} (body : Z -> M A)
  (Q : A -> Prop) (n : Z) :
  (forall i, (0 <= i < n)%Z -> total_in I (body i) Q) ->
  total_in I (for_in_range n body)
           (fun rows => Forall Q rows /\ List.length rows = Z.to_nat n).
Proof.
  intros Hb. unfold for_in_range.
  destruct (Z_lt_ge_dec n 0) as [L|G].
  - replace (Z.to_nat n) with O by lia. simpl.
    apply total_in_ret. split; [constructor|reflexivity].
  - apply total_in_for_range with (hi := n); [exact Hb|lia|lia].
Qed.

Lemma post_for_in_range {A : Type} (body : Z -> M A) (Q : A -> Prop) (n : Z) :
  (forall i, post (body i) Q) ->
  post (for_in_range n body)
       (fun rows => Forall Q rows /\ List.length rows = Z.to_nat n).
Proof. intros Hb. unfold for_in_range. apply post_for_range. exact Hb. Qed.

(* ===================================================================== *)
(** * Theorems: Python numbers *)
(* ===================================================================== *)

Section PyFacts.

Local Open Scope R_scope.

Lemma lt_true x y : Py.lt x y = true <-> x < y.
Proof.
  unfold Py.lt. destruct (Rlt_dec x y); split; intros; try discriminate;
    try reflexivity; try assumption; contradiction.
Qed.

Lemma lt_false x y : Py.lt x y = false <-> y <= x.
Proof.
  unfold Py.lt. destruct (Rlt_dec x y); split; intros; try discriminate;
    try reflexivity; lra.
Qed.

Lemma gt_true x y : Py.gt x y = true <-> y < x.
Proof. apply lt_true. Qed.

Lemma ge_true x y : Py.ge x y = true <-> y <= x.
Proof.
  unfold Py.ge. destruct (Rle_dec y x); split; intros; try discriminate;
    try reflexivity; try assumption; contradiction.
Qed.

Lemma int_nonneg x : 0 <= x -> (0 <= Py.int x)%Z /\ IZR (Py.int x) <= x.
Proof.
  intros H. unfold Py.int. destruct (Rle_dec 0 x); [|contradiction].
  split; [apply Zfloor_lub; exact H|apply Zfloor_bound].
Qed.

Lemma int_lub x (k : Z) : (0 <= k)%Z -> IZR k <= x -> (k <= Py.int x)%Z.
Proof.
  intros Hk H. unfold Py.int. destruct (Rle_dec 0 x) as [|N].
  - apply Zfloor_lub; exact H.
  - exfalso. apply N. apply Rle_trans with (IZR k); [apply IZR_le; lia|exact H].
Qed.

Lemma int_lt x (k : Z) : 0 <= x -> x < IZR k -> (Py.int x < k)%Z.
Proof.
  intros H0 H. apply lt_IZR.
  apply Rle_lt_trans with x; [apply int_nonneg; exact H0|exact H].
Qed.

Lemma clip_bounds x lo hi : lo <= hi -> lo <= Py.clip x lo hi <= hi.
Proof.
  intros H. unfold Py.clip, Rmin, Rmax.
  destruct (Rle_dec x lo); destruct (Rle_dec _ hi); lra.
Qed.

Lemma clip_int_bounds (x lo hi : Z) :
  (lo <= hi)%Z -> (lo <= Py.clip_int x lo hi <= hi)%Z.
Proof. unfold Py.clip_int. lia. Qed.

Lemma round_half_even_floor y :
  (Zfloor y <= Py.round_half_even y <= Zfloor y + 1)%Z.
Proof.
  unfold Py.round_half_even.
  destruct (Rlt_dec _ _); [lia|]. destruct (Rlt_dec _ _); [lia|].
  destruct (Z.even _); lia.
Qed.

Lemma round_half_even_lower y (k : Z) :
  IZR k <= y -> (k <= Py.round_half_even y)%Z.
Proof.
  intros H. pose proof (round_half_even_floor y).
  pose proof (Zfloor_lub k y H). lia.
Qed.

Lemma round_half_even_upper y (k : Z) :
  y <= IZR k -> (Py.round_half_even y <= k)%Z.
Proof.
  intros H. destruct (Rle_lt_or_eq_dec _ _ H) as [L|E].
  - pose proof (round_half_even_floor y) as F.
    assert (Zfloor y < k)%Z; [|lia].
    apply lt_IZR. apply Rle_lt_trans with y; [apply Zfloor_bound|exact L].
  - subst y. unfold Py.round_half_even. rewrite ZfloorZ.
    destruct (Rlt_dec _ _) as [|N]; [lia|]. exfalso. apply N. lra.
Qed.

Lemma pow10_pos (n : nat) : 0 < 10 ^ n.
Proof. apply pow_lt. lra. Qed.

(** Rounding to [n] digits keeps a value between two bounds that are
    themselves multiples of [10^-n]. *)
Lemma round_bounds x (n : nat) (a b : Z) :
  IZR a / 10 ^ n <= x <= IZR b / 10 ^ n ->
  IZR a / 10 ^ n <= Py.round x n <= IZR b / 10 ^ n.
Proof.
  intros [Ha Hb]. pose proof (pow10_pos n) as P. unfold Py.round.
  assert (IZR a <= x * 10 ^ n) as Ha'.
  { apply Rmult_le_reg_r with (/ 10 ^ n); [apply Rinv_0_lt_compat; exact P|].
    rewrite Rmult_assoc, Rinv_r by lra. unfold Rdiv in Ha. lra. }
  assert (x * 10 ^ n <= IZR b) as Hb'.
  { apply Rmult_le_reg_r with (/ 10 ^ n); [apply Rinv_0_lt_compat; exact P|].
    rewrite Rmult_assoc, Rinv_r by lra. unfold Rdiv in Hb. lra. }
  apply round_half_even_lower in Ha'. apply round_half_even_upper in Hb'.
  apply IZR_le in Ha', Hb'. unfold Rdiv.
  split; apply Rmult_le_compat_r;
    try (apply Rlt_le, Rinv_0_lt_compat; exact P); assumption.
Qed.

End PyFacts.

(** Decides the comparisons of closed real expressions met in a goal. *)
Ltac decide_reals :=
  repeat match goal with
    | |- context [Rcase_abs ?a] =>
        destruct (Rcase_abs a); [try (exfalso; lra)|try (exfalso; lra)]
    | |- context [Rlt_dec ?a ?b] =>
        destruct (Rlt_dec a b); [try (exfalso; lra)|try (exfalso; lra)]
    | |- context [Rle_dec ?a ?b] =>
        destruct (Rle_dec a b); [try (exfalso; lra)|try (exfalso; lra)]
    end.

(* ===================================================================== *)
(** * Theorems: the supports of numpy's samplers *)
(* ===================================================================== *)

Section NumpyFacts.

Local Open Scope R_scope.

Variable I : World -> Prop.
Hypothesis I_stable : stable I.

Lemma variate_total : total_in I Np.variate (fun _ => True).
Proof.
  intros w Iw. eexists. eexists. split; [reflexivity|].
  split; [exact Logic.I|apply I_stable; exact Iw].
Qed.

Lemma uuid4_total : total_in I Uuid.uuid4 (fun _ => True).
Proof.
  intros w Iw. eexists. eexists. split; [reflexivity|].
  split; [exact Logic.I|apply I_stable; exact Iw].
Qed.

Lemma seed_total (s : Z) :
  (0 <= s < 2 ^ 32)%Z -> total_in I (Np.seed s) (fun _ => True).
Proof.
  intros H w Iw. unfold Np.seed.
  destruct ((0 <=? s) && (s <? 2 ^ 32))%Z eqn:E.
  - eexists. eexists. split; [reflexivity|].
    split; [exact Logic.I|apply I_stable; exact Iw].
  - apply andb_false_iff in E. destruct E as [E|E];
      [apply Z.leb_gt in E|apply Z.ltb_ge in E]; lia.
Qed.

Lemma random_total : total_in I Np.random (fun u => 0 <= u < 1).
Proof.
  unfold Np.random. eapply total_in_bind; [apply variate_total|].
  intros v _. apply total_in_ret. pose proof (Zfloor_bound v). lra.
Qed.

Lemma clip_unit v : 0 <= Py.clip v 0 1 <= 1.
Proof.
  unfold Py.clip, Rmin, Rmax.
  destruct (Rle_dec v 0); destruct (Rle_dec _ 1); lra.
Qed.

Lemma uniform_total low high :
  low <= high -> total_in I (Np.uniform low high) (fun u => low <= u <= high).
Proof.
  intros H. unfold Np.uniform. eapply total_in_bind; [apply variate_total|].
  intros v _. apply total_in_ret. pose proof (clip_unit v). nra.
Qed.

Lemma uniform_returns low high :
  total_in I (Np.uniform low high) (fun _ => True).
Proof.
  unfold Np.uniform. eapply total_in_bind; [apply variate_total|].
  intros v _. apply total_in_ret. exact Logic.I.
Qed.

(** The arithmetic of the platform: a result carries a relative error within
    its bound, and the world is left as it was. *)
Lemma err_total bound x :
  0 <= bound -> total_in I (Fp.err bound x) (fun e => - bound <= e <= bound).
Proof.
  intros H w Iw. eexists. eexists. split; [reflexivity|].
  split; [|exact Iw].
  unfold Py.clip, Rmin, Rmax.
  destruct (Rle_dec (rounding w x) (- bound)); destruct (Rle_dec _ bound); lra.
Qed.

Lemma u_pos : 0 < Fp.u.
Proof. unfold Fp.u. apply Rinv_0_lt_compat. lra. Qed.

Lemma rnd_total x :
  total_in I (Fp.rnd x)
           (fun y => exists e, y = x * (1 + e) /\ - Fp.u <= e <= Fp.u).
Proof.
  unfold Fp.rnd. pose proof u_pos.
  eapply total_in_bind; [apply err_total; lra|].
  intros e He. apply total_in_ret. exists e. split; [reflexivity|exact He].
Qed.

Lemma libm_total x :
  total_in I (Fp.libm x)
           (fun y => exists e, y = x * (1 + e) /\ - (2 * Fp.u) <= e <= 2 * Fp.u).
Proof.
  unfold Fp.libm. pose proof u_pos.
  eapply total_in_bind; [apply err_total; lra|].
  intros e He. apply total_in_ret. exists e. split; [reflexivity|exact He].
Qed.

Lemma of_int_total (n : Z) :
  total_in I (Fp.of_int n)
           (fun y => exists e, y = IZR n * (1 + e) /\ - Fp.u <= e <= Fp.u
                               /\ ((Z.abs n <= 2 ^ 53)%Z -> e = 0)).
Proof.
  unfold Fp.of_int. pose proof u_pos.
  destruct (Z.abs n <=? 2 ^ 53)%Z eqn:E.
  - apply total_in_ret. exists 0. split; [ring|]. split; [lra|reflexivity].
  - apply Z.leb_gt in E.
    eapply total_in_weaken; [apply rnd_total|].
    intros y (e & -> & He). exists e.
    split; [reflexivity|]. split; [exact He|lia].
Qed.

Lemma normal_total loc scale :
  0 <= scale -> total_in I (Np.normal loc scale) (fun _ => True).
Proof.
  intros H. unfold Np.normal.
  destruct (Py.lt scale 0) eqn:E; [apply lt_true in E; lra|].
  eapply total_in_bind; [apply variate_total|]. intros z _.
  apply total_in_ret. exact Logic.I.
Qed.

Lemma exponential_total scale :
  0 <= scale -> total_in I (Np.exponential scale) (fun x => 0 <= x).
Proof.
  intros H. unfold Np.exponential.
  destruct (Py.lt scale 0) eqn:E; [apply lt_true in E; lra|].
  eapply total_in_bind; [apply variate_total|]. intros z _.
  apply total_in_ret. pose proof (Rabs_pos z). nra.
Qed.

Lemma geometric_total p :
  0 < p <= 1 -> total_in I (Np.geometric p) (fun z => (1 <= z)%Z).
Proof.
  intros [H0 H1]. unfold Np.geometric.
  destruct (Py.lt 0 p) eqn:E; [|apply lt_false in E; lra].
  destruct (Py.ge 1 p) eqn:F; cbn [andb].
  - eapply total_in_bind; [apply variate_total|]. intros z _.
    apply total_in_ret. cbv beta. lia.
  - assert (Py.ge 1 p = true) as G by (apply ge_true; exact H1). congruence.
Qed.

Lemma poisson_total lam :
  0 <= lam -> total_in I (Np.poisson lam) (fun z => (0 <= z)%Z).
Proof.
  intros H. unfold Np.poisson.
  destruct (Py.lt lam 0) eqn:E; [apply lt_true in E; lra|].
  eapply total_in_bind; [apply variate_total|]. intros z _.
  apply total_in_ret. cbv beta. lia.
Qed.

Lemma randint_total low high :
  (low < high)%Z ->
  total_in I (Np.randint low high) (fun z => (low <= z < high)%Z).
Proof.
  intros H. unfold Np.randint.
  destruct (low <? high)%Z eqn:E; [|apply Z.ltb_ge in E; lia].
  eapply total_in_bind; [apply random_total|]. intros u [U0 U1].
  apply total_in_ret.
  assert (0 < IZR (high - low)) as P by (apply IZR_lt; lia).
  assert (0 <= Zfloor (u * IZR (high - low)))%Z.
  { apply Zfloor_lub. simpl. nra. }
  assert (Zfloor (u * IZR (high - low)) < high - low)%Z.
  { apply lt_IZR.
    apply Rle_lt_trans with (u * IZR (high - low)); [apply Zfloor_bound|nra]. }
  cbv beta. lia.
Qed.

Lemma nth_In_default {A : Type} (x0 : A) (r : list A) (i : nat) :
  In (nth i (x0 :: r) x0) (x0 :: r).
Proof.
  destruct (Nat.lt_ge_cases i (List.length (x0 :: r))) as [L|G].
  - apply nth_In. exact L.
  - rewrite nth_overflow by exact G. left. reflexivity.
Qed.

Lemma choice_total {A : Type} (a : list A) :
  a <> [] -> total_in I (Np.choice a) (fun x => In x a).
Proof.
  destruct a as [|x0 r]; [congruence|]. intros _. unfold Np.choice.
  eapply total_in_bind; [apply randint_total; simpl List.length; lia|].
  intros i _. apply total_in_ret. apply nth_In_default.
Qed.

Lemma choice_size_total {A : Type} (a : list A) (size : nat) :
  a <> [] ->
  total_in I (Np.choice_size a size)
           (fun xs => Forall (fun x => In x a) xs /\ List.length xs = size).
Proof.
  intros H. induction size as [|k IH]; simpl.
  - apply total_in_ret. split; [constructor|reflexivity].
  - eapply total_in_bind; [apply choice_total; exact H|]. intros x Hx.
    eapply total_in_bind; [apply IH|]. intros xs [Hxs Len].
    apply total_in_ret. split; [constructor; assumption|simpl; congruence].
Qed.

Lemma draw_p_total {A : Type} (x0 : A) (r : list A) (p : list R) :
  total_in I (Np.draw_p (x0 :: r) p x0) (fun x => In x (x0 :: r)).
Proof.
  unfold Np.draw_p. eapply total_in_bind; [apply random_total|].
  intros u _. apply total_in_ret. apply nth_In_default.
Qed.

Lemma draws_p_total {A : Type} (x0 : A) (r : list A) (p : list R) (size : nat) :
  total_in I (Np.draws_p (x0 :: r) p x0 size)
           (fun xs => Forall (fun x => In x (x0 :: r)) xs
                      /\ List.length xs = size).
Proof.
  induction size as [|k IH]; simpl.
  - apply total_in_ret. split; [constructor|reflexivity].
  - eapply total_in_bind; [apply draw_p_total|]. intros x Hx.
    eapply total_in_bind; [apply IH|]. intros xs [Hxs Len].
    apply total_in_ret. split; [constructor; assumption|simpl; congruence].
Qed.

Lemma choice_p_total {A : Type} (a : list A) (p : list R) :
  a <> [] -> Np.valid_p a p = true ->
  total_in I (Np.choice_p a p) (fun x => In x a).
Proof.
  destruct a as [|x0 r]; [congruence|]. intros _ V. unfold Np.choice_p.
  rewrite V. apply draw_p_total.
Qed.

Lemma choice_p_size_total {A : Type} (a : list A) (size : Z) (p : list R) :
  a <> [] -> (0 <= size)%Z -> Np.valid_p a p = true ->
  total_in I (Np.choice_p_size a size p)
           (fun xs => Forall (fun x => In x a) xs
                      /\ List.length xs = Z.to_nat size).
Proof.
  destruct a as [|x0 r]; [congruence|]. intros _ S V. unfold Np.choice_p_size.
  destruct (size <? 0)%Z eqn:E; [apply Z.ltb_lt in E; lia|].
  rewrite V. apply draws_p_total.
Qed.

Lemma sample_from_distribution_total {K : Type} (distribution : list (K * R))
  (size : Z) :
  keys distribution <> [] -> (0 <= size)%Z ->
  Np.valid_p (keys distribution) (values distribution) = true ->
  total_in I (Dist.sample_from_distribution distribution size)
           (fun xs => Forall (fun x => In x (keys distribution)) xs
                      /\ List.length xs = Z.to_nat size).
Proof.
  intros N S V. unfold Dist.sample_from_distribution.
  apply choice_p_size_total; assumption.
Qed.

(** [sample_from_distribution(d)[0]]. *)
Lemma sample_one_total {K : Type} (distribution : list (K * R)) :
  keys distribution <> [] ->
  Np.valid_p (keys distribution) (values distribution) = true ->
  total_in I (bind (Dist.sample_from_distribution distribution 1) Dist.item0)
           (fun x => In x (keys distribution)).
Proof.
  intros N V.
  eapply total_in_bind; [apply sample_from_distribution_total; [exact N|lia|exact V]|].
  intros xs [F L]. destruct xs as [|x r]; [discriminate L|].
  apply total_in_ret. inversion F. assumption.
Qed.

End NumpyFacts.

Section NumpyPosts.

Local Open Scope R_scope.

Lemma randint_post low high :
  post (Np.randint low high) (fun z => (low <= z < high)%Z).
Proof.
  destruct (Z_lt_ge_dec low high) as [L|G].
  - apply total_post, total_in_total, (randint_total _ stable_True), L.
  - unfold Np.randint.
    destruct (low <? high)%Z eqn:E; [apply Z.ltb_lt in E; lia|].
    apply post_raise.
Qed.

Lemma uniform_post low high :
  low <= high -> post (Np.uniform low high) (fun u => low <= u <= high).
Proof.
  intros H. apply total_post, total_in_total, (uniform_total _ stable_True), H.
Qed.

Lemma rnd_post x :
  post (Fp.rnd x) (fun y => exists e, y = x * (1 + e) /\ - Fp.u <= e <= Fp.u).
Proof. apply total_post, total_in_total, (rnd_total (fun _ => True)). Qed.

Lemma libm_post x :
  post (Fp.libm x)
       (fun y => exists e, y = x * (1 + e) /\ - (2 * Fp.u) <= e <= 2 * Fp.u).
Proof. apply total_post, total_in_total, (libm_total (fun _ => True)). Qed.

Lemma of_int_post (n : Z) :
  post (Fp.of_int n)
       (fun y => exists e, y = IZR n * (1 + e) /\ - Fp.u <= e <= Fp.u
                           /\ ((Z.abs n <= 2 ^ 53)%Z -> e = 0)).
Proof. apply total_post, total_in_total, (of_int_total (fun _ => True)). Qed.

Lemma exponential_post scale :
  post (Np.exponential scale) (fun x => 0 <= x).
Proof.
  unfold Np.exponential. destruct (Py.lt scale 0) eqn:E; [apply post_raise|].
  apply lt_false in E.
  apply total_post, total_in_total.
  pose proof (exponential_total _ stable_True scale E) as T.
  unfold Np.exponential in T. destruct (Py.lt scale 0) eqn:F;
    [apply lt_true in F; lra|exact T].
Qed.

Lemma choice_post {A : Type} (a : list A) : post (Np.choice a) (fun x => In x a).
Proof.
  destruct a as [|x0 r]; [apply post_raise|].
  apply total_post, total_in_total, (choice_total _ stable_True). discriminate.
Qed.

Lemma choice_p_post {A : Type} (a : list A) (p : list R) :
  post (Np.choice_p a p) (fun x => In x a).
Proof.
  destruct a as [|x0 r]; [apply post_raise|]. unfold Np.choice_p.
  destruct (Np.valid_p _ _); [|apply post_raise].
  apply total_post, total_in_total, (draw_p_total _ stable_True).
Qed.

Lemma choice_p_raises {A : Type} (a : list A) (p : list R) :
  Np.valid_p a p = false -> raises (Np.choice_p a p) ValueError.
Proof.
  intros V w. unfold Np.choice_p. destruct a; [reflexivity|].
  rewrite V. reflexivity.
Qed.

Lemma choice_p_size_post {A : Type} (a : list A) (size : Z) (p : list R) :
  post (Np.choice_p_size a size p)
       (fun xs => Forall (fun x => In x a) xs
                  /\ List.length xs = Z.to_nat size).
Proof.
  destruct a as [|x0 r]; [apply post_raise|]. unfold Np.choice_p_size.
  destruct (size <? 0)%Z; [apply post_raise|].
  destruct (Np.valid_p _ _); [|apply post_raise].
  apply total_post, total_in_total, (draws_p_total _ stable_True).
Qed.

Lemma choice_p_size_raises {A : Type} (a : list A) (size : Z) (p : list R) :
  Np.valid_p a p = false -> raises (Np.choice_p_size a size p) ValueError.
Proof.
  intros V w. unfold Np.choice_p_size. destruct a; [reflexivity|].
  destruct (size <? 0)%Z; [reflexivity|]. rewrite V. reflexivity.
Qed.

Lemma sample_from_distribution_post {K : Type} (distribution : list (K * R))
  (size : Z) :
  post (Dist.sample_from_distribution distribution size)
       (fun xs => Forall (fun x => In x (keys distribution)) xs
                  /\ List.length xs = Z.to_nat size).
Proof. unfold Dist.sample_from_distribution. apply choice_p_size_post. Qed.

End NumpyPosts.

(** Evaluates [valid_p] on a literal distribution. *)
Ltac valid_p_by_computation :=
  unfold Np.valid_p, Np.sum, Np.atol, Py.gt, Py.lt, Rabs, keys, values;
  simpl; decide_reals; reflexivity.

(* ===================================================================== *)
(** * Theorems: distributions.py *)
(* ===================================================================== *)

Section DistFacts.

Local Open Scope R_scope.

Variable I : World -> Prop.
Hypothesis I_stable : stable I.

Lemma generate_reach_impressions_total (followers : Z) (engagement_rate : R) :
  (1 <= followers <= 10 ^ 14)%Z ->
  total_in I (Dist.generate_reach_impressions followers engagement_rate)
           (fun ri =>
              IZR (fst ri) <= 0.52 * IZR followers
              /\ (fst ri < followers)%Z
              /\ IZR (snd ri) <= 1.8 * IZR (fst ri)).
Proof.
  intros [Hf Hg].
  assert (1 <= IZR followers <= 10 ^ 14) as [F G].
  { split; [apply IZR_le; exact Hf|].
    apply IZR_le in Hg. rewrite pow_IZR. exact Hg. }
  assert (0 < Fp.u) as U0 by apply u_pos.
  assert (Fp.u = / 2 ^ 53) as U1 by reflexivity.
  assert (IZR followers * Fp.u <= 0.0112) as FU by (rewrite U1; lra).
  assert (Fp.u <= / 1000) as U2 by (rewrite U1; lra).
  unfold Dist.generate_reach_impressions, Dist.fmul.
  eapply total_in_bind; [apply rnd_total|]. intros low (e1 & -> & E1).
  eapply total_in_bind; [apply rnd_total|]. intros high (e2 & -> & E2).
  eapply total_in_bind; [apply (uniform_total I I_stable); nra|].
  intros r [R0 R1].
  assert (0 <= r <= 0.4 * (1 + Fp.u)) as [R2 R3] by (split; nra).
  eapply total_in_bind
    with (P := fun rate => 0 <= rate <= 0.52 * (1 + 4 * Fp.u)).
  { destruct (Py.gt engagement_rate 5); [|destruct (Py.gt engagement_rate 3)].
    - eapply total_in_bind; [apply rnd_total|]. intros boost (e3 & -> & E3).
      eapply total_in_weaken; [apply rnd_total|].
      intros rate (e4 & -> & E4). cbv beta.
      assert (0 <= (1 + e3) * (1 + e4) <= 1 + 2 * Fp.u + Fp.u * Fp.u)
        as [P0 P1] by (split; nra).
      replace (r * (1.3 * (1 + e3)) * (1 + e4))
        with (1.3 * r * ((1 + e3) * (1 + e4))) by ring.
      split; [nra|].
      apply Rle_trans
        with (1.3 * (0.4 * (1 + Fp.u)) * (1 + 2 * Fp.u + Fp.u * Fp.u));
        [|nra].
      apply Rmult_le_compat; nra.
    - eapply total_in_bind; [apply rnd_total|]. intros boost (e3 & -> & E3).
      eapply total_in_weaken; [apply rnd_total|].
      intros rate (e4 & -> & E4). cbv beta.
      assert (0 <= (1 + e3) * (1 + e4) <= 1 + 2 * Fp.u + Fp.u * Fp.u)
        as [P0 P1] by (split; nra).
      replace (r * (1.1 * (1 + e3)) * (1 + e4))
        with (1.1 * r * ((1 + e3) * (1 + e4))) by ring.
      split; [nra|].
      apply Rle_trans
        with (1.1 * (0.4 * (1 + Fp.u)) * (1 + 2 * Fp.u + Fp.u * Fp.u));
        [|nra].
      apply Rmult_le_compat; nra.
    - apply total_in_ret. split; nra. }
  intros rate [B0 B1].
  eapply total_in_bind; [apply of_int_total|].
  intros f (e5 & -> & _ & E5). rewrite E5 by lia.
  replace (IZR followers * (1 + 0)) with (IZR followers) by ring.
  eapply total_in_bind; [apply rnd_total|]. intros product (e6 & -> & E6).
  assert (0 <= IZR followers * rate * (1 + e6)
          <= 0.52 * IZR followers * (1 + 6 * Fp.u)) as [P0 P1].
  { assert (0 <= rate * (1 + e6) <= 0.52 * (1 + 6 * Fp.u)) as [Q0 Q1].
    { split; [nra|].
      apply Rle_trans with (0.52 * (1 + 4 * Fp.u) * (1 + Fp.u)); [|nra].
      apply Rmult_le_compat; nra. }
    split; [nra|].
    replace (IZR followers * rate * (1 + e6))
      with (IZR followers * (rate * (1 + e6))) by ring.
    replace (0.52 * IZR followers * (1 + 6 * Fp.u))
      with (IZR followers * (0.52 * (1 + 6 * Fp.u))) by ring.
    apply Rmult_le_compat_l; lra. }
  destruct (int_nonneg _ P0) as [I0 I1].
  set (reach := Py.int (IZR followers * rate * (1 + e6))) in *.
  assert (25 * reach <= 13 * followers)%Z as RZ.
  { destruct (Z_le_gt_dec (25 * reach) (13 * followers)) as [L|L]; [exact L|].
    exfalso. assert (13 * followers + 1 <= 25 * reach)%Z as L' by lia.
    apply IZR_le in L'. rewrite plus_IZR, !mult_IZR in L'. nra. }
  assert (IZR reach <= 0.52 * IZR followers) as RR.
  { apply IZR_le in RZ. rewrite !mult_IZR in RZ. lra. }
  assert (0 <= IZR reach) as R4 by (apply IZR_le; exact I0).
  eapply total_in_bind; [apply rnd_total|]. intros low2 (e7 & -> & E7).
  eapply total_in_bind; [apply rnd_total|]. intros high2 (e8 & -> & E8).
  eapply total_in_bind; [apply (uniform_total I I_stable); nra|].
  intros m [M0 M1].
  assert (0 <= m <= 1.8 * (1 + Fp.u)) as [M2 M3] by (split; nra).
  eapply total_in_bind; [apply of_int_total|].
  intros rf (e9 & -> & _ & E9).
  assert (Z.abs reach <= 2 ^ 53)%Z as RB.
  { rewrite Z.abs_eq by exact I0. lia. }
  rewrite (E9 RB). replace (IZR reach * (1 + 0)) with (IZR reach) by ring.
  eapply total_in_bind; [apply rnd_total|]. intros product2 (e10 & -> & E10).
  apply total_in_ret. cbn [fst snd].
  assert (0 <= IZR reach * m * (1 + e10)
          <= 1.8 * IZR reach * (1 + 3 * Fp.u)) as [S0 S1].
  { assert (0 <= m * (1 + e10) <= 1.8 * (1 + 3 * Fp.u)) as [Q0 Q1].
    { split; [nra|].
      apply Rle_trans with (1.8 * (1 + Fp.u) * (1 + Fp.u)); [|nra].
      apply Rmult_le_compat; nra. }
    split; [nra|].
    replace (IZR reach * m * (1 + e10))
      with (IZR reach * (m * (1 + e10))) by ring.
    replace (1.8 * IZR reach * (1 + 3 * Fp.u))
      with (IZR reach * (1.8 * (1 + 3 * Fp.u))) by ring.
    apply Rmult_le_compat_l; lra. }
  destruct (int_nonneg _ S0) as [J0 J1].
  set (impressions := Py.int (IZR reach * m * (1 + e10))) in *.
  split; [exact RR|]. split; [lia|].
  assert (5 * impressions <= 9 * reach)%Z as IZ.
  { destruct (Z_le_gt_dec (5 * impressions) (9 * reach)) as [L|L]; [exact L|].
    exfalso. assert (9 * reach + 1 <= 5 * impressions)%Z as L' by lia.
    apply IZR_le in L'. rewrite plus_IZR, !mult_IZR in L'.
    assert (IZR reach * Fp.u <= 0.006) by nra. nra. }
  apply IZR_le in IZ. rewrite !mult_IZR in IZ. lra.
Qed.

Lemma generate_reach_impressions_returns (followers : Z) (engagement_rate : R) :
  total_in I (Dist.generate_reach_impressions followers engagement_rate)
           (fun _ => True).
Proof.
  unfold Dist.generate_reach_impressions, Dist.fmul.
  eapply total_in_bind; [apply rnd_total|]. intros low _.
  eapply total_in_bind; [apply rnd_total|]. intros high _.
  eapply total_in_bind; [apply uniform_returns, I_stable|]. intros r _.
  eapply total_in_bind with (P := fun _ => True).
  { destruct (Py.gt engagement_rate 5); [|destruct (Py.gt engagement_rate 3)].
    - eapply total_in_bind; [apply rnd_total|]. intros boost _.
      eapply total_in_weaken; [apply rnd_total|]. intros; exact Logic.I.
    - eapply total_in_bind; [apply rnd_total|]. intros boost _.
      eapply total_in_weaken; [apply rnd_total|]. intros; exact Logic.I.
    - apply total_in_ret. exact Logic.I. }
  intros rate _.
  eapply total_in_bind; [apply of_int_total|]. intros f _.
  eapply total_in_bind; [apply rnd_total|]. intros product _.
  eapply total_in_bind; [apply rnd_total|]. intros low2 _.
  eapply total_in_bind; [apply rnd_total|]. intros high2 _.
  eapply total_in_bind; [apply uniform_returns, I_stable|]. intros m _.
  eapply total_in_bind; [apply of_int_total|]. intros rf _.
  eapply total_in_bind; [apply rnd_total|]. intros product2 _.
  apply total_in_ret. exact Logic.I.
Qed.

Lemma exp_ln_IZR (k : Z) : (0 < k)%Z -> exp (ln (IZR k)) = IZR k.
Proof. intros H. apply exp_ln. apply IZR_lt. exact H. Qed.

Lemma ln_IZR_lt (a b : Z) : (0 < a < b)%Z -> ln (IZR a) < ln (IZR b).
Proof.
  intros [H0 H1]. apply ln_increasing; [apply IZR_lt; exact H0|].
  apply IZR_lt. exact H1.
Qed.

Lemma uniform_between low high :
  total_in I (Np.uniform low high)
           (fun x => Rmin low high <= x <= Rmax low high).
Proof.
  unfold Np.uniform. eapply total_in_bind; [apply variate_total, I_stable|].
  intros v _. apply total_in_ret. pose proof (clip_unit v).
  unfold Rmin, Rmax. destruct (Rle_dec low high); nra.
Qed.

Lemma ln_le_pred x : 0 < x -> ln x <= x - 1.
Proof.
  intros H. pose proof (exp_ineq1_le (ln x)) as E.
  rewrite exp_ln in E by exact H. lra.
Qed.

Lemma exp_small t : 0 <= t <= / 2 -> exp t <= 1 + 2 * t.
Proof.
  intros [T0 T1]. pose proof (exp_ineq1_le (- t)) as E.
  rewrite exp_Ropp in E. pose proof (exp_pos t) as P.
  assert (exp t * (1 - t) <= 1) as Q.
  { apply Rmult_le_reg_r with (/ exp t); [apply Rinv_0_lt_compat; exact P|].
    replace (exp t * (1 - t) * / exp t) with (1 - t) by (field; lra). lra. }
  nra.
Qed.

(** A log-uniform draw between two positive integers, truncated.  The exact
    value stays within the range; in binary64 the logarithms and the
    exponential carry an error each, which the truncation can turn into one
    follower less than the lower end, and the draw can reach the upper
    end. *)
Lemma generate_follower_count_range (cfg : Config) (tier : string)
  (low high : Z) :
  getitem String.eqb (TIER_FOLLOWER_RANGES cfg) tier = Ok (low, high) ->
  (0 < low < high)%Z -> (high <= 10 ^ 7)%Z ->
  total_in I (Dist.generate_follower_count cfg tier)
           (fun followers => (low - 1 <= followers <= high)%Z).
Proof.
  intros G H B. unfold Dist.generate_follower_count.
  eapply total_in_bind;
    [apply (total_in_lift I _ _ (fun x => x = (low, high)) G); reflexivity|].
  intros x ->.
  destruct ((low <=? 0) || (high <=? 0))%Z eqn:E.
  { apply orb_true_iff in E. destruct E as [E|E]; apply Z.leb_le in E; lia. }
  assert (1 <= IZR low <= 10 ^ 7) as [L0 L1].
  { split; [apply IZR_le; lia|]. rewrite pow_IZR. apply IZR_le.
    change (Z.of_nat 7) with 7%Z. lia. }
  assert (IZR low + 1 <= IZR high <= 10 ^ 7) as [H0 H1].
  { split; [rewrite <- plus_IZR; apply IZR_le; lia|].
    rewrite pow_IZR. apply IZR_le. exact B. }
  assert (0 < Fp.u) as U0 by apply u_pos.
  assert (Fp.u = / 2 ^ 53) as U1 by reflexivity.
  eapply total_in_bind; [apply of_int_total|].
  intros l (e1 & -> & _ & E1). rewrite E1 by lia.
  replace (IZR low * (1 + 0)) with (IZR low) by ring.
  eapply total_in_bind; [apply of_int_total|].
  intros h (e2 & -> & _ & E2). rewrite E2 by lia.
  replace (IZR high * (1 + 0)) with (IZR high) by ring.
  unfold Np.log, Np.exp.
  eapply total_in_bind; [apply libm_total|]. intros log_low (a & -> & A).
  eapply total_in_bind; [apply libm_total|]. intros log_high (b & -> & Bb).
  eapply total_in_bind; [apply uniform_between|]. intros lf [F0 F1].
  eapply total_in_bind; [apply libm_total|]. intros followers (c & -> & C).
  apply total_in_ret.
  assert (0 <= ln (IZR low) <= IZR low - 1) as [N0 N1].
  { split; [|apply ln_le_pred; lra].
    rewrite <- ln_1. destruct L0 as [L0|<-]; [|lra].
    left. apply ln_increasing; lra. }
  assert (ln (IZR low) <= ln (IZR high) <= IZR high - 1) as [N2 N3].
  { split; [left; apply ln_increasing; lra|apply ln_le_pred; lra]. }
  assert (ln (IZR low) - 2 * Fp.u * ln (IZR low) <= lf) as F2.
  { apply Rle_trans
      with (Rmin (ln (IZR low) * (1 + a)) (ln (IZR high) * (1 + b)));
      [|exact F0].
    apply Rmin_glb; nra. }
  assert (lf <= ln (IZR high) + 2 * Fp.u * ln (IZR high)) as F3.
  { apply Rle_trans
      with (Rmax (ln (IZR low) * (1 + a)) (ln (IZR high) * (1 + b)));
      [exact F1|].
    apply Rmax_lub; nra. }
  assert (IZR low * (1 - 2 * Fp.u * ln (IZR low)) <= exp lf) as X0.
  { apply Rle_trans with (exp (ln (IZR low) - 2 * Fp.u * ln (IZR low))).
    - unfold Rminus. rewrite exp_plus, exp_ln by lra.
      apply Rmult_le_compat_l; [lra|].
      pose proof (exp_ineq1_le (- (2 * Fp.u * ln (IZR low)))). lra.
    - destruct F2 as [F2|<-]; [left; apply exp_increasing; exact F2|lra]. }
  assert (exp lf <= IZR high * (1 + 4 * Fp.u * ln (IZR high))) as X1.
  { apply Rle_trans with (exp (ln (IZR high) + 2 * Fp.u * ln (IZR high))).
    - destruct F3 as [F3| ->]; [left; apply exp_increasing; exact F3|lra].
    - rewrite exp_plus, exp_ln by lra.
      apply Rmult_le_compat_l; [lra|].
      pose proof (exp_small (2 * Fp.u * ln (IZR high))) as S.
      assert (0 <= 2 * Fp.u * ln (IZR high) <= / 2) as T.
      { split; [nra|]. rewrite U1.
        apply Rle_trans with (2 * / 2 ^ 53 * 10 ^ 7); [|lra].
        apply Rmult_le_compat_l; lra. }
      specialize (S T). lra. }
  pose proof (exp_pos lf) as X2.
  assert (IZR low * Fp.u <= / 10 ^ 8) as LU by (rewrite U1; lra).
  assert (IZR high * Fp.u <= / 10 ^ 8) as HU by (rewrite U1; lra).
  split.
  - apply int_lub; [lia|]. rewrite minus_IZR.
    apply Rle_trans
      with (IZR low * (1 - 2 * Fp.u * ln (IZR low)) * (1 - 2 * Fp.u)).
    + assert (IZR low * (2 * Fp.u * ln (IZR low)) <= / 4) by nra.
      nra.
    + apply Rmult_le_compat; nra.
  - assert (Py.int (exp lf * (1 + c)) < high + 1)%Z; [|lia].
    apply int_lt; [nra|]. rewrite plus_IZR.
    apply Rle_lt_trans
      with (IZR high * (1 + 4 * Fp.u * ln (IZR high)) * (1 + 2 * Fp.u)).
    + apply Rmult_le_compat; nra.
    + assert (IZR high * (4 * Fp.u * ln (IZR high)) <= / 4) by nra.
      nra.
Qed.

(** The clipped rate, with or without noise. *)
Lemma generate_engagement_rate_range (cfg : Config) (tier : string)
  (mean std : R) (add_noise : bool) :
  getitem String.eqb (TIER_ENGAGEMENT_RATES cfg) tier = Ok (mean, std) ->
  0 <= std ->
  total_in I (Dist.generate_engagement_rate cfg tier add_noise)
           (fun rate => 0.5 <= rate <= 12.0).
Proof.
  intros G H. unfold Dist.generate_engagement_rate.
  eapply total_in_bind;
    [apply (total_in_lift I _ _ (fun x => x = (mean, std)) G); reflexivity|].
  intros x ->.
  eapply total_in_bind; [apply normal_total; [exact I_stable|exact H]|].
  intros rate _.
  eapply total_in_bind with (P := fun _ => True).
  - destruct add_noise.
    + eapply total_in_bind; [apply uniform_returns, I_stable|]. intros noise _.
      apply total_in_ret. exact Logic.I.
    + apply total_in_ret. exact Logic.I.
  - intros rate' _. apply total_in_ret. apply clip_bounds. lra.
Qed.

(** The order value is the clipped log-normal draw, rounded to cents: it lies
    between half the lower and one and a half times the upper end of the
    brand tier's range. *)
Lemma generate_order_value_range (cfg : Config) (brand_tier : string)
  (low high : Z) :
  getitem String.eqb (BRAND_AOV cfg) brand_tier = Ok (low, high) ->
  (0 < low <= high)%Z ->
  total_in I (Dist.generate_order_value cfg brand_tier)
           (fun value => IZR low * 0.5 <= value <= IZR high * 1.5).
Proof.
  intros G [H0 H1]. unfold Dist.generate_order_value.
  eapply total_in_bind;
    [apply (total_in_lift I _ _ (fun x => x = (low, high)) G); reflexivity|].
  intros x ->.
  assert (ln (IZR low) <= ln (IZR high)) as L.
  { destruct (Z.eq_dec low high) as [->|N]; [lra|].
    left. apply ln_IZR_lt. lia. }
  eapply total_in_bind; [apply normal_total; [exact I_stable|lra]|].
  intros log_value _.
  apply total_in_ret. cbv beta.
  assert (0 < IZR low) as P0 by (apply IZR_lt; exact H0).
  assert (IZR low <= IZR high) as P1 by (apply IZR_le; exact H1).
  pose proof (clip_bounds (exp log_value) (IZR low * 0.5) (IZR high * 1.5)
                ltac:(lra)) as C.
  replace (IZR low * 0.5) with (IZR (low * 50) / 10 ^ 2) in *
    by (rewrite mult_IZR; simpl; lra).
  replace (IZR high * 1.5) with (IZR (high * 150) / 10 ^ 2) in *
    by (rewrite mult_IZR; simpl; lra).
  apply round_bounds. exact C.
Qed.

Lemma generate_engagement_metrics_total (followers : Z) (engagement_rate : R)
  (content_type : string) (is_viral : bool) :
  total_in I (Dist.generate_engagement_metrics followers engagement_rate
                                               content_type is_viral)
           (fun _ => True).
Proof.
  unfold Dist.generate_engagement_metrics.
  eapply total_in_bind; [apply uniform_returns, I_stable|]. intros v _.
  eapply total_in_bind with (P := fun _ => True).
  { destruct is_viral.
    - eapply total_in_bind; [apply uniform_returns, I_stable|]. intros b _.
      apply total_in_ret. exact Logic.I.
    - apply total_in_ret. exact Logic.I. }
  intros v' _.
  eapply total_in_bind; [apply uniform_returns, I_stable|]. intros l _.
  eapply total_in_bind; [apply uniform_returns, I_stable|]. intros c _.
  eapply total_in_bind; [apply uniform_returns, I_stable|]. intros sh _.
  eapply total_in_bind with (P := fun _ => True).
  { destruct (existsb _ _); apply uniform_returns, I_stable. }
  intros sv _. apply total_in_ret. exact Logic.I.
Qed.

Lemma generate_caption_length_total :
  total_in I Dist.generate_caption_length (fun _ => True).
Proof.
  unfold Dist.generate_caption_length.
  eapply total_in_bind; [apply normal_total; [exact I_stable|lra]|].
  intros x _. apply total_in_ret. exact Logic.I.
Qed.

Lemma generate_hashtag_count_total (platform : string) :
  total_in I (Dist.generate_hashtag_count platform) (fun _ => True).
Proof.
  unfold Dist.generate_hashtag_count.
  destruct (String.eqb platform "Instagram");
    [|destruct (String.eqb platform "TikTok");
      [|destruct (String.eqb platform "Twitter")]].
  1-3: (eapply total_in_bind; [apply normal_total; [exact I_stable|lra]|];
        intros x _; apply total_in_ret; exact Logic.I).
  eapply total_in_bind; [apply uniform_returns, I_stable|].
  intros x _. apply total_in_ret. exact Logic.I.
Qed.

(** The journey length is clipped to [1, 90], and comes as [np.clip]
    returns it: a [numpy.int64]. *)
Lemma generate_customer_journey_length_total :
  total_in I Dist.generate_customer_journey_length
           (fun days => exists n, days = Py.Int64 n /\ (1 <= n <= 90)%Z).
Proof.
  unfold Dist.generate_customer_journey_length.
  eapply total_in_bind; [apply exponential_total; [exact I_stable|lra]|].
  intros x _. apply total_in_ret. eexists. split; [reflexivity|].
  apply clip_int_bounds. lia.
Qed.

Lemma generate_touchpoints_count_total :
  total_in I Dist.generate_touchpoints_count
           (fun n => (1 <= Py.item n <= 15)%Z).
Proof.
  unfold Dist.generate_touchpoints_count.
  eapply total_in_bind; [apply geometric_total; [exact I_stable|lra]|].
  intros x _. apply total_in_ret. apply clip_int_bounds. lia.
Qed.

Lemma generate_outlier_probability_total (tier : string) :
  total_in I (Dist.generate_outlier_probability tier) (fun _ => True).
Proof.
  unfold Dist.generate_outlier_probability.
  eapply total_in_bind; [apply random_total, I_stable|]. intros r _.
  destruct (Py.lt r 0.07).
  - eapply total_in_weaken;
      [apply choice_p_total;
         [exact I_stable|discriminate|valid_p_by_computation]|].
    intros; exact Logic.I.
  - apply total_in_ret. exact Logic.I.
Qed.

Lemma generate_post_time_total (cfg : Config) :
  keys (POSTING_TIME_DISTRIBUTION cfg) <> [] ->
  Np.valid_p (keys (POSTING_TIME_DISTRIBUTION cfg))
             (values (POSTING_TIME_DISTRIBUTION cfg)) = true ->
  keys (DAY_OF_WEEK_DISTRIBUTION cfg) <> [] ->
  Np.valid_p (keys (DAY_OF_WEEK_DISTRIBUTION cfg))
             (values (DAY_OF_WEEK_DISTRIBUTION cfg)) = true ->
  total_in I (Dist.generate_post_time cfg) (fun _ => True).
Proof.
  intros N1 V1 N2 V2. unfold Dist.generate_post_time.
  eapply total_in_bind;
    [apply sample_from_distribution_total; [exact I_stable|exact N1|lia|exact V1]|].
  intros hours [_ L]. destruct hours as [|h r]; [discriminate L|].
  eapply total_in_bind; [apply total_in_ret with (Q := fun _ => True); exact Logic.I|].
  intros hour _.
  eapply total_in_bind;
    [apply sample_from_distribution_total; [exact I_stable|exact N2|lia|exact V2]|].
  intros days [_ L2]. destruct days as [|d r2]; [discriminate L2|].
  eapply total_in_bind; [apply total_in_ret with (Q := fun _ => True); exact Logic.I|].
  intros day _. apply total_in_ret. exact Logic.I.
Qed.

End DistFacts.

Section DistPosts.

Local Open Scope R_scope.

(** The journey length is clipped to [1, 90] whenever the function returns. *)
Lemma generate_customer_journey_length_post :
  post Dist.generate_customer_journey_length
       (fun days => exists n, days = Py.Int64 n /\ (1 <= n <= 90)%Z).
Proof.
  apply total_post, total_in_total,
    (generate_customer_journey_length_total _ stable_True).
Qed.

(** C10, amended.  Whatever the engagement rate, for a follower count [f]
    from 1 to [10^14] the function returns, the reach is at most [0.52 * f]
    (the base fraction is at most 0.40 and the largest boost is 1.3; the
    roundings of the literals and of the products stay below the distance from
    [0.52 * f] to the next integer), hence strictly below [f], and the
    impressions are at most 1.8 times the reach. *)
Theorem generate_reach_impressions_bounds (followers : Z) (engagement_rate : R) :
  (1 <= followers <= 10 ^ 14)%Z ->
  total (Dist.generate_reach_impressions followers engagement_rate)
        (fun ri =>
           IZR (fst ri) <= 0.52 * IZR followers
           /\ (fst ri < followers)%Z
           /\ IZR (snd ri) <= 1.8 * IZR (fst ri)).
Proof.
  intros H. apply total_in_total.
  apply generate_reach_impressions_total; [exact stable_True|exact H].
Qed.

(** The statement of C10 for a nano account with a boosted engagement rate. *)
Lemma generate_reach_impressions_bounds_witness :
  total (Dist.generate_reach_impressions 1000 6)
        (fun ri =>
           IZR (fst ri) <= 0.52 * IZR 1000
           /\ (fst ri < 1000)%Z
           /\ IZR (snd ri) <= 1.8 * IZR (fst ri)).
Proof.
  apply (generate_reach_impressions_bounds 1000%Z 6). lia.
Defined.

Lemma top_world_stable : stable top_world.
Proof. intros w s n k [V E]. split; [exact V|exact E]. Qed.

Lemma rounding_world_top (id : N) : top_world (rounding_world 1 id 1).
Proof. split; [intros s n; reflexivity|intros x; reflexivity]. Qed.

Lemma rnd_top x : total_in top_world (Fp.rnd x) (fun y => y = x * (1 + Fp.u)).
Proof.
  intros w [V E]. eexists. eexists. split; [reflexivity|].
  split; [|split; [exact V|exact E]].
  rewrite E. unfold Py.clip, Rmin, Rmax, Fp.u.
  destruct (Rle_dec 1 (- / 2 ^ 53)) as [C|C]; [exfalso; lra|].
  destruct (Rle_dec 1 (/ 2 ^ 53)) as [D|D]; [exfalso; lra|]. reflexivity.
Qed.

Lemma uniform_top low high :
  total_in top_world (Np.uniform low high) (fun x => x = high).
Proof.
  intros w [V E]. eexists. eexists. split; [reflexivity|].
  split; [|split; [exact V|exact E]].
  rewrite V. unfold Py.clip, Rmin, Rmax.
  destruct (Rle_dec 1 0) as [C|C]; [exfalso; lra|].
  destruct (Rle_dec 1 1) as [D|D]; [|exfalso; lra]. ring.
Qed.

Lemma int_eq x (k : Z) : (0 <= k)%Z -> IZR k <= x < IZR k + 1 -> Py.int x = k.
Proof.
  intros K [L U].
  assert (k <= Py.int x)%Z by (apply int_lub; assumption).
  assert (Py.int x < k + 1)%Z.
  { apply int_lt; [apply Rle_trans with (IZR k); [apply IZR_le; lia|exact L]|].
    rewrite plus_IZR. exact U. }
  lia.
Qed.

(** C10 as stated, refuted.  An account of [10^15 + 23] followers with an
    engagement rate of 6: at the largest draw of the base fraction, with the
    products rounded up, the reach is 520000000000012, above
    [0.52 * f = 520000000000011.96]. *)
Lemma generate_reach_impressions_above_bound :
  exists reach impressions w',
    Dist.generate_reach_impressions (10 ^ 15 + 23) 6 (rounding_world 1 0 1)
    = Ok ((reach, impressions), w')
    /\ reach = 520000000000012%Z
    /\ ~ (IZR reach <= 0.52 * IZR (10 ^ 15 + 23)).
Proof.
  assert (total_in top_world (Dist.generate_reach_impressions (10 ^ 15 + 23) 6)
                   (fun ri => fst ri = 520000000000012%Z)) as T.
  { unfold Dist.generate_reach_impressions, Dist.fmul.
    eapply total_in_bind; [apply rnd_top|]. intros low ->.
    eapply total_in_bind; [apply rnd_top|]. intros high ->.
    eapply total_in_bind; [apply uniform_top|]. intros r ->.
    assert (Py.gt 6 5 = true) as -> by (apply gt_true; lra).
    eapply total_in_bind.
    { eapply total_in_bind; [apply rnd_top|]. intros boost ->. apply rnd_top. }
    intros rate ->.
    eapply total_in_bind;
      [apply total_in_weaken
         with (P := fun y => exists e, y = IZR (10 ^ 15 + 23) * (1 + e)
                                       /\ - Fp.u <= e <= Fp.u
                                       /\ ((Z.abs (10 ^ 15 + 23) <= 2 ^ 53)%Z
                                           -> e = 0));
       [apply of_int_total|intros y P; exact P]|].
    intros f (e & -> & _ & E). rewrite E by (vm_compute; discriminate).
    eapply total_in_bind; [apply rnd_top|]. intros product ->.
    eapply total_in_bind; [apply rnd_top|]. intros low2 ->.
    eapply total_in_bind; [apply rnd_top|]. intros high2 ->.
    eapply total_in_bind; [apply uniform_top|]. intros m ->.
    eapply total_in_bind; [apply of_int_total|]. intros rf _.
    eapply total_in_bind; [apply rnd_top|]. intros product2 ->.
    apply total_in_ret. cbn [fst].
    apply int_eq; [lia|]. unfold Fp.u.
    change (10 ^ 15 + 23)%Z with 1000000000000023%Z. split; lra. }
  destruct (T (rounding_world 1 0 1) (rounding_world_top 0))
    as ([reach impressions] & w' & E & R & _).
  cbn [fst] in R. exists reach, impressions, w'.
  split; [exact E|]. split; [exact R|]. rewrite R.
  change (10 ^ 15 + 23)%Z with 1000000000000023%Z. lra.
Qed.

End DistPosts.

(* ===================================================================== *)
(** * Theorems: the shipped configuration *)
(* ===================================================================== *)

Section ShippedConfig.

Local Open Scope R_scope.

Lemma valid_platform_distribution :
  Np.valid_p (keys (PLATFORM_DISTRIBUTION config))
             (values (PLATFORM_DISTRIBUTION config)) = true.
Proof. valid_p_by_computation. Qed.

Lemma valid_tier_distribution :
  Np.valid_p (keys (TIER_DISTRIBUTION config))
             (values (TIER_DISTRIBUTION config)) = true.
Proof. valid_p_by_computation. Qed.

Lemma valid_country_distribution :
  Np.valid_p (keys (COUNTRY_DISTRIBUTION config))
             (values (COUNTRY_DISTRIBUTION config)) = true.
Proof. valid_p_by_computation. Qed.

Lemma valid_gender_distribution :
  Np.valid_p (keys (GENDER_DISTRIBUTION config))
             (values (GENDER_DISTRIBUTION config)) = true.
Proof. valid_p_by_computation. Qed.

Lemma valid_age_group_distribution :
  Np.valid_p (keys (AGE_GROUP_DISTRIBUTION config))
             (values (AGE_GROUP_DISTRIBUTION config)) = true.
Proof. valid_p_by_computation. Qed.

Lemma valid_brand_tiers :
  Np.valid_p (keys (BRAND_TIERS config)) (values (BRAND_TIERS config)) = true.
Proof. valid_p_by_computation. Qed.

Lemma valid_day_of_week_distribution :
  Np.valid_p (keys (DAY_OF_WEEK_DISTRIBUTION config))
             (values (DAY_OF_WEEK_DISTRIBUTION config)) = true.
Proof. valid_p_by_computation. Qed.

(** The posting-time table of [config.py] adds up to 1.19, which numpy's
    [choice] refuses. *)
Lemma posting_time_distribution_sum :
  Np.sum (values (POSTING_TIME_DISTRIBUTION config)) = 1.19.
Proof. unfold Np.sum, values. simpl. lra. Qed.

Lemma invalid_posting_time_distribution :
  Np.valid_p (keys (POSTING_TIME_DISTRIBUTION config))
             (values (POSTING_TIME_DISTRIBUTION config)) = false.
Proof.
  unfold Np.valid_p. rewrite posting_time_distribution_sum.
  unfold Np.atol, Py.gt, Py.lt, Rabs. simpl.
  decide_reals; rewrite ?andb_false_r; reflexivity.
Qed.

End ShippedConfig.

(* ===================================================================== *)
(** * Theorems: influencers under the shipped configuration *)
(* ===================================================================== *)

Section InfluencerFacts.

Local Open Scope R_scope.

Variable I : World -> Prop.
Hypothesis I_stable : stable I.

(** What the shipped tables hold for each of the five tiers. *)
Lemma shipped_tier_tables (tier : string) :
  In tier ["nano"; "micro"; "mid"; "macro"; "mega"]%string ->
  exists low high mean std amean astd clow chigh,
    getitem String.eqb (TIER_FOLLOWER_RANGES config) tier = Ok (low, high)
    /\ (0 < low < high)%Z
    /\ getitem String.eqb (TIER_ENGAGEMENT_RATES config) tier = Ok (mean, std)
    /\ 0 <= std
    /\ getitem String.eqb (TIER_AUTHENTICITY_SCORES config) tier
       = Ok (amean, astd)
    /\ 0 <= astd
    /\ getitem String.eqb (TIER_COST_PER_POST config) tier = Ok (clow, chigh).
Proof.
  intros H. simpl in H.
  repeat (destruct H as [<- | H]); try contradiction;
    do 8 eexists; repeat split; try reflexivity; try lia; lra.
Qed.

Lemma shipped_follower_ranges (tier : string) (low high : Z) :
  getitem String.eqb (TIER_FOLLOWER_RANGES config) tier = Ok (low, high) ->
  (0 < low < high)%Z /\ (high <= 10 ^ 7)%Z.
Proof.
  simpl.
  repeat match goal with
         | |- context [String.eqb tier ?s] => destruct (String.eqb tier s)
         end;
    intros E; try discriminate E; injection E as <- <-; lia.
Qed.

Lemma generate_authenticity_score_total (tier : string) :
  In tier ["nano"; "micro"; "mid"; "macro"; "mega"]%string ->
  total_in I (Dist.generate_authenticity_score config tier) (fun _ => True).
Proof.
  intros H. destruct (shipped_tier_tables tier H)
    as (low & high & mean & std & amean & astd & clow & chigh
        & _ & _ & _ & _ & G & S & _).
  unfold Dist.generate_authenticity_score.
  eapply total_in_bind;
    [apply (total_in_lift I _ _ (fun x => x = (amean, astd)) G); reflexivity|].
  intros x ->. eapply total_in_bind; [apply normal_total; [exact I_stable|exact S]|].
  intros score _. apply total_in_ret. exact Logic.I.
Qed.

Lemma generate_cost_per_post_total (tier : string) (followers : Z) :
  In tier ["nano"; "micro"; "mid"; "macro"; "mega"]%string ->
  total_in I (Dist.generate_cost_per_post config tier followers) (fun _ => True).
Proof.
  intros H. destruct (shipped_tier_tables tier H)
    as (low & high & mean & std & amean & astd & clow & chigh
        & G & B & _ & _ & _ & _ & C).
  unfold Dist.generate_cost_per_post.
  eapply total_in_bind;
    [apply (total_in_lift I _ _ (fun x => x = (clow, chigh)) C); reflexivity|].
  intros x ->.
  eapply total_in_bind;
    [apply (total_in_lift I _ _ (fun x => x = (low, high)) G); reflexivity|].
  intros y ->. cbn [fst snd].
  destruct (high - low =? 0)%Z eqn:E; [apply Z.eqb_eq in E; lia|].
  eapply total_in_bind; [apply total_in_ret with (Q := fun _ => True); exact Logic.I|].
  intros position _.
  eapply total_in_bind; [apply uniform_returns, I_stable|]. intros variance _.
  apply total_in_ret. exact Logic.I.
Qed.

Lemma at_total (col : list string) (i : Z) (Q : string -> Prop) :
  (0 <= i < Z.of_nat (List.length col))%Z -> Forall Q col ->
  total_in I (Gen.at_ col i) Q.
Proof.
  intros B F. unfold Gen.at_.
  destruct (nth_error col (Z.to_nat i)) as [x|] eqn:E.
  - apply total_in_ret. rewrite Forall_forall in F. apply F.
    eapply nth_error_In. exact E.
  - apply nth_error_None in E. lia.
Qed.

Lemma influencer_row_total (cols : Gen.InfluencerColumns) (i : Z) :
  (0 <= i)%Z ->
  (i < Z.of_nat (List.length (Gen.tiers cols)))%Z ->
  (i < Z.of_nat (List.length (Gen.platforms cols)))%Z ->
  (i < Z.of_nat (List.length (Gen.countries cols)))%Z ->
  (i < Z.of_nat (List.length (Gen.genders cols)))%Z ->
  (i < Z.of_nat (List.length (Gen.age_groups cols)))%Z ->
  (i < Z.of_nat (List.length (Gen.categories cols)))%Z ->
  Forall (fun t => In t ["nano"; "micro"; "mid"; "macro"; "mega"]%string)
         (Gen.tiers cols) ->
  total_in I (Gen.influencer_row config cols i) influencer_near_range.
Proof.
  intros I0 L1 L2 L3 L4 L5 L6 T. unfold Gen.influencer_row.
  eapply total_in_bind; [apply at_total; [lia|exact T]|]. intros tier Ht.
  destruct (shipped_tier_tables tier Ht)
    as (low & high & mean & std & amean & astd & clow & chigh
        & G & B & E & S & _).
  eapply total_in_bind;
    [apply (generate_follower_count_range I I_stable _ _ _ _ G B);
     apply (shipped_follower_ranges _ _ _ G)|].
  intros followers F.
  eapply total_in_bind;
    [apply (generate_engagement_rate_range I I_stable _ _ _ _ true E S)|].
  intros rate Hr.
  eapply total_in_bind; [apply uuid4_total, I_stable|]. intros id _.
  eapply total_in_bind;
    [apply at_total with (Q := fun _ => True);
       [lia|apply Forall_forall; intros; exact Logic.I]|]. intros platform _.
  eapply total_in_bind;
    [apply at_total with (Q := fun _ => True);
       [lia|apply Forall_forall; intros; exact Logic.I]|]. intros country _.
  eapply total_in_bind;
    [apply at_total with (Q := fun _ => True);
       [lia|apply Forall_forall; intros; exact Logic.I]|]. intros category _.
  eapply total_in_bind; [apply normal_total; [exact I_stable|lra]|]. intros freq _.
  eapply total_in_bind; [apply generate_authenticity_score_total; exact Ht|].
  intros auth _.
  eapply total_in_bind; [apply generate_cost_per_post_total; exact Ht|].
  intros cost _.
  eapply total_in_bind; [apply (randint_total I I_stable 12 96); lia|]. intros age _.
  eapply total_in_bind;
    [apply at_total with (Q := fun _ => True);
       [lia|apply Forall_forall; intros; exact Logic.I]|]. intros gender _.
  eapply total_in_bind;
    [apply at_total with (Q := fun _ => True);
       [lia|apply Forall_forall; intros; exact Logic.I]|]. intros age_group _.
  eapply total_in_bind; [apply random_total, I_stable|]. intros rv _.
  eapply total_in_bind; [apply random_total, I_stable|]. intros ra _.
  apply total_in_ret. unfold influencer_near_range. cbn.
  split; [exact Ht|]. split.
  - exists low, high. split; [exact G|exact F].
  - replace 0.5 with (IZR 50 / 10 ^ 2) in * by (simpl; lra).
    replace 12.0 with (IZR 1200 / 10 ^ 2) in * by (simpl; lra).
    apply round_bounds. exact Hr.
Qed.

End InfluencerFacts.

Section InfluencerTable.

Local Open Scope R_scope.

Variable I : World -> Prop.
Hypothesis I_stable : stable I.

(** Under the shipped configuration [generate_influencers] returns, from
    every world, 1500 rows within one follower of the ranges of their
    tiers. *)
Lemma generate_influencers_total :
  total_in I (Gen.generate_influencers config)
           (fun rows =>
              List.length rows = 1500%nat /\ Forall influencer_near_range rows).
Proof.
  unfold Gen.generate_influencers.
  change (N_INFLUENCERS config) with 1500%Z.
  eapply total_in_bind;
    [apply sample_from_distribution_total;
       [exact I_stable|discriminate|lia|exact valid_tier_distribution]|].
  intros tiers [Ft Lt].
  eapply total_in_bind;
    [apply sample_from_distribution_total;
       [exact I_stable|discriminate|lia|exact valid_platform_distribution]|].
  intros platforms [_ Lp].
  eapply total_in_bind;
    [apply sample_from_distribution_total;
       [exact I_stable|discriminate|lia|exact valid_country_distribution]|].
  intros countries [_ Lc].
  eapply total_in_bind;
    [apply sample_from_distribution_total;
       [exact I_stable|discriminate|lia|exact valid_gender_distribution]|].
  intros genders [_ Lg].
  eapply total_in_bind;
    [apply sample_from_distribution_total;
       [exact I_stable|discriminate|lia|exact valid_age_group_distribution]|].
  intros age_groups [_ La].
  destruct (1500 <? 0)%Z eqn:E; [discriminate|].
  eapply total_in_bind; [apply choice_size_total; [exact I_stable|discriminate]|].
  intros categories [_ Lk].
  eapply total_in_weaken.
  - apply total_in_for_in_range with (Q := influencer_near_range).
    intros i Hi. apply influencer_row_total; cbn; try lia;
      [exact I_stable|exact Ft].
  - cbv beta. intros rows [F L]. split; [|exact F].
    rewrite L. reflexivity.
Qed.

End InfluencerTable.

(** What the code guarantees under the shipped configuration: for each of
    the five tiers the follower count returned by [generate_follower_count]
    lies between one below the lower end and the upper end of the tier's
    range of [TIER_FOLLOWER_RANGES], and the rate returned by
    [generate_engagement_rate] lies in [[0.5, 12.0]]; and
    [generate_influencers] returns 1500 rows, each with one of the five
    tiers, such a follower count and an engagement rate in [[0.5, 12.0]]. *)
Lemma influencers_near_tier_ranges :
  Forall
    (fun tier =>
       exists low high,
         getitem String.eqb (TIER_FOLLOWER_RANGES config) tier = Ok (low, high)
         /\ total (Dist.generate_follower_count config tier)
                  (fun followers => (low - 1 <= followers <= high)%Z)
         /\ total (Dist.generate_engagement_rate config tier true)
                  (fun rate => 0.5 <= rate <= 12.0)%R)
    ["nano"; "micro"; "mid"; "macro"; "mega"]%string
  /\ total (Gen.generate_influencers config)
           (fun rows =>
              List.length rows = 1500%nat /\ Forall influencer_near_range rows).
Proof.
  split.
  - apply Forall_forall. intros tier Ht.
    destruct (shipped_tier_tables tier Ht)
      as (low & high & mean & std & amean & astd & clow & chigh
          & G & B & E & S & _).
    exists low, high. split; [exact G|]. split; apply total_in_total.
    + apply (generate_follower_count_range _ stable_True _ _ _ _ G B).
      apply (shipped_follower_ranges _ _ _ G).
    + exact (generate_engagement_rate_range _ stable_True _ _ _ _ true E S).
  - apply total_in_total, generate_influencers_total, stable_True.
Qed.

Section TierEnds.

Local Open Scope R_scope.

Lemma bottom_world_stable : stable bottom_world.
Proof. intros w s n k [V E]. split; [exact V|exact E]. Qed.

Lemma rounding_world_bottom (id : N) : bottom_world (rounding_world 0 id (-1)).
Proof. split; [intros s n; reflexivity|intros x; reflexivity]. Qed.

Lemma libm_bottom x :
  total_in bottom_world (Fp.libm x) (fun y => y = x * (1 - 2 * Fp.u)).
Proof.
  intros w [V E]. eexists. eexists. split; [reflexivity|].
  split; [|split; [exact V|exact E]].
  rewrite E. unfold Py.clip, Rmin, Rmax, Fp.u.
  destruct (Rle_dec (-1) (- (2 * / 2 ^ 53))) as [C|C]; [|exfalso; lra].
  destruct (Rle_dec (- (2 * / 2 ^ 53)) (2 * / 2 ^ 53)) as [D|D];
    [|exfalso; lra].
  ring.
Qed.

Lemma uniform_bottom low high :
  total_in bottom_world (Np.uniform low high) (fun x => x = low).
Proof.
  intros w [V E]. eexists. eexists. split; [reflexivity|].
  split; [|split; [exact V|exact E]].
  rewrite V. unfold Py.clip, Rmin, Rmax.
  destruct (Rle_dec 0 0) as [C|C]; [|exfalso; lra].
  destruct (Rle_dec 0 1) as [D|D]; [|exfalso; lra]. ring.
Qed.

Lemma libm_top x :
  total_in top_world (Fp.libm x) (fun y => y = x * (1 + 2 * Fp.u)).
Proof.
  intros w [V E]. eexists. eexists. split; [reflexivity|].
  split; [|split; [exact V|exact E]].
  rewrite E. unfold Py.clip, Rmin, Rmax, Fp.u.
  destruct (Rle_dec 1 (- (2 * / 2 ^ 53))) as [C|C]; [exfalso; lra|].
  destruct (Rle_dec 1 (2 * / 2 ^ 53)) as [D|D]; [exfalso; lra|]. reflexivity.
Qed.

Lemma ln_bounds (k : Z) : (1 <= k)%Z -> 0 <= ln (IZR k) <= IZR k - 1.
Proof.
  intros K. assert (1 <= IZR k) as [L|L] by (apply IZR_le; exact K).
  - split; [|apply ln_le_pred; lra].
    rewrite <- ln_1. left. apply ln_increasing; lra.
  - rewrite <- L, ln_1. lra.
Qed.

(** At the smallest draw, with the logarithm and the exponential rounded
    down, the nano count is 999. *)
Lemma nano_at_the_smallest_draw :
  total_in bottom_world (Dist.generate_follower_count config "nano")
           (fun followers => followers = 999%Z).
Proof.
  unfold Dist.generate_follower_count.
  eapply total_in_bind;
    [apply (total_in_lift bottom_world _ (1000, 10000)%Z
              (fun x => x = (1000, 10000)%Z)); reflexivity|].
  intros x ->. cbn [orb Z.leb Z.compare].
  eapply total_in_bind; [apply of_int_total|].
  intros l (e1 & -> & _ & E1). rewrite E1 by (vm_compute; discriminate).
  eapply total_in_bind; [apply of_int_total|].
  intros h (e2 & -> & _ & E2). rewrite E2 by (vm_compute; discriminate).
  unfold Np.log, Np.exp.
  eapply total_in_bind; [apply libm_bottom|]. intros log_low ->.
  eapply total_in_bind; [apply libm_bottom|]. intros log_high ->.
  eapply total_in_bind; [apply uniform_bottom|]. intros lf ->.
  eapply total_in_bind; [apply libm_bottom|]. intros followers ->.
  apply total_in_ret. apply int_eq; [lia|].
  replace (1000 * (1 + 0)) with 1000 by ring.
  destruct (ln_bounds 1000 ltac:(lia)) as [N0 N1].
  assert (0 < Fp.u) as U0 by apply u_pos.
  assert (Fp.u = / 2 ^ 53) as U1 by reflexivity.
  set (t := 2 * Fp.u * ln 1000).
  assert (0 <= t <= / 10 ^ 6) as [T0 T1].
  { unfold t. split; [nra|]. rewrite U1.
    apply Rle_trans with (2 * / 2 ^ 53 * 999); [|lra].
    apply Rmult_le_compat_l; lra. }
  replace (ln 1000 * (1 - 2 * Fp.u)) with (ln 1000 + - t) by (unfold t; ring).
  rewrite exp_plus, exp_ln by lra.
  pose proof (exp_ineq1_le (- t)) as X0.
  assert (exp (- t) <= 1) as X1.
  { rewrite <- exp_0. destruct T0 as [T0|<-];
      [left; apply exp_increasing; lra|rewrite Ropp_0; lra]. }
  assert (Fp.u <= / 10 ^ 6) as U2 by (rewrite U1; lra).
  split; nra.
Qed.

(** At the largest draw, with the logarithm and the exponential rounded up,
    the nano count is 10000. *)
Lemma nano_at_the_largest_draw :
  total_in top_world (Dist.generate_follower_count config "nano")
           (fun followers => followers = 10000%Z).
Proof.
  unfold Dist.generate_follower_count.
  eapply total_in_bind;
    [apply (total_in_lift top_world _ (1000, 10000)%Z
              (fun x => x = (1000, 10000)%Z)); reflexivity|].
  intros x ->. cbn [orb Z.leb Z.compare].
  eapply total_in_bind; [apply of_int_total|].
  intros l (e1 & -> & _ & E1). rewrite E1 by (vm_compute; discriminate).
  eapply total_in_bind; [apply of_int_total|].
  intros h (e2 & -> & _ & E2). rewrite E2 by (vm_compute; discriminate).
  unfold Np.log, Np.exp.
  eapply total_in_bind; [apply libm_top|]. intros log_low ->.
  eapply total_in_bind; [apply libm_top|]. intros log_high ->.
  eapply total_in_bind; [apply uniform_top|]. intros lf ->.
  eapply total_in_bind; [apply libm_top|]. intros followers ->.
  apply total_in_ret. apply int_eq; [lia|].
  replace (10000 * (1 + 0)) with 10000 by ring.
  destruct (ln_bounds 10000 ltac:(lia)) as [N0 N1].
  assert (0 < Fp.u) as U0 by apply u_pos.
  assert (Fp.u = / 2 ^ 53) as U1 by reflexivity.
  set (t := 2 * Fp.u * ln 10000).
  assert (0 <= t <= / 10 ^ 10) as [T0 T1].
  { unfold t. split; [nra|]. rewrite U1.
    apply Rle_trans with (2 * / 2 ^ 53 * 9999); [|lra].
    apply Rmult_le_compat_l; lra. }
  replace (ln 10000 * (1 + 2 * Fp.u)) with (ln 10000 + t) by (unfold t; ring).
  rewrite exp_plus, exp_ln by lra.
  pose proof (exp_small t ltac:(lra)) as X0.
  pose proof (exp_ineq1_le t) as X1.
  assert (Fp.u <= / 10 ^ 10) as U2 by (rewrite U1; lra).
  split; nra.
Qed.

(** C7, evaluated at the two ends of the nano range [(1000, 10000)].  At the
    smallest draw of the log-uniform, [np.log] and [np.exp] rounding down,
    [generate_follower_count] returns 999, below the range; at the largest
    draw, rounding up, it returns 10000, the excluded upper end. *)
Theorem generate_follower_count_outside_tier_range :
  getitem String.eqb (TIER_FOLLOWER_RANGES config) "nano"%string
  = Ok (1000, 10000)%Z
  /\ (exists w',
        Dist.generate_follower_count config "nano" (rounding_world 0 0 (-1))
        = Ok (999%Z, w'))
  /\ (exists w',
        Dist.generate_follower_count config "nano" (rounding_world 1 0 1)
        = Ok (10000%Z, w')).
Proof.
  split; [reflexivity|]. split.
  - destruct (nano_at_the_smallest_draw _ (rounding_world_bottom 0))
      as (f & w' & E & -> & _).
    exists w'. exact E.
  - destruct (nano_at_the_largest_draw _ (rounding_world_top 0))
      as (f & w' & E & -> & _).
    exists w'. exact E.
Qed.

End TierEnds.

(* ===================================================================== *)
(** * Theorems: order values *)
(* ===================================================================== *)

Section OrderValueFacts.

Local Open Scope R_scope.

Lemma round_exact x (n : nat) (k : Z) :
  x = IZR k / 10 ^ n -> Py.round x n = IZR k / 10 ^ n.
Proof.
  intros ->. apply Rle_antisym; apply (round_bounds _ n k k); lra.
Qed.

(** Six standard deviations above the mean of the Mid-market log-range is
    the logarithm of 450. *)
Lemma mid_market_six_sigma :
  (ln 50 + ln 150) / 2 + (ln 150 - ln 50) / 4 * 6 = ln 450.
Proof.
  replace 450 with (150 * 150 / 50) by lra.
  unfold Rdiv at 3. rewrite ln_mult, ln_mult, ln_Rinv by lra. lra.
Qed.

(** C8, counterexample.  A Mid-market order value (range 50..150) drawn six
    standard deviations high is clipped at [1.5 * 150 = 225], above the
    range. *)
Lemma generate_order_value_above_range :
  getitem String.eqb (BRAND_AOV config) "Mid-market"%string
  = Ok (50%Z, 150%Z)
  /\ (exists w',
        Dist.generate_order_value config "Mid-market"%string
                                  (constant_world 6 0)
        = Ok (225, w'))
  /\ IZR 150 < 225.
Proof.
  split; [reflexivity|]. split; [|lra].
  eexists. unfold Dist.generate_order_value.
  unfold bind at 1.
  cbn [lift getitem BRAND_AOV config String.eqb Ascii.eqb Bool.eqb].
  assert (Py.lt ((ln 150 - ln 50) / 4) 0 = false) as S.
  { apply lt_false. assert (ln 50 < ln 150) by (apply ln_increasing; lra). lra. }
  unfold Np.normal. rewrite S. unfold bind, Np.variate, ret.
  cbn [mt19937 np_seed np_drawn os_entropy os_read rounding constant_world rounding_world].
  rewrite mid_market_six_sigma, exp_ln by lra.
  replace (Py.clip 450 (50 * 0.5) (150 * 1.5)) with (IZR 22500 / 10 ^ 2)
    by (unfold Py.clip, Rmin, Rmax; decide_reals; simpl; lra).
  rewrite (round_exact _ 2 22500 eq_refl).
  replace (IZR 22500 / 10 ^ 2) with 225 by (simpl; lra).
  reflexivity.
Qed.

(** C8, as the code has it.  For every brand tier of [BRAND_AOV] with range
    [(low, high)], [generate_order_value] returns a value between
    [0.5 * low] and [1.5 * high], the bounds of its clip. *)
Theorem generate_order_value_within_clip :
  Forall
    (fun entry =>
       total (Dist.generate_order_value config (fst entry))
             (fun value =>
                IZR (fst (snd entry)) * 0.5 <= value
                <= IZR (snd (snd entry)) * 1.5))
    (BRAND_AOV config).
Proof.
  repeat constructor; cbn [fst snd]; apply total_in_total;
    (eapply generate_order_value_range; [exact stable_True|reflexivity|lia]).
Qed.

End OrderValueFacts.

(* ===================================================================== *)
(** * Theorems: what the generator's rows satisfy whenever it returns *)
(* ===================================================================== *)

(** Steps over a bind whose value the property at hand does not depend on. *)
Ltac skip_bind :=
  cbv zeta; eapply post_bind; [apply post_true|]; intros ? _.
Ltac skip_bind_pair :=
  cbv zeta; eapply post_bind; [apply post_true|]; intros [? ?] _.

Section GeneratorPosts.

Local Open Scope R_scope.

Variable cfg : Config.

Lemma add_days_inv (d days x : Z) :
  Datetime.add_days d days = Ok x ->
  x = (d + days)%Z /\ (1 <= x <= Datetime._MAXORDINAL)%Z.
Proof.
  unfold Datetime.add_days.
  destruct ((1 <=? d + days) && (d + days <=? Datetime._MAXORDINAL))%Z eqn:E;
    [|discriminate].
  intros H. inversion H. subst. apply andb_true_iff in E. destruct E as [A B].
  apply Z.leb_le in A, B. lia.
Qed.

Lemma column_post {A : Type} (df : option (list A)) :
  post (Gen.column df) (fun rows => df = Some rows /\ rows <> []).
Proof.
  destruct df as [[|x r]|]; simpl; try apply post_raise.
  apply post_ret. split; [reflexivity|discriminate].
Qed.

Lemma set_index_post {A : Type} (df : option (list A)) :
  post (Gen.set_index df) (fun rows => df = Some rows).
Proof.
  destruct df as [[|x r]|]; simpl; try apply post_raise.
  apply post_ret. reflexivity.
Qed.

Lemma post_row_post (ctx : Gen.PostContext) (i : Z) :
  post (Gen.post_row cfg ctx i) (post_row_ok ctx).
Proof.
  unfold Gen.post_row.
  eapply post_bind; [apply choice_post|]. intros inf_id Hin.
  skip_bind.
  cbv zeta. eapply post_bind; [apply randint_post|]. intros random_days Hr.
  eapply post_bind;
    [apply (post_lift _ (fun x => x = (Gen.pc_start_date ctx + random_days)%Z));
     intros x E; apply add_days_inv in E; apply E|].
  intros post_date ->.
  skip_bind_pair. skip_bind. skip_bind. skip_bind.
  cbv zeta.
  match goal with
  | |- context [Py.lt ?r (if ?c then 0.25 else 0.10)] =>
      generalize (Py.lt r (if c then 0.25 else 0.10))
  end.
  intros is_sponsored.
  skip_bind. skip_bind. skip_bind. skip_bind_pair. skip_bind.
  eapply post_bind
    with (P := fun o => (is_sponsored = true <-> o <> None)
                        /\ forall b, o = Some b -> In b (Gen.pc_brand_ids ctx)).
  { destruct is_sponsored.
    - eapply post_bind; [apply choice_post|]. intros b Hb. apply post_ret.
      split; [split; [discriminate|reflexivity]|].
      intros b' E. inversion E. subst. exact Hb.
    - apply post_ret. split; [split; [discriminate|congruence]|discriminate]. }
  intros brand_id [Hs Hb].
  do 8 skip_bind.
  apply post_ret. unfold post_row_ok. cbn.
  split; [exact Hs|]. split; [exact Hb|]. split; [exact Hin|].
  cbv beta in Hr. lia.
Qed.

Lemma conversion_row_post (self : Gen.t) (ctx : Gen.ConversionContext)
  (i : Z) :
  post (Gen.conversion_row cfg self ctx i) conversion_row_ok.
Proof.
  unfold Gen.conversion_row.
  skip_bind. cbv zeta.
  eapply post_bind
    with (P := fun t =>
                 (1 <= Py.item (snd t) <= 90)%Z
                 /\ fst (fst (fst (fst t))) = None
                 /\ snd (fst (fst (fst t))) = None).
  { match goal with |- post (if ?c then _ else _) _ => destruct c end.
    - eapply post_bind; [apply post_true|]. intros p _. cbv zeta.
      eapply post_bind; [apply generate_customer_journey_length_post|].
      intros jl (n & -> & Hn).
      eapply post_bind;
        [apply (post_lift _ (fun _ => False)); intros x E; discriminate E|].
      intros days [].
    - skip_bind. skip_bind. skip_bind. skip_bind.
      eapply post_bind; [apply generate_customer_journey_length_post|].
      intros jl (n & -> & Hn). apply post_ret. cbn [fst snd Py.item].
      split; [exact Hn|]. split; reflexivity. }
  intros [[[[post_id influencer_id] brand_id] conversion_date] journey_length].
  cbn [fst snd]. intros (Hjl & Hp & Hn).
  do 10 skip_bind.
  apply post_ret. unfold conversion_row_ok. cbn.
  split; [exact Hjl|]. split; [exact Hp|exact Hn].
Qed.

(** The branch that attributes a conversion to a sponsored post: the journey
    length comes from [np.clip] as a [numpy.int64], and [timedelta] refuses
    it. *)
Lemma attributed_branch_raises (ctx : Gen.ConversionContext) :
  Gen.cc_sponsored_posts ctx <> [] ->
  raises
    (post <- Gen.sample1 (Gen.cc_sponsored_posts ctx) ;;
     journey_length <- Dist.generate_customer_journey_length ;;
     days <- lift (Datetime.timedelta journey_length) ;;
     shifted <- lift (Datetime.add_days (Post.post_date post) days) ;;
     ret (Some (Post.post_id post), Some (Post.influencer_id post),
          Post.brand_id post, Z.min shifted (Gen.cc_end_date ctx),
          journey_length))
    TypeError.
Proof.
  intros N.
  eapply total_bind_raises;
    [apply total_in_total, (choice_total _ stable_True), N|].
  intros p _.
  eapply total_bind_raises;
    [apply total_in_total,
       (generate_customer_journey_length_total _ stable_True)|].
  intros jl (n & -> & _). apply raises_bind. intros w. reflexivity.
Qed.

(** One iteration of [generate_conversions] whose first draw is below 0.65,
    with at least one sponsored post to choose from, raises [TypeError]. *)
Lemma conversion_row_attributed (self : Gen.t) (ctx : Gen.ConversionContext)
  (i : Z) (w : World) :
  Gen.cc_sponsored_posts ctx <> [] ->
  (exists r w1, Np.random w = Ok (r, w1) /\ r < 0.65) ->
  Gen.conversion_row cfg self ctx i w = Raise TypeError.
Proof.
  intros N (r & w1 & E & Hr). unfold Gen.conversion_row.
  unfold bind at 1. rewrite E. cbv zeta.
  assert (Py.lt r 0.65 = true) as -> by (apply lt_true; exact Hr).
  assert ((0 <? Z.of_nat (List.length (Gen.cc_sponsored_posts ctx)))%Z = true)
    as ->.
  { apply Z.ltb_lt. destruct (Gen.cc_sponsored_posts ctx); [congruence|].
    simpl. lia. }
  cbn [andb]. apply raises_bind. apply attributed_branch_raises. exact N.
Qed.

Lemma touchpoint_row_post (self : Gen.t)
  (conversions_with_posts : list Conversion.t) (i : Z) :
  post (Gen.touchpoint_row cfg self conversions_with_posts i)
       (touchpoint_row_ok conversions_with_posts).
Proof.
  unfold Gen.touchpoint_row.
  cbv zeta. eapply post_bind; [apply post_true|]. intros r_leads _.
  generalize (Py.lt r_leads 0.30). intros leads.
  eapply post_bind
    with (P := fun t =>
                 (forall cid, fst (fst (fst t)) = Some cid ->
                    leads = true
                    /\ exists c,
                         In c conversions_with_posts
                         /\ Conversion.conversion_id c = cid
                         /\ snd (fst (fst t)) = Conversion.customer_id c
                         /\ snd (fst t) = Conversion.post_id c
                         /\ (snd t <= Conversion.conversion_date c)%Z
                         /\ (Conversion.conversion_date c - snd t
                             < Z.max 1 (Conversion.customer_journey_length c))%Z)
                 /\ (conversions_with_posts <> [] -> leads = true ->
                     fst (fst (fst t)) <> None)).
  { destruct leads; cbn [andb].
    - destruct (0 <? Z.of_nat (List.length conversions_with_posts))%Z eqn:E.
      + eapply post_bind; [apply choice_post|]. intros c Hc. cbv zeta.
        eapply post_bind; [apply randint_post|]. intros days_before Hd.
        eapply post_bind;
          [apply (post_lift _ (fun x => x = (Conversion.conversion_date c
                                             + - days_before)%Z));
           intros x F; apply add_days_inv in F; apply F|].
        intros touchpoint_date ->. apply post_ret. cbn [fst snd].
        split; [|discriminate].
        intros cid F. inversion F. subst. split; [reflexivity|].
        exists c. cbv beta in Hd. repeat split; try reflexivity; try lia.
        exact Hc.
      + do 7 skip_bind. apply post_ret. cbn [fst snd].
        split; [discriminate|]. intros N _. exfalso.
        apply Z.ltb_ge in E. destruct conversions_with_posts; [congruence|].
        simpl in E. lia.
    - do 7 skip_bind. apply post_ret. cbn [fst snd].
      split; [discriminate|]. intros _ F. discriminate F. }
  intros [[[conversion_id customer_id] post_id] touchpoint_date].
  cbn [fst snd]. intros [Hc Hn].
  skip_bind. skip_bind. skip_bind.
  eapply post_bind
    with (P := fun wt => (leads = true -> 0.05 <= wt <= 0.40)
                         /\ (leads = false -> wt = 0)).
  { destruct leads.
    - eapply post_bind; [apply (uniform_post 0.05 0.40); lra|].
      intros u Hu. apply post_ret. split; [intros _|discriminate].
      replace 0.05 with (IZR 50 / 10 ^ 3) in * by (simpl; lra).
      replace 0.40 with (IZR 400 / 10 ^ 3) in * by (simpl; lra).
      apply round_bounds. lra.
    - apply post_ret. split; [discriminate|]. intros _. lra. }
  intros wt [Hw1 Hw0].
  apply post_ret. unfold touchpoint_row_ok. cbn.
  split; [exact Hc|]. split; [exact Hn|]. split; [exact Hw1|exact Hw0].
Qed.

End GeneratorPosts.

(** Rows of a table whose key column has no duplicate are determined by
    their key. *)
Lemma NoDup_map_inj {A B : Type} (f : A -> B) (l : list A) (a b : A) :
  NoDup (map f l) -> In a l -> In b l -> f a = f b -> a = b.
Proof.
  induction l as [|x l IH]; simpl; intros ND Ha Hb E; [contradiction|].
  inversion ND as [|y ys Hnotin ND']; subst.
  destruct Ha as [Ha|Ha], Hb as [Hb|Hb]; subst.
  - reflexivity.
  - exfalso. apply Hnotin. rewrite E. apply in_map. exact Hb.
  - exfalso. apply Hnotin. rewrite <- E. apply in_map. exact Ha.
  - apply IH; assumption.
Qed.

Section TablePosts.

Local Open Scope R_scope.

Variable cfg : Config.

Lemma lift_post {A : Type} (r : result A) :
  post (lift r) (fun a => r = Ok a).
Proof. apply post_lift. intros a E. exact E. Qed.

(** Every row of [generate_posts] comes from an iteration whose context was
    built from the window of the configuration and the tables on [self]. *)
Lemma generate_posts_post (self : Gen.t) :
  post (Gen.generate_posts cfg self)
       (fun posts =>
          exists start_date end_date influencers brands ctx,
            Datetime.strptime (DATE_START cfg) = Ok start_date
            /\ Datetime.strptime (DATE_END cfg) = Ok end_date
            /\ Gen.influencers_df self = Some influencers
            /\ Gen.brands_df self = Some brands
            /\ Gen.pc_start_date ctx = start_date
            /\ Gen.pc_date_range ctx = (end_date - start_date)%Z
            /\ Gen.pc_influencer_ids ctx
               = map Influencer.influencer_id influencers
            /\ Gen.pc_brand_ids ctx = map Brand.brand_id brands
            /\ Forall (post_row_ok ctx) posts
            /\ List.length posts = Z.to_nat (N_POSTS cfg)).
Proof.
  unfold Gen.generate_posts.
  eapply post_bind; [apply lift_post|]. intros start_date Hs.
  eapply post_bind; [apply lift_post|]. intros end_date He. cbv zeta.
  eapply post_bind; [apply column_post|]. intros influencers [Hi _].
  eapply post_bind; [apply column_post|]. intros brands [Hb _].
  skip_bind.
  eapply post_weaken; [apply post_for_in_range; intros i; apply post_row_post|].
  cbv beta. intros posts [F L].
  exists start_date, end_date, influencers, brands.
  eexists. repeat split; try eassumption; reflexivity.
Qed.

(** C3.  In every table [generate_posts] returns, a row is sponsored exactly
    when its brand id is not [None], and a brand id that is present is the
    id of a row of the brand table held by the generator. *)
Theorem generate_posts_sponsored_iff_brand (self : Gen.t) (w : World)
  (posts : list Post.t) (w' : World) :
  Gen.generate_posts cfg self w = Ok (posts, w') ->
  exists brands,
    Gen.brands_df self = Some brands
    /\ Forall (sponsored_iff_brand brands) posts.
Proof.
  intros H. apply generate_posts_post in H.
  destruct H as (s & e & infl & brands & ctx & _ & _ & _ & Hb & _ & _ & _
                 & Hids & F & _).
  exists brands. split; [exact Hb|].
  eapply Forall_impl; [|exact F]. intros p (Hs & Hbr & _).
  unfold sponsored_iff_brand.
  split; [exact Hs|]. split.
  - intros N. destruct (Post.brand_id p) as [b|] eqn:E; [|reflexivity].
    assert (Post.is_sponsored p = true) by (apply Hs; discriminate). congruence.
  - intros b E. specialize (Hbr b E). rewrite Hids in Hbr.
    apply in_map_iff in Hbr. destruct Hbr as (brand & E' & Hin).
    exists brand. split; assumption.
Qed.

Lemma generate_conversions_post (self : Gen.t) :
  post (Gen.generate_conversions cfg self)
       (fun conversions =>
          Forall conversion_row_ok conversions
          /\ List.length conversions = Z.to_nat (N_CONVERSIONS cfg)).
Proof.
  unfold Gen.generate_conversions.
  do 5 skip_bind. cbv zeta.
  apply post_for_in_range; intros i; apply conversion_row_post.
Qed.

(** C4, on the code.  A generator that holds a post table with at least one
    sponsored post and a brand table with distinct ids, a window that parses
    and at least one conversion to generate: when the first draw of
    [np.random.random()] is below 0.65, the conversion is attributed to a
    sponsored post, [generate_customer_journey_length] returns the
    [numpy.int64] of [np.clip], [timedelta(days=journey_length)] raises
    [TypeError], and [generate_conversions] returns no table. *)
Theorem attributed_conversion_raises_TypeError (self : Gen.t)
  (posts : list Post.t) (brands : list Brand.t) (start_date end_date : Z)
  (w : World) :
  Gen.posts_df self = Some posts ->
  filter Post.is_sponsored posts <> [] ->
  Gen.brands_df self = Some brands -> brands <> [] ->
  Gen.has_duplicates (map Brand.brand_id brands) = false ->
  Datetime.strptime (DATE_START cfg) = Ok start_date ->
  Datetime.strptime (DATE_END cfg) = Ok end_date ->
  (1 <= N_CONVERSIONS cfg)%Z ->
  (exists r w1, Np.random w = Ok (r, w1) /\ r < 0.65) ->
  Gen.generate_conversions cfg self w = Raise TypeError.
Proof.
  intros Hp Sp Hb Nb Db Hs He Hn Hr.
  unfold Gen.generate_conversions. rewrite Hp, Hb.
  destruct posts as [|p0 pr]; [simpl in Sp; congruence|].
  destruct brands as [|b0 br]; [congruence|].
  rewrite (bind_ok _ _ w w (p0 :: pr)) by reflexivity. cbv zeta.
  rewrite (bind_ok _ _ w w (b0 :: br)) by reflexivity.
  rewrite (bind_ok _ _ w w (map (fun r => (Brand.brand_id r, r)) (b0 :: br)))
    by (unfold Gen.to_dict_index; rewrite Db; reflexivity).
  rewrite (bind_ok _ _ w w start_date) by (rewrite Hs; reflexivity).
  rewrite (bind_ok _ _ w w end_date) by (rewrite He; reflexivity).
  cbv zeta. unfold for_in_range.
  destruct (Z.to_nat (N_CONVERSIONS cfg)) as [|k] eqn:En; [lia|].
  cbn [for_range]. unfold bind at 1.
  rewrite conversion_row_attributed; [reflexivity|exact Sp|exact Hr].
Qed.

(** Whenever [generate_conversions] returns, no row of its table names a
    post or an influencer. *)
Lemma generate_conversions_unattributed (self : Gen.t) (w : World)
  (conversions : list Conversion.t) (w' : World) :
  Gen.generate_conversions cfg self w = Ok (conversions, w') ->
  List.length conversions = Z.to_nat (N_CONVERSIONS cfg)
  /\ Forall (fun c => Conversion.post_id c = None
                      /\ Conversion.influencer_id c = None
                      /\ (1 <= Conversion.customer_journey_length c <= 90)%Z)
            conversions.
Proof.
  intros H. apply generate_conversions_post in H. destruct H as [F L].
  split; [exact L|]. eapply Forall_impl; [|exact F].
  intros c (J & P & N). split; [exact P|]. split; [exact N|exact J].
Qed.

Lemma generate_touchpoints_post (self : Gen.t) :
  post (Gen.generate_touchpoints cfg self)
       (fun touchpoints =>
          exists conversions,
            Gen.conversions_df self = Some conversions
            /\ Forall
                 (touchpoint_row_ok
                    (filter (fun c => Gen.is_some (Conversion.post_id c))
                            conversions))
                 touchpoints
            /\ List.length touchpoints = Z.to_nat (N_TOUCHPOINTS cfg)).
Proof.
  unfold Gen.generate_touchpoints.
  eapply post_bind; [apply column_post|]. intros conversions [Hc _]. cbv zeta.
  eapply post_weaken;
    [apply post_for_in_range; intros i; apply touchpoint_row_post|].
  cbv beta. intros touchpoints [F L].
  exists conversions. repeat split; assumption.
Qed.

(** C5, as the code has it.  In every table [generate_touchpoints] returns,
    a touchpoint linked to a conversion is linked to a conversion of the
    generator's table that has a post, inherits its customer and post, and is
    dated on or before the conversion's date, less than
    [max(1, customer_journey_length)] days before it; when the conversion
    ids are pairwise distinct the touchpoint is dated on or before the one
    conversion that carries the referenced id. *)
Theorem generate_touchpoints_not_after_conversion (self : Gen.t) (w : World)
  (touchpoints : list Touchpoint.t) (w' : World) :
  Gen.generate_touchpoints cfg self w = Ok (touchpoints, w') ->
  exists conversions,
    Gen.conversions_df self = Some conversions
    /\ Forall (touchpoint_not_after_conversion conversions) touchpoints.
Proof.
  intros H. apply generate_touchpoints_post in H.
  destruct H as (conversions & Hc & F & _).
  exists conversions. split; [exact Hc|].
  eapply Forall_impl; [|exact F]. intros tp (Hlink & _) cid E.
  destruct (Hlink cid E) as (_ & c & Hin & Hid & Hcust & Hpost & Hle & Hlt).
  apply filter_In in Hin. destruct Hin as [Hin Hsome].
  split.
  - exists c. repeat split; try assumption.
    destruct (Conversion.post_id c); [discriminate|discriminate Hsome].
  - intros ND c' Hin' Hid'.
    assert (c' = c) as ->
      by (apply (NoDup_map_inj Conversion.conversion_id conversions);
          congruence).
    exact Hle.
Qed.

(** C6, as the code has it.  In every table [generate_touchpoints] returns:
    a touchpoint with a conversion reference has
    [contributed_to_conversion] true and a weight in [0.05, 0.40], hence
    positive; the weight is in [0.05, 0.40] when [contributed_to_conversion]
    is true and exactly [0.0] when it is false; and when some conversion of
    the generator's table has a post reference, the conversion reference is
    present exactly when [contributed_to_conversion] is true, so every
    touchpoint without one has weight [0.0]. *)
Theorem generate_touchpoints_weights (self : Gen.t) (w : World)
  (touchpoints : list Touchpoint.t) (w' : World) :
  Gen.generate_touchpoints cfg self w = Ok (touchpoints, w') ->
  exists conversions,
    Gen.conversions_df self = Some conversions
    /\ Forall (touchpoint_weight_ok conversions) touchpoints.
Proof.
  intros H. apply generate_touchpoints_post in H.
  destruct H as (conversions & Hc & F & _).
  exists conversions. split; [exact Hc|].
  eapply Forall_impl; [|exact F]. intros tp (Hlink & Hconv & Hw1 & Hw0).
  unfold touchpoint_weight_ok.
  assert (Touchpoint.conversion_id tp <> None ->
          Touchpoint.contributed_to_conversion tp = true) as Hcontrib.
  { intros N. destruct (Touchpoint.conversion_id tp) as [cid|] eqn:E;
      [|congruence]. apply (Hlink cid). reflexivity. }
  split; [|split; [exact Hw1|split; [exact Hw0|]]].
  - intros N. split; [exact (Hcontrib N)|].
    specialize (Hw1 (Hcontrib N)). lra.
  - intros (c & Hin & Hpost).
    assert (filter (fun c => Gen.is_some (Conversion.post_id c)) conversions
            <> []) as NE.
    { intros E. assert (In c (filter (fun c => Gen.is_some (Conversion.post_id c))
                                     conversions)) as X.
      { apply filter_In. split; [exact Hin|].
        destruct (Conversion.post_id c); [reflexivity|congruence]. }
      rewrite E in X. exact X. }
    split; [split; [exact Hcontrib|exact (Hconv NE)]|].
    intros N. apply Hw0.
    destruct (Touchpoint.contributed_to_conversion tp) eqn:E; [|reflexivity].
    exfalso. exact (Hconv NE eq_refl N).
Qed.

End TablePosts.

(* ===================================================================== *)
(** * Theorems: dates *)
(* ===================================================================== *)

Section DateFacts.

Local Open Scope Z_scope.

Lemma shipped_window :
  Datetime.strptime (DATE_START config) = Ok 738917
  /\ Datetime.strptime (DATE_END config) = Ok 739282.
Proof. split; reflexivity. Qed.

(** [_ord2ymd] always yields a month between 1 and 12. *)
Lemma month_of_range (d : Z) : 1 <= Datetime.month_of d <= 12.
Proof.
  unfold Datetime.month_of, Datetime._ord2ymd.
  unfold Datetime._DI400Y, Datetime._DI100Y, Datetime._DI4Y.
  set (n := (((d - 1) mod 146097) mod 36524 mod 1461) mod 365).
  assert (0 <= n < 365) as Hn by (unfold n; apply Z.mod_pos_bound; lia).
  cbv zeta.
  lazymatch goal with
  | |- _ <= Datetime.month (if ?c then _ else _) <= _ => destruct c
  end; [cbn [Datetime.month]; lia|].
  rewrite Z.shiftr_div_pow2 by lia. change (2 ^ 5) with 32.
  assert (1 <= (n + 50) / 32 <= 12) as Hm.
  { pose proof (Z.div_mod (n + 50) 32 ltac:(lia)).
    pose proof (Z.mod_pos_bound (n + 50) 32 ltac:(lia)).
    clearbody n. lia. }
  set (m := (n + 50) / 32) in *. clearbody m. clearbody n.
  lazymatch goal with
  | |- _ <= Datetime.month (if ?c then _ else _) <= _ => destruct c eqn:E
  end; cbn [Datetime.month]; [|lia].
  destruct (Z.eq_dec m 1) as [M|M]; [|lia].
  exfalso. rewrite M in E. change (Z.to_nat 1) with 1%nat in E.
  cbn in E. apply Z.ltb_lt in E. lia.
Qed.

Lemma shipped_seasonality (m : Z) :
  1 <= m <= 12 ->
  exists v, getitem Z.eqb (MONTHLY_SEASONALITY config) m = Ok v.
Proof.
  intros H.
  assert (m = 1 \/ m = 2 \/ m = 3 \/ m = 4 \/ m = 5 \/ m = 6 \/ m = 7
          \/ m = 8 \/ m = 9 \/ m = 10 \/ m = 11 \/ m = 12) as C by lia.
  repeat (destruct C as [-> | C]); try subst m; eexists; reflexivity.
Qed.

Lemma add_days_ok (d days : Z) :
  1 <= d + days <= Datetime._MAXORDINAL ->
  Datetime.add_days d days = Ok (d + days).
Proof.
  intros [A B]. unfold Datetime.add_days.
  apply Z.leb_le in A, B. rewrite A, B. reflexivity.
Qed.

End DateFacts.

(* ===================================================================== *)
(** * Theorems: the generator returns *)
(* ===================================================================== *)

Section NormalisedConfig.

Local Open Scope R_scope.

Lemma valid_normalised_posting_times :
  Np.valid_p (keys (POSTING_TIME_DISTRIBUTION config_normalised))
             (values (POSTING_TIME_DISTRIBUTION config_normalised)) = true.
Proof. valid_p_by_computation. Qed.

Lemma valid_visual_styles :
  Np.valid_p (keys (VISUAL_STYLES config)) (values (VISUAL_STYLES config))
  = true.
Proof. valid_p_by_computation. Qed.

(** Whatever the platform, the content-type table looked up for it (or the
    default) is a distribution numpy accepts. *)
Lemma valid_content_types (platform : string) :
  let content_types :=
    get_default String.eqb (CONTENT_TYPE_BY_PLATFORM config) platform
                [("photo"%string, 1.0)] in
  keys content_types <> []
  /\ Np.valid_p (keys content_types) (values content_types) = true.
Proof.
  unfold get_default. cbn [CONTENT_TYPE_BY_PLATFORM config getitem].
  destruct (String.eqb platform "Instagram");
    [split; [discriminate|valid_p_by_computation]|].
  destruct (String.eqb platform "TikTok");
    [split; [discriminate|valid_p_by_computation]|].
  destruct (String.eqb platform "YouTube");
    [split; [discriminate|valid_p_by_computation]|].
  destruct (String.eqb platform "Twitter");
    [split; [discriminate|valid_p_by_computation]|].
  split; [discriminate|valid_p_by_computation].
Qed.

End NormalisedConfig.

Section PostsReturn.

Local Open Scope R_scope.

Variable I : World -> Prop.
Hypothesis I_stable : stable I.

Lemma getitem_of_row {A : Type} (key : A -> N) (rows : list A) (r : A) :
  In r rows ->
  exists r',
    getitem N.eqb (map (fun x => (key x, x)) rows) (key r) = Ok r'
    /\ In r' rows.
Proof.
  induction rows as [|x rest IH]; [contradiction|].
  intros H. simpl.
  destruct (N.eqb (key r) (key x)) eqn:E;
    [exists x; split; [reflexivity|left; reflexivity]|].
  destruct H as [->|H].
  - rewrite N.eqb_refl in E. discriminate E.
  - destruct (IH H) as (r' & G & Hin). exists r'. split; [exact G|].
    right. exact Hin.
Qed.

Lemma item0_total {A : Type} (xs : list A) (Q : A -> Prop) :
  xs <> [] -> Forall Q xs -> total_in I (Dist.item0 xs) Q.
Proof.
  destruct xs as [|x r]; [congruence|]. intros _ F.
  apply total_in_ret. inversion F. assumption.
Qed.

(** One iteration of [generate_posts] returns whenever the context offers an
    influencer with a row in the lookup, a brand, and a non-empty window
    inside the years 1..9999. *)
Lemma post_row_total (ctx : Gen.PostContext) (i : Z) :
  Gen.pc_influencer_ids ctx <> [] ->
  (forall id, In id (Gen.pc_influencer_ids ctx) ->
     exists data, getitem N.eqb (Gen.pc_inf_lookup ctx) id = Ok data) ->
  Gen.pc_brand_ids ctx <> [] ->
  (0 < Gen.pc_date_range ctx)%Z ->
  (1 <= Gen.pc_start_date ctx)%Z ->
  (Gen.pc_start_date ctx + Gen.pc_date_range ctx <= Datetime._MAXORDINAL)%Z ->
  total_in I (Gen.post_row config_normalised ctx i) (fun _ => True).
Proof.
  intros Hids Hlookup Hbrands Hrange Hstart Hend. unfold Gen.post_row.
  eapply total_in_bind; [apply choice_total; [exact I_stable|exact Hids]|].
  intros inf_id Hin. destruct (Hlookup inf_id Hin) as (inf_data & G).
  eapply total_in_bind;
    [apply (total_in_lift I _ _ (fun x => x = inf_data) G); reflexivity|].
  intros x ->. cbv zeta.
  eapply total_in_bind; [apply randint_total; [exact I_stable|exact Hrange]|].
  intros random_days Hr. cbv beta in Hr.
  eapply total_in_bind;
    [apply (total_in_lift I _ _ (fun _ => True)
              (add_days_ok (Gen.pc_start_date ctx) random_days
                 ltac:(unfold Datetime._MAXORDINAL in *; lia)));
     exact Logic.I|].
  intros post_date _.
  eapply total_in_bind;
    [apply generate_post_time_total;
       [exact I_stable|discriminate|exact valid_normalised_posting_times
       |discriminate|exact valid_day_of_week_distribution]|].
  intros [hour day_of_week] _.
  destruct (valid_content_types (Influencer.platform inf_data)) as [CN CV].
  cbv zeta in CN, CV.
  eapply total_in_bind;
    [apply sample_from_distribution_total;
       [exact I_stable|exact CN|lia|exact CV]|].
  intros sampled [_ L]. destruct sampled as [|content_type rest];
    [discriminate L|].
  eapply total_in_bind; [apply total_in_ret with (Q := fun _ => True); exact Logic.I|].
  intros ct _.
  eapply total_in_bind; [apply random_total, I_stable|]. intros r_sponsored _.
  eapply total_in_bind; [apply generate_outlier_probability_total, I_stable|].
  intros outlier_mult _.
  destruct (shipped_seasonality (Datetime.month_of post_date)
              (month_of_range post_date)) as (seasonality & S).
  eapply total_in_bind;
    [apply (total_in_lift I _ _ (fun _ => True) S); exact Logic.I|].
  intros s _.
  eapply total_in_bind; [apply generate_engagement_metrics_total, I_stable|].
  intros base_engagement _.
  eapply total_in_bind; [apply generate_reach_impressions_returns, I_stable|].
  intros [reach impressions] _.
  eapply total_in_bind; [apply uuid4_total, I_stable|]. intros post_id _.
  eapply total_in_bind with (P := fun _ => True).
  { destruct (Py.lt r_sponsored _).
    - eapply total_in_bind; [apply choice_total; [exact I_stable|exact Hbrands]|].
      intros b _. apply total_in_ret. exact Logic.I.
    - apply total_in_ret. exact Logic.I. }
  intros brand_id _.
  eapply total_in_bind; [apply generate_caption_length_total, I_stable|].
  intros caption_length _.
  eapply total_in_bind; [apply generate_hashtag_count_total, I_stable|].
  intros hashtag_count _.
  eapply total_in_bind; [apply random_total, I_stable|]. intros r_cta _.
  eapply total_in_bind with (P := fun _ => True).
  { destruct (Py.lt r_sponsored _).
    - eapply total_in_weaken; [apply poisson_total; [exact I_stable|lra]|].
      intros; exact Logic.I.
    - apply total_in_ret. exact Logic.I. }
  intros product_count _.
  eapply total_in_bind;
    [apply sample_from_distribution_total;
       [exact I_stable|discriminate|lia|exact valid_visual_styles]|].
  intros styles [_ L2]. destruct styles as [|style rest2]; [discriminate L2|].
  eapply total_in_bind; [apply total_in_ret with (Q := fun _ => True); exact Logic.I|].
  intros visual_style _.
  eapply total_in_bind; [apply choice_total; [exact I_stable|discriminate]|].
  intros dominant_color _.
  eapply total_in_bind with (P := fun _ => True).
  { destruct (Py.lt r_sponsored _).
    - eapply total_in_bind; [apply random_total, I_stable|].
      intros r _. apply total_in_ret. exact Logic.I.
    - apply total_in_ret. exact Logic.I. }
  intros discount _. apply total_in_ret. exact Logic.I.
Qed.

(** [generate_posts] returns 50000 rows from every world when the generator
    holds a non-empty influencer table without duplicate ids and a non-empty
    brand table. *)
Lemma generate_posts_total (self : Gen.t) (influencers : list Influencer.t)
  (brands : list Brand.t) :
  Gen.influencers_df self = Some influencers -> influencers <> [] ->
  Gen.has_duplicates (map Influencer.influencer_id influencers) = false ->
  Gen.brands_df self = Some brands -> brands <> [] ->
  total_in I (Gen.generate_posts config_normalised self)
           (fun posts => List.length posts = Z.to_nat 50000).
Proof.
  intros Hi Ni Di Hb Nb. unfold Gen.generate_posts.
  destruct shipped_window as [Ws We].
  eapply total_in_bind;
    [apply (total_in_lift I _ _ (fun x => x = 738917%Z) Ws); reflexivity|].
  intros s ->.
  eapply total_in_bind;
    [apply (total_in_lift I _ _ (fun x => x = 739282%Z) We); reflexivity|].
  intros e ->. cbv zeta.
  rewrite Hi, Hb. unfold Gen.column.
  destruct influencers as [|i0 irest]; [congruence|].
  destruct brands as [|b0 brest]; [congruence|].
  eapply total_in_bind; [apply total_in_ret with (Q := fun x => x = i0 :: irest);
                         reflexivity|].
  intros x ->.
  eapply total_in_bind; [apply total_in_ret with (Q := fun x => x = b0 :: brest);
                         reflexivity|].
  intros x ->.
  unfold Gen.to_dict_index. rewrite Di.
  eapply total_in_bind;
    [apply total_in_ret
       with (Q := fun x => x = map (fun r => (Influencer.influencer_id r, r))
                                   (i0 :: irest)); reflexivity|].
  intros x ->.
  eapply total_in_weaken.
  - apply total_in_for_in_range with (Q := fun _ => True).
    intros i _. apply post_row_total; cbn [Gen.pc_influencer_ids
      Gen.pc_inf_lookup Gen.pc_brand_ids Gen.pc_date_range Gen.pc_start_date].
    + discriminate.
    + intros id Hin. apply in_map_iff in Hin. destruct Hin as (r & <- & Hr).
      destruct (getitem_of_row Influencer.influencer_id _ _ Hr) as (r' & G & _).
      exists r'. exact G.
    + discriminate.
    + lia.
    + lia.
    + unfold Datetime._MAXORDINAL. lia.
  - cbv beta. intros posts [_ L]. exact L.
Qed.

End PostsReturn.

Section ConversionsReturn.

Local Open Scope R_scope.

Variable I : World -> Prop.
Hypothesis I_stable : stable I.

Lemma generate_order_value_total (cfg : Config) (brand_tier : string) :
  BRAND_AOV cfg = BRAND_AOV config ->
  In brand_tier ["Luxury"; "Premium"; "Mid-market"; "Fast-fashion"; "DTC"]%string ->
  total_in I (Dist.generate_order_value cfg brand_tier) (fun _ => True).
Proof.
  intros C H. simpl in H.
  repeat (destruct H as [<- | H]); try contradiction;
    (eapply total_in_weaken;
     [eapply generate_order_value_range;
        [exact I_stable|rewrite C; reflexivity|lia]
     |intros; exact Logic.I]).
Qed.

(** One iteration of [generate_conversions] returns in the worlds where no
    draw of [np.random.random()] is below 0.65, so that no conversion is
    attributed to a post: the brand table is non-empty with tiers of
    [BRAND_AOV], and the window is non-empty. *)
Lemma conversion_row_total (self : Gen.t) (ctx : Gen.ConversionContext)
  (brands : list Brand.t) (i : Z) :
  total_in I Np.random (fun r => 0.65 <= r) ->
  Gen.brands_df self = Some brands -> brands <> [] ->
  (forall b, In b (map Brand.brand_id brands) ->
     exists brand,
       getitem N.eqb (Gen.cc_brand_lookup ctx) b = Ok brand
       /\ In (Brand.brand_tier brand)
             ["Luxury"; "Premium"; "Mid-market"; "Fast-fashion"; "DTC"]%string) ->
  (0 < Gen.cc_date_range ctx)%Z ->
  (1 <= Gen.cc_start_date ctx)%Z ->
  (Gen.cc_start_date ctx + Gen.cc_date_range ctx <= Datetime._MAXORDINAL)%Z ->
  total_in I (Gen.conversion_row config_normalised self ctx i) (fun _ => True).
Proof.
  intros Late Hb Nb Hlookup Hrange Hstart Hend. unfold Gen.conversion_row.
  eapply total_in_bind; [exact Late|]. intros r_att Hr.
  cbv zeta.
  assert (Py.lt r_att 0.65 = false) as -> by (apply lt_false; exact Hr).
  cbn [andb].
  eapply total_in_bind
    with (P := fun t => fst (fst (fst (fst t))) = None
                        /\ forall b, snd (fst (fst t)) = Some b ->
                             In b (map Brand.brand_id brands)).
  { rewrite Hb. unfold Gen.column. destruct brands as [|b0 brest]; [congruence|].
    eapply total_in_bind;
      [apply total_in_ret with (Q := fun x => x = b0 :: brest); reflexivity|].
    intros x ->.
    eapply total_in_bind; [apply choice_total; [exact I_stable|discriminate]|].
    intros brand_id Hbid.
    eapply total_in_bind; [apply randint_total; [exact I_stable|exact Hrange]|].
    intros random_days Hd. cbv beta in Hd.
    eapply total_in_bind;
      [apply (total_in_lift I _ _ (fun _ => True)
                (add_days_ok (Gen.cc_start_date ctx) random_days ltac:(lia)));
       exact Logic.I|].
    intros conversion_date _.
    eapply total_in_bind;
      [apply generate_customer_journey_length_total, I_stable|].
    intros jl _. apply total_in_ret. cbn [fst snd]. split; [reflexivity|].
    intros b E. inversion E. subst. exact Hbid. }
  intros [[[[post_id influencer_id] brand_id] conversion_date] journey_length].
  cbn [fst snd]. intros [-> Hbrand].
  eapply total_in_bind
    with (P := fun tier =>
                 In tier ["Luxury"; "Premium"; "Mid-market"; "Fast-fashion";
                          "DTC"]%string).
  { destruct brand_id as [b|].
    - destruct (Hlookup b (Hbrand b eq_refl)) as (brand & G & T).
      eapply total_in_bind;
        [apply (total_in_lift I _ _ (fun x => x = brand) G); reflexivity|].
      intros x ->. apply total_in_ret. exact T.
    - apply total_in_ret. simpl. auto. }
  intros brand_tier Htier.
  eapply total_in_bind; [apply uuid4_total, I_stable|]. intros conversion_id _.
  eapply total_in_bind; [apply uuid4_total, I_stable|]. intros customer_id _.
  eapply total_in_bind;
    [apply choice_p_total; [exact I_stable|discriminate|valid_p_by_computation]|].
  intros attribution_type _.
  eapply total_in_bind; [apply choice_total; [exact I_stable|discriminate]|].
  intros utm_source _.
  eapply total_in_bind; [apply choice_total; [exact I_stable|discriminate]|].
  intros utm_medium _.
  eapply total_in_bind;
    [apply generate_order_value_total; [reflexivity|exact Htier]|].
  intros order_value _.
  eapply total_in_bind; [apply choice_total; [exact I_stable|discriminate]|].
  intros product_category _.
  cbn [Gen.is_some].
  eapply total_in_bind; [apply total_in_ret with (Q := fun _ => True); exact Logic.I|].
  intros discount _.
  eapply total_in_bind; [apply generate_touchpoints_count_total, I_stable|].
  intros touchpoints_count _. apply total_in_ret. exact Logic.I.
Qed.

(** [generate_conversions] returns 30000 rows from every world where no draw
    of [np.random.random()] is below 0.65, when the generator holds a post
    table with rows and a brand table that is non-empty, has no duplicate id
    and has tiers of [BRAND_AOV]. *)
Lemma generate_conversions_total (self : Gen.t) (posts : list Post.t)
  (brands : list Brand.t) :
  total_in I Np.random (fun r => 0.65 <= r) ->
  Gen.posts_df self = Some posts -> posts <> [] ->
  Gen.brands_df self = Some brands -> brands <> [] ->
  Gen.has_duplicates (map Brand.brand_id brands) = false ->
  Forall (fun b => In (Brand.brand_tier b)
                      ["Luxury"; "Premium"; "Mid-market"; "Fast-fashion";
                       "DTC"]%string) brands ->
  total_in I (Gen.generate_conversions config_normalised self)
           (fun conversions => List.length conversions = Z.to_nat 30000).
Proof.
  intros Late Hp Np Hb Nb Db Tb. unfold Gen.generate_conversions.
  rewrite Hp, Hb. unfold Gen.column, Gen.set_index.
  destruct posts as [|p0 prest]; [congruence|].
  destruct brands as [|b0 brest] eqn:EB; [congruence|]. rewrite <- EB in *.
  eapply total_in_bind;
    [apply total_in_ret with (Q := fun x => x = p0 :: prest); reflexivity|].
  intros x ->. cbv zeta.
  pattern brands at 1. rewrite EB.
  eapply total_in_bind;
    [apply total_in_ret with (Q := fun x => x = brands); symmetry; exact EB|].
  intros x ->.
  unfold Gen.to_dict_index. rewrite Db.
  eapply total_in_bind;
    [apply total_in_ret
       with (Q := fun x => x = map (fun r => (Brand.brand_id r, r)) brands);
     reflexivity|].
  intros x ->.
  destruct shipped_window as [Ws We].
  eapply total_in_bind;
    [apply (total_in_lift I _ _ (fun x => x = 738917%Z) Ws); reflexivity|].
  intros s ->.
  eapply total_in_bind;
    [apply (total_in_lift I _ _ (fun x => x = 739282%Z) We); reflexivity|].
  intros e ->. cbv zeta.
  eapply total_in_weaken.
  - apply total_in_for_in_range with (Q := fun _ => True).
    intros i _. apply conversion_row_total with (brands := brands);
      cbn [Gen.cc_sponsored_posts Gen.cc_brand_lookup Gen.cc_start_date
           Gen.cc_end_date Gen.cc_date_range]; try lia.
    + exact Late.
    + exact Hb.
    + exact Nb.
    + intros b Hin. apply in_map_iff in Hin. destruct Hin as (r & <- & Hr).
      destruct (getitem_of_row Brand.brand_id _ _ Hr) as (r' & G & Hin').
      exists r'. split; [exact G|]. rewrite Forall_forall in Tb. exact (Tb _ Hin').
    + unfold Datetime._MAXORDINAL. lia.
  - cbv beta. intros conversions [_ L]. exact L.
Qed.

End ConversionsReturn.


Section ZeroWorld.

Local Open Scope R_scope.

Lemma zero_world_stable : stable zero_world.
Proof. intros w s n k H. exact H. Qed.

Lemma constant_world_zero (id : N) : zero_world (constant_world 0 id).
Proof. intros s n. reflexivity. Qed.

Lemma late_world_stable : stable late_world.
Proof. intros w s n k H s' n'. exact (H s' n'). Qed.

Lemma constant_world_late (id : N) : late_world (constant_world 0.7 id).
Proof. intros s n. reflexivity. Qed.

Lemma random_late : total_in late_world Np.random (fun u => u = 0.7).
Proof.
  intros w Hw. unfold Np.random, bind, Np.variate, ret.
  eexists. eexists. split; [reflexivity|]. split; [|exact Hw].
  rewrite (Hw (np_seed w) (np_drawn w)). rewrite (Zfloor_eq 0 0.7) by lra. lra.
Qed.

Lemma random_late_ge : total_in late_world Np.random (fun u => 0.65 <= u).
Proof.
  eapply total_in_weaken; [apply random_late|]. intros u ->. lra.
Qed.

Lemma random_zero : total_in zero_world Np.random (fun u => u = 0).
Proof.
  intros w Hw. unfold Np.random, bind, Np.variate, ret.
  eexists. eexists. split; [reflexivity|]. split; [|exact Hw].
  rewrite (Hw (np_seed w) (np_drawn w)). rewrite (Zfloor_eq 0 0) by lra. lra.
Qed.

Lemma randint_zero (low high : Z) :
  (low < high)%Z -> total_in zero_world (Np.randint low high) (fun z => z = low).
Proof.
  intros H. unfold Np.randint.
  destruct (low <? high)%Z eqn:E; [|apply Z.ltb_ge in E; lia].
  eapply total_in_bind; [apply random_zero|]. intros u ->.
  apply total_in_ret. rewrite Rmult_0_l, (Zfloor_eq 0 0) by lra. lia.
Qed.

(** In a world of zero variates every iteration of [generate_touchpoints]
    takes the conversion branch when a conversion with a post exists, draws
    an offset of zero days, and so dates the touchpoint on the conversion's
    own date; with no such conversion it still marks the touchpoint as
    contributing. *)
Lemma touchpoint_row_zero (self : Gen.t)
  (conversions_with_posts : list Conversion.t) (posts : list Post.t) (i : Z) :
  Gen.posts_df self = Some posts -> posts <> [] ->
  Forall (fun c => (1 <= Conversion.conversion_date c
                    <= Datetime._MAXORDINAL)%Z) conversions_with_posts ->
  total_in zero_world
           (Gen.touchpoint_row config self conversions_with_posts i)
           (fun tp =>
              Touchpoint.contributed_to_conversion tp = true
              /\ (conversions_with_posts = [] ->
                    Touchpoint.conversion_id tp = None)
              /\ (conversions_with_posts <> [] ->
                    exists c,
                      In c conversions_with_posts
                      /\ Touchpoint.conversion_id tp
                         = Some (Conversion.conversion_id c)
                      /\ Touchpoint.touchpoint_date tp
                         = Conversion.conversion_date c)).
Proof.
  intros Hp Np Fc. unfold Gen.touchpoint_row.
  eapply total_in_bind; [apply random_zero|]. intros r_leads ->.
  cbv zeta.
  assert (Py.lt 0 0.30 = true) as L by (apply lt_true; lra).
  rewrite L. cbn [andb].
  eapply total_in_bind
    with (P := fun t =>
                 (conversions_with_posts = [] -> fst (fst (fst t)) = None)
                 /\ (conversions_with_posts <> [] ->
                       exists c,
                         In c conversions_with_posts
                         /\ fst (fst (fst t)) = Some (Conversion.conversion_id c)
                         /\ snd t = Conversion.conversion_date c)).
  { destruct conversions_with_posts as [|c0 rest] eqn:EC.
    - cbn [List.length Z.of_nat Z.ltb Z.compare].
      eapply total_in_bind; [apply uuid4_total, zero_world_stable|].
      intros customer_id _.
      eapply total_in_bind; [apply random_zero|]. intros r_post ->.
      assert (Py.lt 0 0.7 = true) as L7 by (apply lt_true; lra). rewrite L7.
      eapply total_in_bind with (P := fun _ => True).
      { rewrite Hp. unfold Gen.column. destruct posts as [|p0 prest]; [congruence|].
        eapply total_in_bind;
          [apply total_in_ret with (Q := fun x => x = p0 :: prest); reflexivity|].
        intros x ->.
        eapply total_in_bind;
          [apply choice_total; [exact zero_world_stable|discriminate]|].
        intros p _. apply total_in_ret. exact Logic.I. }
      intros post_id _.
      destruct shipped_window as [Ws We].
      eapply total_in_bind;
        [apply (total_in_lift zero_world _ _ (fun x => x = 738917%Z) Ws);
         reflexivity|].
      intros s ->.
      eapply total_in_bind;
        [apply (total_in_lift zero_world _ _ (fun x => x = 739282%Z) We);
         reflexivity|].
      intros e ->.
      eapply total_in_bind; [apply randint_zero; lia|]. intros random_days ->.
      eapply total_in_bind;
        [apply (total_in_lift zero_world _ _ (fun _ => True)
                  (add_days_ok 738917 0 ltac:(unfold Datetime._MAXORDINAL; lia)));
         exact Logic.I|].
      intros touchpoint_date _. apply total_in_ret. cbn [fst snd].
      split; [reflexivity|congruence].
    - rewrite <- EC in *.
      assert ((0 <? Z.of_nat (List.length conversions_with_posts))%Z = true) as NE.
      { rewrite EC. apply Z.ltb_lt. simpl List.length. lia. }
      rewrite NE.
      eapply total_in_bind;
        [apply choice_total; [exact zero_world_stable|rewrite EC; discriminate]|].
      intros c Hc. cbv zeta.
      eapply total_in_bind; [apply randint_zero; lia|]. intros days_before ->.
      rewrite Forall_forall in Fc. pose proof (Fc c Hc) as D.
      eapply total_in_bind;
        [apply (total_in_lift zero_world _ _
                  (fun x => x = Conversion.conversion_date c)
                  (add_days_ok (Conversion.conversion_date c) (- 0)
                     ltac:(lia))); lia|].
      intros touchpoint_date ->. apply total_in_ret. cbn [fst snd].
      split; [rewrite EC; discriminate|]. intros _. exists c.
      split; [exact Hc|]. split; reflexivity. }
  intros [[[conversion_id customer_id] post_id] touchpoint_date].
  cbn [fst snd]. intros [H0 H1].
  eapply total_in_bind with (P := fun _ => True).
  { destruct post_id as [pid|].
    - rewrite Hp. unfold Gen.column. destruct posts as [|p0 prest]; [congruence|].
      eapply total_in_bind;
        [apply total_in_ret with (Q := fun x => x = p0 :: prest); reflexivity|].
      intros x ->. cbv zeta.
      destruct (map Post.platform _).
      + eapply total_in_weaken;
          [apply choice_total; [exact zero_world_stable|discriminate]|].
        intros; exact Logic.I.
      + apply total_in_ret. exact Logic.I.
    - eapply total_in_weaken;
        [apply choice_total; [exact zero_world_stable|discriminate]|].
      intros; exact Logic.I. }
  intros platform _.
  eapply total_in_bind; [apply uuid4_total, zero_world_stable|].
  intros touchpoint_id _.
  eapply total_in_bind;
    [apply choice_p_total;
       [exact zero_world_stable|discriminate|valid_p_by_computation]|].
  intros touchpoint_type _.
  eapply total_in_bind;
    [eapply total_in_bind; [apply uniform_returns, zero_world_stable|];
     intros u _; apply total_in_ret with (Q := fun _ => True); exact Logic.I|].
  intros weight _. apply total_in_ret. cbn.
  split; [reflexivity|]. split; [exact H0|exact H1].
Qed.

(** From a world of zero variates [generate_touchpoints] returns its 100000
    rows, each as [touchpoint_row_zero] describes. *)
Lemma generate_touchpoints_zero (self : Gen.t)
  (conversions : list Conversion.t) (posts : list Post.t) :
  Gen.conversions_df self = Some conversions -> conversions <> [] ->
  Gen.posts_df self = Some posts -> posts <> [] ->
  Forall (fun c => (1 <= Conversion.conversion_date c
                    <= Datetime._MAXORDINAL)%Z) conversions ->
  let conversions_with_posts :=
    filter (fun c => Gen.is_some (Conversion.post_id c)) conversions in
  total_in zero_world (Gen.generate_touchpoints config self)
           (fun touchpoints =>
              List.length touchpoints = Z.to_nat 100000
              /\ Forall
                   (fun tp =>
                      Touchpoint.contributed_to_conversion tp = true
                      /\ (conversions_with_posts = [] ->
                            Touchpoint.conversion_id tp = None)
                      /\ (conversions_with_posts <> [] ->
                            exists c,
                              In c conversions_with_posts
                              /\ Touchpoint.conversion_id tp
                                 = Some (Conversion.conversion_id c)
                              /\ Touchpoint.touchpoint_date tp
                                 = Conversion.conversion_date c))
                   touchpoints).
Proof.
  intros Hc Nc Hp Np Fc cwp. unfold Gen.generate_touchpoints.
  rewrite Hc. unfold Gen.column.
  destruct conversions as [|c0 crest]; [congruence|].
  eapply total_in_bind;
    [apply total_in_ret with (Q := fun x => x = c0 :: crest); reflexivity|].
  intros x ->. cbv zeta.
  eapply total_in_weaken.
  - apply total_in_for_in_range. intros i _.
    apply touchpoint_row_zero with (posts := posts); [exact Hp|exact Np|].
    apply Forall_forall. intros c Hin. apply filter_In in Hin.
    rewrite Forall_forall in Fc. apply Fc. apply Hin.
  - cbv beta. intros touchpoints [F L]. split; [exact L|exact F].
Qed.

End ZeroWorld.

(* ===================================================================== *)
(** * Theorems: concrete runs of the table generators *)
(* ===================================================================== *)

Section Runs.

Local Open Scope R_scope.

Lemma nonempty_of_length {A : Type} (l : list A) (n : Z) :
  (0 < n)%Z -> List.length l = Z.to_nat n -> exists x r, l = x :: r.
Proof.
  intros H L. destruct l as [|x r]; [simpl in L; lia|].
  exists x, r. reflexivity.
Qed.

(** The statement of C3 on the run of [generate_posts] from the world of
    zero variates, with the one-row influencer and brand tables. *)
Lemma generate_posts_sponsored_iff_brand_witness :
  exists posts w',
    Gen.generate_posts config_normalised generator0 (constant_world 0 0)
    = Ok (posts, w')
    /\ List.length posts = Z.to_nat 50000
    /\ Forall (sponsored_iff_brand [brand0]) posts.
Proof.
  destruct (generate_posts_total (fun _ => True) stable_True generator0
              [influencer0] [brand0] eq_refl ltac:(discriminate) eq_refl
              eq_refl ltac:(discriminate) (constant_world 0 0) Logic.I)
    as (posts & w' & E & L & _).
  destruct (generate_posts_sponsored_iff_brand config_normalised generator0
              (constant_world 0 0) posts w' E) as (brands & Hb & F).
  injection Hb as <-.
  exists posts, w'. split; [exact E|split; [exact L|exact F]].
Defined.

(** C4 on the code, at a run: the generator holding [post0], a sponsored
    post, and [brand0], under the shipped configuration, from the world of
    zero variates.  The first draw is 0, below 0.65. *)
Lemma attributed_conversion_raises_TypeError_witness :
  Gen.generate_conversions config (generator0_with_posts [post0])
                           (constant_world 0 0)
  = Raise TypeError.
Proof.
  destruct shipped_window as [Ws We].
  apply (attributed_conversion_raises_TypeError
           config (generator0_with_posts [post0]) [post0] [brand0]
           738917 739282 (constant_world 0 0)).
  - reflexivity.
  - simpl. discriminate.
  - reflexivity.
  - discriminate.
  - reflexivity.
  - exact Ws.
  - exact We.
  - simpl. lia.
  - destruct (random_zero (constant_world 0 0) (constant_world_zero 0))
      as (r & w1 & E & -> & _).
    exists 0, w1. split; [exact E|lra].
Defined.

Lemma conversion0_dated :
  Forall (fun c => (1 <= Conversion.conversion_date c
                    <= Datetime._MAXORDINAL)%Z) [conversion0].
Proof. repeat constructor; unfold Datetime._MAXORDINAL; simpl; lia. Qed.

Lemma conversion_without_post_dated :
  Forall (fun c => (1 <= Conversion.conversion_date c
                    <= Datetime._MAXORDINAL)%Z) [conversion_without_post].
Proof. repeat constructor; unfold Datetime._MAXORDINAL; simpl; lia. Qed.

(** C5, counterexample.  With [conversion0] (attributed to [post0], journey
    length 3) as the conversion table and zero variates, the first touchpoint
    is linked to [conversion0] and dated on [conversion0]'s own date: the
    offset [randint(0, max(1, 3))] can be 0. *)
Lemma touchpoint_on_conversion_date :
  exists touchpoints w' tp,
    Gen.generate_touchpoints config (generator_with_conversions [conversion0])
                             (constant_world 0 0)
    = Ok (touchpoints, w')
    /\ In tp touchpoints
    /\ Touchpoint.conversion_id tp = Some (Conversion.conversion_id conversion0)
    /\ Touchpoint.touchpoint_date tp = Conversion.conversion_date conversion0.
Proof.
  destruct (generate_touchpoints_zero
              (generator_with_conversions [conversion0]) [conversion0] [post0]
              eq_refl ltac:(discriminate) eq_refl ltac:(discriminate)
              conversion0_dated (constant_world 0 0) (constant_world_zero 0))
    as (touchpoints & w' & E & (L & F) & _).
  destruct (nonempty_of_length touchpoints 100000 ltac:(lia) L)
    as (tp & rest & ->).
  inversion F as [|? ? (_ & _ & H) _]. subst.
  destruct (H ltac:(discriminate)) as (c & Hin & Hid & Hdate).
  destruct Hin as [<-|[]].
  exists (tp :: rest), w', tp.
  split; [exact E|]. split; [left; reflexivity|]. split; assumption.
Qed.

(** The statement of C5, as the code has it, on the same run. *)
Lemma generate_touchpoints_not_after_conversion_witness :
  exists touchpoints w',
    Gen.generate_touchpoints config (generator_with_conversions [conversion0])
                             (constant_world 0 0)
    = Ok (touchpoints, w')
    /\ List.length touchpoints = Z.to_nat 100000
    /\ Forall (touchpoint_not_after_conversion [conversion0]) touchpoints.
Proof.
  destruct (generate_touchpoints_zero
              (generator_with_conversions [conversion0]) [conversion0] [post0]
              eq_refl ltac:(discriminate) eq_refl ltac:(discriminate)
              conversion0_dated (constant_world 0 0) (constant_world_zero 0))
    as (touchpoints & w' & E & (L & _) & _).
  destruct (generate_touchpoints_not_after_conversion config
              (generator_with_conversions [conversion0]) (constant_world 0 0)
              touchpoints w' E) as (conversions & Hc & F).
  injection Hc as <-.
  exists touchpoints, w'. split; [exact E|split; [exact L|exact F]].
Defined.

(** C6, counterexample.  With a conversion table whose only row has no post
    and zero variates, the first touchpoint has
    [contributed_to_conversion] true, no conversion reference, and a weight of
    at least 0.05. *)
Lemma contributing_touchpoint_without_conversion :
  exists touchpoints w' tp,
    Gen.generate_touchpoints
      config (generator_with_conversions [conversion_without_post])
      (constant_world 0 0)
    = Ok (touchpoints, w')
    /\ In tp touchpoints
    /\ Touchpoint.contributed_to_conversion tp = true
    /\ Touchpoint.conversion_id tp = None
    /\ 0.05 <= Touchpoint.attribution_weight tp.
Proof.
  destruct (generate_touchpoints_zero
              (generator_with_conversions [conversion_without_post])
              [conversion_without_post] [post0]
              eq_refl ltac:(discriminate) eq_refl ltac:(discriminate)
              conversion_without_post_dated (constant_world 0 0)
              (constant_world_zero 0))
    as (touchpoints & w' & E & (L & F) & _).
  pose proof (generate_touchpoints_post config _ _ _ _ E) as (cs & _ & G & _).
  destruct (nonempty_of_length touchpoints 100000 ltac:(lia) L)
    as (tp & rest & ->).
  inversion F as [|? ? (Hc & Hn & _) _]. subst.
  inversion G as [|? ? (_ & _ & Hw & _) _]. subst.
  exists (tp :: rest), w', tp.
  split; [exact E|]. split; [left; reflexivity|]. split; [exact Hc|].
  split; [apply Hn; reflexivity|]. apply Hw. exact Hc.
Qed.

(** The statement of C6, as the code has it, on the run with [conversion0]. *)
Lemma generate_touchpoints_weights_witness :
  exists touchpoints w',
    Gen.generate_touchpoints config (generator_with_conversions [conversion0])
                             (constant_world 0 0)
    = Ok (touchpoints, w')
    /\ List.length touchpoints = Z.to_nat 100000
    /\ Forall (touchpoint_weight_ok [conversion0]) touchpoints.
Proof.
  destruct (generate_touchpoints_zero
              (generator_with_conversions [conversion0]) [conversion0] [post0]
              eq_refl ltac:(discriminate) eq_refl ltac:(discriminate)
              conversion0_dated (constant_world 0 0) (constant_world_zero 0))
    as (touchpoints & w' & E & (L & _) & _).
  destruct (generate_touchpoints_weights config
              (generator_with_conversions [conversion0]) (constant_world 0 0)
              touchpoints w' E) as (conversions & Hc & F).
  injection Hc as <-.
  exists touchpoints, w'. split; [exact E|split; [exact L|exact F]].
Defined.

End Runs.

(* ===================================================================== *)
(** * Theorems: ids and the seed *)
(* ===================================================================== *)

Section BrandIds.

Local Open Scope R_scope.

Variable id : N.

Lemma entropy_is_stable : stable (entropy_is id).
Proof. intros w s n k H. exact H. Qed.

(** With an entropy source stuck at [id], every [uuid4()] is the version-4
    form of [id]. *)
Lemma uuid4_of_entropy :
  total_in (entropy_is id) Uuid.uuid4
           (fun u => u = Uuid.version4 (id mod 2 ^ 128)).
Proof.
  intros w Hw. unfold Uuid.uuid4. eexists. eexists.
  split; [reflexivity|]. split; [|exact Hw].
  cbv zeta. rewrite (Hw (os_read w)). reflexivity.
Qed.

Lemma shipped_budget_ranges (tier : string) :
  In tier (keys (BRAND_TIERS config)) ->
  (exists low high, getitem String.eqb Gen.budget_ranges tier = Ok (low, high))
  /\ In tier ["Luxury"; "Premium"; "Mid-market"; "Fast-fashion"; "DTC"]%string.
Proof.
  intros H. split; [|exact H]. simpl in H.
  repeat (destruct H as [<- | H]); try contradiction;
    eexists; eexists; reflexivity.
Qed.

Lemma brand_row_total (tiers : list string) (i : Z) :
  (0 <= i < Z.of_nat (List.length tiers))%Z ->
  Forall (fun t => In t (keys (BRAND_TIERS config))) tiers ->
  total_in (entropy_is id) (Gen.brand_row config tiers i)
           (fun b => Brand.brand_id b = Uuid.version4 (id mod 2 ^ 128)).
Proof.
  intros Hi Ft. unfold Gen.brand_row.
  pose proof entropy_is_stable as St.
  eapply total_in_bind with (P := fun t => In t (keys (BRAND_TIERS config))).
  { destruct (nth_error tiers (Z.to_nat i)) as [x|] eqn:E.
    - apply total_in_ret. rewrite Forall_forall in Ft. apply Ft.
      eapply nth_error_In. exact E.
    - apply nth_error_None in E. lia. }
  intros tier Ht. destruct (shipped_budget_ranges tier Ht) as ((low & high & G) & T).
  eapply total_in_bind; [apply choice_total; [exact St|discriminate]|].
  intros prefix _.
  eapply total_in_bind; [apply choice_total; [exact St|discriminate]|].
  intros suffix _. cbv zeta.
  eapply total_in_bind;
    [apply (total_in_lift _ _ _ (fun x => x = (low, high)) G); reflexivity|].
  intros x ->.
  eapply total_in_bind; [apply uniform_returns, St|]. intros monthly_budget _.
  eapply total_in_bind; [apply uuid4_of_entropy|]. intros brand_id ->.
  eapply total_in_bind;
    [apply sample_from_distribution_total;
       [exact St|discriminate|lia|exact valid_platform_distribution]|].
  intros platforms [_ L]. destruct platforms as [|platform rest]; [discriminate L|].
  eapply total_in_bind; [apply total_in_ret with (Q := fun _ => True); exact Logic.I|].
  intros primary_platform _.
  eapply total_in_bind;
    [apply generate_order_value_total; [exact St|reflexivity|exact T]|].
  intros avg_product_price _.
  eapply total_in_bind; [apply choice_total; [exact St|discriminate]|].
  intros target_demographic _.
  eapply total_in_bind; [apply (randint_total _ St 1990 2022); lia|].
  intros founded_year _.
  apply total_in_ret. reflexivity.
Qed.

(** A generator seeded with [seed], then [generate_brands]: with the entropy
    source stuck at [id] the run returns 25 brands, all with the version-4
    form of [id] as their id, whatever numpy's stream is. *)
Lemma brand_ids_follow_entropy (seed : Z) :
  (0 <= seed < 2 ^ 32)%Z ->
  total_in (entropy_is id)
           (bind (Gen.init seed) (fun _ => Gen.generate_brands config))
           (fun brands =>
              List.length brands = 25%nat
              /\ Forall (fun b => Brand.brand_id b
                                  = Uuid.version4 (id mod 2 ^ 128)) brands).
Proof.
  intros Hs. pose proof entropy_is_stable as St.
  eapply total_in_bind with (P := fun _ => True).
  { unfold Gen.init.
    eapply total_in_bind; [apply seed_total; [exact St|exact Hs]|].
    intros _ _. apply total_in_ret. exact Logic.I. }
  intros self _. unfold Gen.generate_brands.
  change (N_BRANDS config) with 25%Z.
  eapply total_in_bind;
    [apply sample_from_distribution_total;
       [exact St|discriminate|lia|exact valid_brand_tiers]|].
  intros tiers [Ft Lt].
  eapply total_in_weaken.
  - apply total_in_for_in_range. intros i Hi.
    apply brand_row_total; [lia|exact Ft].
  - cbv beta. intros brands [F L]. split; [rewrite L; reflexivity|exact F].
Qed.

End BrandIds.

(** C2, evaluated.  Two runs with the seed of [config.py], the same numpy
    stream [mt] and the same arithmetic [fp], one with the entropy source
    stuck at 0 and one with it stuck at 1: both return 25 brands, and the
    [brand_id] columns differ. *)
Theorem same_seed_different_brand_ids (mt : Z -> nat -> R) (fp : R -> R) :
  exists brands1 w1 brands2 w2,
    bind (Gen.init (RANDOM_SEED config)) (fun _ => Gen.generate_brands config)
         (mk_World mt 0 0 (fun _ => 0%N) 0 fp)
    = Ok (brands1, w1)
    /\ bind (Gen.init (RANDOM_SEED config)) (fun _ => Gen.generate_brands config)
            (mk_World mt 0 0 (fun _ => 1%N) 0 fp)
       = Ok (brands2, w2)
    /\ List.length brands1 = 25%nat
    /\ List.length brands2 = 25%nat
    /\ map Brand.brand_id brands1 <> map Brand.brand_id brands2.
Proof.
  destruct (brand_ids_follow_entropy 0 (RANDOM_SEED config)
              ltac:(simpl; lia) (mk_World mt 0 0 (fun _ => 0%N) 0 fp)
              ltac:(intros n; reflexivity))
    as (brands1 & w1 & E1 & (L1 & F1) & _).
  destruct (brand_ids_follow_entropy 1 (RANDOM_SEED config)
              ltac:(simpl; lia) (mk_World mt 0 0 (fun _ => 1%N) 0 fp)
              ltac:(intros n; reflexivity))
    as (brands2 & w2 & E2 & (L2 & F2) & _).
  exists brands1, w1, brands2, w2.
  split; [exact E1|]. split; [exact E2|]. split; [exact L1|].
  split; [exact L2|].
  destruct brands1 as [|b1 r1]; [discriminate L1|].
  destruct brands2 as [|b2 r2]; [discriminate L2|].
  inversion F1 as [|? ? H1 _]. inversion F2 as [|? ? H2 _]. subst.
  simpl. intros E. injection E as E _. rewrite H1, H2 in E.
  vm_compute in E. discriminate E.
Qed.

(* ===================================================================== *)
(** * Theorems: the shipped posting-time table stops [generate_posts] *)
(* ===================================================================== *)

Section ShippedPosts.

Local Open Scope R_scope.

Lemma raises_post {A : Type} (c : M A) (e : exn) :
  raises c e -> post c (fun _ => False).
Proof. intros H w a w' E. rewrite (H w) in E. discriminate E. Qed.

(** [generate_post_time] raises [ValueError] under the shipped configuration:
    the posting-time weights do not sum to 1. *)
Lemma shipped_generate_post_time_raises :
  raises (Dist.generate_post_time config) ValueError.
Proof.
  unfold Dist.generate_post_time. apply raises_bind.
  unfold Dist.sample_from_distribution.
  apply choice_p_size_raises. exact invalid_posting_time_distribution.
Qed.

(** Hence no iteration of [generate_posts] completes, and with 50000 posts to
    generate the method never returns a table. *)
Lemma shipped_generate_posts_never_returns (self : Gen.t) :
  post (Gen.generate_posts config self) (fun _ => False).
Proof.
  unfold Gen.generate_posts.
  do 5 skip_bind.
  eapply post_weaken.
  - apply post_for_in_range with (Q := fun _ => False).
    intros i. unfold Gen.post_row. do 4 skip_bind.
    eapply post_bind;
      [apply (raises_post _ _ shipped_generate_post_time_raises)|].
    intros x [].
  - cbv beta. intros posts [F L].
    destruct (nonempty_of_length posts (N_POSTS config) ltac:(simpl; lia) L)
      as (p & r & ->).
    inversion F. assumption.
Qed.

End ShippedPosts.

(* ===================================================================== *)
(** * Theorems: generate_scores.py *)
(* ===================================================================== *)

Section ScoreFacts.

Local Open Scope R_scope.

Lemma performance_segment_of_spec (x : R) :
  (Scores.performance_segment_of x = "High Performer"%string <-> 75 <= x)
  /\ (Scores.performance_segment_of x = "Medium Performer"%string
      <-> 50 <= x < 75)
  /\ (Scores.performance_segment_of x = "Low Performer"%string <-> x < 50).
Proof.
  unfold Scores.performance_segment_of, Py.ge.
  destruct (Rle_dec 75 x); [|destruct (Rle_dec 50 x)];
    repeat split; intros; try discriminate; try reflexivity; try lra.
Qed.

Lemma score_row_spec (posts : list Post.t) (conversions : list Conversion.t)
  (entry : Influencer.t * R * R * R) :
  score_row_ok (Scores.score_row posts conversions entry).
Proof.
  destruct entry as [[[inf eq_score] conv_score] roi_score].
  unfold score_row_ok, Scores.score_row. cbn.
  split; [reflexivity|]. apply performance_segment_of_spec.
Qed.

Lemma traverse_length {A B : Type} (f : A -> result B) (l : list A)
  (ys : list B) :
  Scores.traverse f l = Ok ys -> List.length ys = List.length l.
Proof.
  revert ys. induction l as [|x r IH]; intros ys H; simpl in H.
  - inversion H. reflexivity.
  - destruct (f x); [|discriminate].
    destruct (Scores.traverse f r) as [zs|]; [|discriminate].
    inversion H. simpl. rewrite (IH zs eq_refl). reflexivity.
Qed.

Lemma fit_transform_length (X Y : list R) :
  Scores.fit_transform X = Ok Y -> List.length Y = List.length X.
Proof.
  unfold Scores.fit_transform. destruct X as [|x0 r]; [discriminate|].
  cbv zeta. intros H. injection H as <-. simpl. rewrite length_map.
  reflexivity.
Qed.

(** C9.  Every row of the table [generate_scores] returns has a composite
    score equal to 0.25 engagement quality + 0.25 authenticity + 0.30
    conversion + 0.15 ROI + 0.05 alignment of its own sub-score columns, and
    its segment is High Performer exactly when the composite is at least 75,
    Medium Performer exactly when it is at least 50 and below 75, and Low
    Performer exactly when it is below 50; there is one row per influencer. *)
Theorem generate_scores_composite_and_segment
  (influencers : list Influencer.t) (posts : list Post.t)
  (conversions : list Conversion.t) (rows : list Scores.ScoreRow) :
  Scores.generate_scores influencers posts conversions = Ok rows ->
  Forall score_row_ok rows
  /\ List.length rows = List.length influencers.
Proof.
  intros H.
  assert (Scores.score_table influencers posts conversions = Ok rows) as H'.
  { unfold Scores.generate_scores in H.
    destruct posts; [destruct influencers; [exact H|discriminate H]|exact H]. }
  clear H. revert H'. unfold Scores.score_table.
  cbv zeta.
  lazymatch goal with
  | |- match ?c with Ok _ => _ | Raise _ => _ end = _ -> _ =>
      destruct c as [qualities|] eqn:T; [|discriminate]
  end.
  lazymatch goal with
  | |- match ?c with Ok _ => _ | Raise _ => _ end = _ -> _ =>
      destruct c as [eq_scores|] eqn:F1; [|discriminate]
  end.
  lazymatch goal with
  | |- match ?c with Ok _ => _ | Raise _ => _ end = _ -> _ =>
      destruct c as [conv_scores|] eqn:F2; [|discriminate]
  end.
  lazymatch goal with
  | |- match ?c with Ok _ => _ | Raise _ => _ end = _ -> _ =>
      destruct c as [roi_scores|] eqn:F3; [|discriminate]
  end.
  intros H. injection H as <-. split.
  - apply Forall_forall. intros r Hin. apply in_map_iff in Hin.
    destruct Hin as (entry & <- & _). apply score_row_spec.
  - apply traverse_length in T. apply fit_transform_length in F1, F2, F3.
    rewrite length_map in F2, F3.
    rewrite length_map, !length_combine. lia.
Qed.

(** The script returns on a non-empty influencer table without a zero
    follower count and a post table with rows. *)
Lemma generate_scores_returns (influencers : list Influencer.t)
  (posts : list Post.t) (conversions : list Conversion.t) :
  influencers <> [] -> posts <> [] ->
  Forall (fun inf => Influencer.follower_count inf <> 0%Z) influencers ->
  exists rows, Scores.generate_scores influencers posts conversions = Ok rows.
Proof.
  intros NE NP F.
  assert (Scores.generate_scores influencers posts conversions
          = Scores.score_table influencers posts conversions) as ->
    by (unfold Scores.generate_scores; destruct posts;
        [congruence|reflexivity]).
  unfold Scores.score_table.
  assert (exists qualities,
            Scores.traverse
              (fun inf =>
                 Scores.engagement_quality
                   inf (Scores.inf_post_metrics
                          posts (Influencer.influencer_id inf)))
              influencers = Ok qualities
            /\ List.length qualities = List.length influencers) as (q & T & L).
  { clear NE. induction F as [|inf rest Hf _ IH].
    - exists []. split; reflexivity.
    - destruct IH as (qs & T & L). simpl.
      unfold Scores.engagement_quality at 1.
      destruct (Scores.inf_post_metrics _ _) as [m|].
      + apply Z.eqb_neq in Hf. rewrite Hf. rewrite T.
        eexists. split; [reflexivity|simpl; congruence].
      + rewrite T. eexists. split; [reflexivity|simpl; congruence]. }
  rewrite T.
  destruct influencers as [|i0 irest]; [congruence|].
  destruct q as [|q0 qrest]; [discriminate L|].
  cbn [Scores.fit_transform map]. eexists. reflexivity.
Qed.

(** The statement of C9 on the tables of one influencer, one post and one
    conversion. *)
Lemma generate_scores_composite_and_segment_witness :
  exists rows,
    Scores.generate_scores [influencer0] [post0] [conversion0] = Ok rows
    /\ Forall score_row_ok rows
    /\ List.length rows = 1%nat.
Proof.
  destruct (generate_scores_returns [influencer0] [post0] [conversion0]
              ltac:(discriminate) ltac:(discriminate)
              ltac:(repeat constructor; discriminate))
    as (rows & E).
  destruct (generate_scores_composite_and_segment
              [influencer0] [post0] [conversion0] rows E) as [F L].
  exists rows. split; [exact E|split; [exact F|exact L]].
Defined.

End ScoreFacts.

(* ===================================================================== *)
(** * Theorems: the weighting function outside the counts 1..15 *)
(* ===================================================================== *)

Section AttributionEdges.

Import Attribution.
Local Open Scope float_scope.
















End AttributionEdges.

(* ===================================================================== *)
(** * Theorems: what the samplers of distributions.py return and raise *)
(* ===================================================================== *)

Section SamplerFacts.

Local Open Scope R_scope.

Variable I : World -> Prop.
Hypothesis I_stable : stable I.

Lemma int_nonpos x : x <= 0 -> (Py.int x <= 0)%Z.
Proof.
  intros H. unfold Py.int. destruct (Rle_dec 0 x) as [P|N].
  - assert (x = 0) as -> by lra. rewrite (Zfloor_eq 0 0) by lra. lia.
  - pose proof (Zceil_bound x) as B.
    assert (Zceil x < 1)%Z by (apply lt_IZR; lra). lia.
Qed.

(** [max(0, int(likes * rate))] for a rate of at most [hi]: non-negative and
    at most [hi * max(1, likes)]. *)
Lemma share_of_likes (likes : Z) (rate hi : R) :
  0 <= rate <= hi ->
  (0 <= Z.max 0 (Py.int (IZR likes * rate)))%Z
  /\ IZR (Z.max 0 (Py.int (IZR likes * rate))) <= hi * IZR (Z.max 1 likes).
Proof.
  intros [R0 R1]. split; [lia|].
  assert (1 <= IZR (Z.max 1 likes)) as M1 by (apply IZR_le; lia).
  destruct (Z_lt_ge_dec likes 0) as [Neg|Pos].
  - assert (IZR likes * rate <= 0) as NP.
    { assert (IZR likes < 0) by (apply IZR_lt; exact Neg). nra. }
    apply int_nonpos in NP.
    replace (Z.max 0 (Py.int (IZR likes * rate))) with 0%Z by lia.
    nra.
  - assert (0 <= IZR likes) as L0 by (apply IZR_le; lia).
    assert (0 <= IZR likes * rate) as P by nra.
    destruct (int_nonneg _ P) as [I0 I1].
    replace (Z.max 0 (Py.int (IZR likes * rate)))
      with (Py.int (IZR likes * rate)) by lia.
    assert (IZR likes <= IZR (Z.max 1 likes)) by (apply IZR_le; lia).
    nra.
Qed.

Lemma generate_engagement_metrics_inv (followers : Z) (engagement_rate : R)
  (content_type : string) (is_viral : bool) :
  total_in I (Dist.generate_engagement_metrics followers engagement_rate
                                               content_type is_viral)
           (engagement_metrics_ok content_type).
Proof.
  unfold Dist.generate_engagement_metrics.
  eapply total_in_bind; [apply uniform_returns, I_stable|]. intros v _.
  eapply total_in_bind with (P := fun _ => True).
  { destruct is_viral.
    - eapply total_in_bind; [apply uniform_returns, I_stable|]. intros b _.
      apply total_in_ret. exact Logic.I.
    - apply total_in_ret. exact Logic.I. }
  intros v' _.
  eapply total_in_bind; [apply uniform_returns, I_stable|]. intros l _.
  cbv zeta.
  generalize (Py.int (IZR (Py.int (IZR (Py.int (IZR followers
                * (engagement_rate / 100))) * v')) * l)).
  intros likes.
  eapply total_in_bind; [apply (uniform_total I I_stable 0.03 0.08); lra|].
  intros c Hc.
  eapply total_in_bind; [apply (uniform_total I I_stable 0.01 0.025); lra|].
  intros sh Hsh.
  eapply total_in_bind
    with (P := fun sv =>
                 0 <= sv <= 0.06
                 /\ (~ In content_type ["product_shot"; "carousel"]%string ->
                     sv <= 0.04)).
  { destruct (existsb (String.eqb content_type)
                      ["product_shot"; "carousel"]%string) eqn:E.
    - eapply total_in_weaken;
        [apply (uniform_total I I_stable 0.03 0.06); lra|].
      intros sv Hsv. split; [lra|]. intros N. exfalso. apply N.
      apply existsb_exists in E. destruct E as (x & Hx & Ex).
      apply String.eqb_eq in Ex. subst x. exact Hx.
    - eapply total_in_weaken;
        [apply (uniform_total I I_stable 0.02 0.04); lra|].
      intros sv Hsv. split; lra. }
  intros sv [Hsv Hsv'].
  apply total_in_ret. unfold engagement_metrics_ok. cbn.
  destruct (share_of_likes likes c 0.08 ltac:(lra)) as [C0 C1].
  destruct (share_of_likes likes sh 0.025 ltac:(lra)) as [S0 S1].
  destruct (share_of_likes likes sv 0.06 ltac:(lra)) as [V0 V1].
  repeat split; try assumption; try lia.
  intros N. apply (share_of_likes likes sv 0.04). split; [lra|exact (Hsv' N)].
Qed.

Lemma generate_caption_length_range :
  total_in I Dist.generate_caption_length
           (fun n => (20 <= Py.item n <= 500)%Z).
Proof.
  unfold Dist.generate_caption_length.
  eapply total_in_bind; [apply normal_total; [exact I_stable|lra]|].
  intros x _. apply total_in_ret. apply clip_int_bounds. lia.
Qed.

Lemma generate_hashtag_count_range (platform : string) :
  total_in I (Dist.generate_hashtag_count platform)
           (fun n => hashtag_count_ok platform (Py.item n)).
Proof.
  unfold Dist.generate_hashtag_count, hashtag_count_ok.
  destruct (String.eqb_spec platform "Instagram") as [->|N1].
  { eapply total_in_bind; [apply normal_total; [exact I_stable|lra]|].
    intros x _. apply total_in_ret. cbn [Py.item].
    pose proof (clip_int_bounds (Py.int x) 1 30 ltac:(lia)).
    split; [intros E; try discriminate E; lia|].
    split; [intros E; try discriminate E; lia|].
    split; [intros E; try discriminate E; lia|].
    split; [|lia]. intros N. exfalso. apply N. simpl. auto. }
  destruct (String.eqb_spec platform "TikTok") as [->|N2].
  { eapply total_in_bind; [apply normal_total; [exact I_stable|lra]|].
    intros x _. apply total_in_ret. cbn [Py.item].
    pose proof (clip_int_bounds (Py.int x) 1 10 ltac:(lia)).
    split; [intros E; try discriminate E; lia|].
    split; [intros E; try discriminate E; lia|].
    split; [intros E; try discriminate E; lia|].
    split; [|lia]. intros N. exfalso. apply N. simpl. auto. }
  destruct (String.eqb_spec platform "Twitter") as [->|N3].
  { eapply total_in_bind; [apply normal_total; [exact I_stable|lra]|].
    intros x _. apply total_in_ret. cbn [Py.item].
    pose proof (clip_int_bounds (Py.int x) 0 5 ltac:(lia)).
    split; [intros E; try discriminate E; lia|].
    split; [intros E; try discriminate E; lia|].
    split; [intros E; try discriminate E; lia|].
    split; [|lia]. intros N. exfalso. apply N. simpl. auto. }
  eapply total_in_bind; [apply (uniform_total I I_stable 1 5); lra|].
  intros x [X0 X1]. apply total_in_ret.
  assert (1 <= Py.int x)%Z by (apply int_lub; [lia|exact X0]).
  assert (Py.int x < 6)%Z by (apply int_lt; lra).
  cbn [Py.item]. repeat split; intros; try contradiction; lia.
Qed.

Lemma generate_outlier_probability_range (tier : string) :
  total_in I (Dist.generate_outlier_probability tier)
           (fun m => In m [0.3; 1.0; 3.0; 5.0]
                     /\ (Py.gt m 2 = true <-> m = 3.0 \/ m = 5.0)).
Proof.
  assert (forall m, In m [0.3; 1.0; 3.0; 5.0] ->
                    In m [0.3; 1.0; 3.0; 5.0]
                    /\ (Py.gt m 2 = true <-> m = 3.0 \/ m = 5.0)) as Q.
  { intros m H. split; [exact H|]. rewrite gt_true. simpl in H.
    destruct H as [<-|[<-|[<-|[<-|[]]]]]; split; intros; try lra; auto. }
  unfold Dist.generate_outlier_probability.
  eapply total_in_bind; [apply random_total, I_stable|]. intros r _.
  destruct (Py.lt r 0.07).
  - eapply total_in_weaken;
      [apply choice_p_total;
         [exact I_stable|discriminate|valid_p_by_computation]|].
    intros m H. apply Q. simpl in *. tauto.
  - apply total_in_ret. apply Q. simpl. auto.
Qed.

(** The clipped authenticity score. *)
Lemma generate_authenticity_score_range (cfg : Config) (tier : string)
  (mean std : R) :
  getitem String.eqb (TIER_AUTHENTICITY_SCORES cfg) tier = Ok (mean, std) ->
  0 <= std ->
  total_in I (Dist.generate_authenticity_score cfg tier)
           (fun score => 0.4 <= score <= 0.99).
Proof.
  intros G H. unfold Dist.generate_authenticity_score.
  eapply total_in_bind;
    [apply (total_in_lift I _ _ (fun x => x = (mean, std)) G); reflexivity|].
  intros x ->.
  eapply total_in_bind; [apply normal_total; [exact I_stable|exact H]|].
  intros score _. apply total_in_ret. apply clip_bounds. lra.
Qed.

(** The cost of a post for a follower count inside the tier's range. *)
Lemma generate_cost_per_post_range (cfg : Config) (tier : string)
  (followers low high flo fhi : Z) :
  getitem String.eqb (TIER_COST_PER_POST cfg) tier = Ok (low, high) ->
  getitem String.eqb (TIER_FOLLOWER_RANGES cfg) tier = Ok (flo, fhi) ->
  (flo < fhi)%Z -> (0 <= low <= high)%Z -> (flo <= followers <= fhi)%Z ->
  total_in I (Dist.generate_cost_per_post cfg tier followers)
           (fun cost => 0.8 * IZR low <= cost <= 1.2 * IZR high).
Proof.
  intros C G Hf Hc Hin. unfold Dist.generate_cost_per_post.
  eapply total_in_bind;
    [apply (total_in_lift I _ _ (fun x => x = (low, high)) C); reflexivity|].
  intros x ->.
  eapply total_in_bind;
    [apply (total_in_lift I _ _ (fun x => x = (flo, fhi)) G); reflexivity|].
  intros y ->. cbn [fst snd].
  destruct (fhi - flo =? 0)%Z eqn:E; [apply Z.eqb_eq in E; lia|].
  eapply total_in_bind;
    [apply total_in_ret
       with (Q := fun p => p = IZR (followers - flo) / IZR (fhi - flo));
     reflexivity|].
  intros position ->.
  eapply total_in_bind; [apply (uniform_total I I_stable 0.8 1.2); lra|].
  intros variance [V0 V1]. apply total_in_ret. cbv beta.
  assert (0 < IZR (fhi - flo)) as D by (apply IZR_lt; lia).
  assert (0 <= IZR (followers - flo) <= IZR (fhi - flo)) as [N0 N1]
    by (split; apply IZR_le; lia).
  assert (0 <= IZR (followers - flo) / IZR (fhi - flo) <= 1) as [P0 P1].
  { split.
    - apply Rmult_le_pos; [exact N0|left; apply Rinv_0_lt_compat; exact D].
    - apply Rmult_le_reg_r with (IZR (fhi - flo)); [exact D|].
      unfold Rdiv. rewrite Rmult_assoc, Rinv_l by lra. lra. }
  set (position := IZR (followers - flo) / IZR (fhi - flo)) in *.
  assert (0 <= IZR low <= IZR high) as [L0 L1] by (split; apply IZR_le; lia).
  assert (IZR (high - low) = IZR high - IZR low) as HL by apply minus_IZR.
  rewrite HL.
  assert (IZR low <= IZR low + position * (IZR high - IZR low) <= IZR high)
    as [B0 B1] by nra.
  replace (0.8 * IZR low) with (IZR (80 * low) / 10 ^ 2)
    by (rewrite mult_IZR; simpl; lra).
  replace (1.2 * IZR high) with (IZR (120 * high) / 10 ^ 2)
    by (rewrite mult_IZR; simpl; lra).
  apply round_bounds. rewrite !mult_IZR. simpl. nra.
Qed.

End SamplerFacts.

Section SamplerErrors.

Local Open Scope R_scope.

(** [d[k]] raises [KeyError] for a key the dict does not hold. *)
Lemma getitem_missing {V : Type} (d : list (string * V)) (k : string) :
  ~ In k (keys d) -> getitem String.eqb d k = Raise KeyError.
Proof.
  induction d as [|[k' v] r IH]; intros H; simpl; [reflexivity|].
  destruct (String.eqb_spec k k') as [->|N].
  - exfalso. apply H. left. reflexivity.
  - apply IH. intros Hin. apply H. right. exact Hin.
Qed.

Lemma raises_lift_bind {A B : Type} (r : result A) (k : A -> M B) (e : exn) :
  r = Raise e -> raises (bind (lift r) k) e.
Proof. intros -> w. reflexivity. Qed.

End SamplerErrors.

Section SamplerSpecs.

Local Open Scope R_scope.

Lemma length_keys_values {K V : Type} (d : list (K * V)) :
  List.length (keys d) = List.length (values d).
Proof. unfold keys, values. rewrite !length_map. reflexivity. Qed.

(** On the keys and values of a dict, [choice] accepts [p] exactly when no
    weight is negative and the weights sum to 1 within the tolerance. *)
Lemma valid_p_dict {K : Type} (d : list (K * R)) :
  Np.valid_p (keys d) (values d) = true
  <-> Forall (fun p => 0 <= p) (values d)
      /\ Rabs (Np.sum (values d) - 1) <= Np.atol.
Proof.
  unfold Np.valid_p. rewrite length_keys_values, Nat.eqb_refl. cbn [andb].
  rewrite andb_true_iff, !negb_true_iff. split.
  - intros [E G]. split.
    + apply Forall_forall. intros p Hp.
      destruct (Rle_dec 0 p) as [L|N]; [exact L|]. exfalso.
      assert (existsb (fun q => Py.lt q 0) (values d) = true) as X.
      { apply existsb_exists. exists p. split; [exact Hp|].
        apply lt_true. lra. }
      congruence.
    + destruct (Rle_dec (Rabs (Np.sum (values d) - 1)) Np.atol) as [L|N];
        [exact L|]. exfalso.
      assert (Py.gt (Rabs (Np.sum (values d) - 1)) Np.atol = true) as X
        by (apply gt_true; lra).
      congruence.
  - intros [F S]. split.
    + destruct (existsb _ _) eqn:E; [|reflexivity]. exfalso.
      apply existsb_exists in E. destruct E as (p & Hp & L).
      apply lt_true in L. rewrite Forall_forall in F. specialize (F p Hp). lra.
    + destruct (Py.gt _ _) eqn:E; [|reflexivity]. apply gt_true in E. lra.
Qed.

(** [sample_from_distribution] returns [size] keys of the dict when the dict
    is not empty, [size] is not negative, no weight is negative and the
    weights sum to 1 within [sqrt(eps)]; in every other case it raises
    [ValueError]. *)
Theorem sample_from_distribution_returns_or_raises {K : Type}
  (distribution : list (K * R)) (size : Z) :
  (distribution <> [] -> (0 <= size)%Z ->
   Forall (fun p => 0 <= p) (values distribution) ->
   Rabs (Np.sum (values distribution) - 1) <= Np.atol ->
   total (Dist.sample_from_distribution distribution size)
         (fun xs => Forall (fun x => In x (keys distribution)) xs
                    /\ Z.of_nat (List.length xs) = size))
  /\ (distribution = [] \/ (size < 0)%Z
      \/ Exists (fun p => p < 0) (values distribution)
      \/ Np.atol < Rabs (Np.sum (values distribution) - 1) ->
      raises (Dist.sample_from_distribution distribution size) ValueError).
Proof.
  split.
  - intros NE S F A. apply total_in_total.
    eapply total_in_weaken.
    + apply sample_from_distribution_total;
        [exact stable_True
        |destruct distribution; [congruence|discriminate]
        |exact S
        |apply valid_p_dict; split; assumption].
    + cbv beta. intros xs [Fx L]. split; [exact Fx|]. rewrite L. lia.
  - intros H w. unfold Dist.sample_from_distribution, Np.choice_p_size.
    destruct distribution as [|[k p] r]; [reflexivity|].
    cbn [keys map fst].
    destruct H as [H|[H|H]]; [discriminate H| |].
    + apply Z.ltb_lt in H. rewrite H. reflexivity.
    + destruct (size <? 0)%Z; [reflexivity|].
      change (k :: map fst r) with (keys ((k, p) :: r)).
      destruct (Np.valid_p _ _) eqn:V; [|reflexivity]. exfalso.
      apply valid_p_dict in V. destruct V as [F A].
      destruct H as [H|H]; [|lra].
      apply Exists_exists in H. destruct H as (q & Hq & L).
      rewrite Forall_forall in F. specialize (F q Hq). lra.
Qed.

(** The two cases on the shipped tables: 1500 tiers are drawn from
    [TIER_DISTRIBUTION], and a draw from [POSTING_TIME_DISTRIBUTION], whose
    weights sum to 1.19, raises. *)
Lemma sample_from_distribution_returns_or_raises_witness :
  total (Dist.sample_from_distribution (TIER_DISTRIBUTION config) 1500)
        (fun xs => Forall (fun x => In x (keys (TIER_DISTRIBUTION config))) xs
                   /\ Z.of_nat (List.length xs) = 1500%Z)
  /\ raises (Dist.sample_from_distribution (POSTING_TIME_DISTRIBUTION config) 1)
            ValueError.
Proof.
  split.
  - apply (sample_from_distribution_returns_or_raises
             (TIER_DISTRIBUTION config) 1500);
      [discriminate|lia
      |apply (valid_p_dict (TIER_DISTRIBUTION config)), valid_tier_distribution
      |apply (valid_p_dict (TIER_DISTRIBUTION config)), valid_tier_distribution].
  - apply (sample_from_distribution_returns_or_raises
             (POSTING_TIME_DISTRIBUTION config) 1).
    right. right. right. rewrite posting_time_distribution_sum.
    unfold Np.atol, Rabs. simpl. decide_reals. lra.
Defined.

(** [generate_engagement_metrics] returns for every input, with at least one
    like, no negative count, comments at most 8%, shares at most 2.5% and
    saves at most 6% of the likes (4% unless the content is a product shot or
    a carousel). *)
Theorem generate_engagement_metrics_invariants (followers : Z)
  (engagement_rate : R) (content_type : string) (is_viral : bool) :
  total (Dist.generate_engagement_metrics followers engagement_rate
                                          content_type is_viral)
        (engagement_metrics_ok content_type).
Proof.
  apply total_in_total, generate_engagement_metrics_inv, stable_True.
Qed.

(** [generate_hashtag_count] returns for every platform name: 1 to 30 for
    Instagram, 1 to 10 for TikTok, 0 to 5 for Twitter, and 1 to 5 for any
    other platform (the uniform draw on [1, 5], whose rounded value can be
    5.0, is truncated). *)
Theorem generate_hashtag_count_by_platform (platform : string) :
  total (Dist.generate_hashtag_count platform)
        (fun n => hashtag_count_ok platform (Py.item n)).
Proof.
  apply total_in_total, generate_hashtag_count_range, stable_True.
Qed.

(** [generate_outlier_probability] returns one of 0.3, 1.0, 3.0 and 5.0
    whatever the tier, and the test [outlier_mult > 2] that marks a post as
    viral holds exactly for 3.0 and 5.0. *)
Theorem generate_outlier_probability_values (tier : string) :
  total (Dist.generate_outlier_probability tier)
        (fun m => In m [0.3; 1.0; 3.0; 5.0]
                  /\ (Py.gt m 2 = true <-> m = 3.0 \/ m = 5.0)).
Proof.
  apply total_in_total, generate_outlier_probability_range, stable_True.
Qed.

(** [generate_cost_per_post] for a tier with cost range [(low, high)] and
    follower range [(flo, fhi)]: with [flo = fhi] the position in the tier
    divides by zero; otherwise a follower count inside the range gives a cost
    between [0.8 * low] and [1.2 * high]. *)
Theorem generate_cost_per_post_bounds (cfg : Config) (tier : string)
  (followers low high flo fhi : Z) :
  getitem String.eqb (TIER_COST_PER_POST cfg) tier = Ok (low, high) ->
  getitem String.eqb (TIER_FOLLOWER_RANGES cfg) tier = Ok (flo, fhi) ->
  (flo = fhi ->
   raises (Dist.generate_cost_per_post cfg tier followers) ZeroDivisionError)
  /\ ((flo < fhi)%Z -> (0 <= low <= high)%Z -> (flo <= followers <= fhi)%Z ->
      total (Dist.generate_cost_per_post cfg tier followers)
            (fun cost => 0.8 * IZR low <= cost <= 1.2 * IZR high)).
Proof.
  intros C G. split.
  - intros -> w. unfold Dist.generate_cost_per_post, bind, lift.
    rewrite C, G. cbn [fst snd]. rewrite Z.sub_diag. reflexivity.
  - intros Hf Hc Hin. apply total_in_total.
    exact (generate_cost_per_post_range _ stable_True cfg tier followers
             low high flo fhi C G Hf Hc Hin).
Qed.

(** The statement for a micro influencer with 50000 followers under the
    shipped tables: a cost between 120 and 1200. *)
Lemma generate_cost_per_post_bounds_witness :
  total (Dist.generate_cost_per_post config "micro" 50000)
        (fun cost => 0.8 * IZR 150 <= cost <= 1.2 * IZR 1000).
Proof.
  apply (generate_cost_per_post_bounds config "micro" 50000 150 1000
           10000 100000 eq_refl eq_refl); lia.
Defined.

(** A tier that the tables of the configuration do not hold makes each of
    the tier-keyed samplers raise [KeyError]. *)
Theorem unknown_tier_raises_KeyError (cfg : Config) (tier : string)
  (followers : Z) (add_noise : bool) :
  ~ In tier (keys (TIER_FOLLOWER_RANGES cfg)) ->
  ~ In tier (keys (TIER_ENGAGEMENT_RATES cfg)) ->
  ~ In tier (keys (TIER_AUTHENTICITY_SCORES cfg)) ->
  ~ In tier (keys (BRAND_AOV cfg)) ->
  raises (Dist.generate_follower_count cfg tier) KeyError
  /\ raises (Dist.generate_engagement_rate cfg tier add_noise) KeyError
  /\ raises (Dist.generate_authenticity_score cfg tier) KeyError
  /\ raises (Dist.generate_cost_per_post cfg tier followers) KeyError
  /\ raises (Dist.generate_order_value cfg tier) KeyError.
Proof.
  intros F E A O.
  apply getitem_missing in F, E, A, O.
  repeat split.
  - apply raises_lift_bind. exact F.
  - apply raises_lift_bind. exact E.
  - apply raises_lift_bind. exact A.
  - intros w. unfold Dist.generate_cost_per_post, bind, lift.
    destruct (getitem String.eqb (TIER_COST_PER_POST cfg) tier) as [[l h]|e] eqn:C.
    + rewrite F. reflexivity.
    + destruct (TIER_COST_PER_POST cfg) as [|[k v] r]; [inversion C; reflexivity|].
      clear - C. revert C. generalize ((k, v) :: r). intros d.
      induction d as [|[k' v'] d IH]; simpl; [intros H; inversion H; reflexivity|].
      destruct (String.eqb tier k'); [discriminate|exact IH].
  - apply raises_lift_bind. exact O.
Qed.

(** The statement for the tier name ["giga"] under the shipped tables. *)
Lemma unknown_tier_raises_KeyError_witness :
  raises (Dist.generate_follower_count config "giga") KeyError
  /\ raises (Dist.generate_engagement_rate config "giga" true) KeyError
  /\ raises (Dist.generate_authenticity_score config "giga") KeyError
  /\ raises (Dist.generate_cost_per_post config "giga" 1000) KeyError
  /\ raises (Dist.generate_order_value config "giga") KeyError.
Proof.
  apply (unknown_tier_raises_KeyError config "giga" 1000 true);
    simpl; intros H; repeat (destruct H as [H|H]; [discriminate H|]);
    exact H.
Defined.

End SamplerSpecs.

Section PostRules.

(** What [c] guarantees under [H] whenever it returns, from what it
    guarantees when [H] holds. *)
Lemma post_under {A : Type} (c : M A) (H : Prop) (Q : A -> Prop) :
  (H -> post c Q) -> post c (fun a => H -> Q a).
Proof. intros T w a w' E h. exact (T h w a w' E). Qed.

Lemma item0_post {A : Type} (xs : list A) :
  post (Dist.item0 xs) (fun x => In x xs).
Proof.
  destruct xs as [|x r]; [apply post_raise|].
  apply post_ret. left. reflexivity.
Qed.

(** [sample_from_distribution(d)[0]] is a key of [d]. *)
Lemma sample_one_post {K : Type} (distribution : list (K * R)) :
  post (bind (Dist.sample_from_distribution distribution 1) Dist.item0)
       (fun x => In x (keys distribution)).
Proof.
  eapply post_bind; [apply sample_from_distribution_post|].
  intros xs [F _]. eapply post_weaken; [apply item0_post|].
  intros x Hx. rewrite Forall_forall in F. exact (F x Hx).
Qed.

Lemma nth_error_post {A : Type} (l : list A) (i : nat) :
  post (match nth_error l i with
        | Some x => ret x
        | None => raise IndexError
        end) (fun x => In x l).
Proof.
  destruct (nth_error l i) as [x|] eqn:E; [|apply post_raise].
  apply post_ret. eapply nth_error_In. exact E.
Qed.

End PostRules.

Section BrandTable.

Local Open Scope R_scope.

Variable cfg : Config.

Lemma budget_ranges_ordered (tier : string) (low high : Z) :
  getitem String.eqb Gen.budget_ranges tier = Ok (low, high) ->
  (low < high)%Z.
Proof.
  unfold Gen.budget_ranges. cbn [getitem].
  repeat (destruct (String.eqb tier _);
          [intros H; injection H as <- <-; lia|]).
  discriminate.
Qed.

Lemma generate_order_value_post (brand_tier : string) :
  post (Dist.generate_order_value cfg brand_tier)
       (fun value =>
          forall lo hi,
            getitem String.eqb (BRAND_AOV cfg) brand_tier = Ok (lo, hi) ->
            (0 < lo <= hi)%Z ->
            IZR lo * 0.5 <= value <= IZR hi * 1.5).
Proof.
  intros w value w' E lo hi G H.
  destruct (generate_order_value_range (fun _ => True) stable_True cfg
              brand_tier lo hi G H w Logic.I) as (v & w0 & E0 & Q & _).
  rewrite E in E0. injection E0 as <- _. exact Q.
Qed.

Lemma brand_row_post (tiers : list string) (i : Z) :
  Forall (fun t => In t (keys (BRAND_TIERS cfg))) tiers ->
  post (Gen.brand_row cfg tiers i) (brand_row_ok cfg).
Proof.
  intros Ft. unfold Gen.brand_row.
  eapply post_bind; [apply nth_error_post|]. intros tier Ht.
  rewrite Forall_forall in Ft. specialize (Ft tier Ht).
  eapply post_bind; [apply choice_post|]. intros prefix Hp.
  eapply post_bind; [apply choice_post|]. intros suffix Hs. cbv zeta.
  eapply post_bind;
    [apply (post_lift _ (fun x => getitem String.eqb Gen.budget_ranges tier
                                  = Ok x)); intros x E; exact E|].
  intros [low high] G. pose proof (budget_ranges_ordered tier low high G) as O.
  eapply post_bind;
    [apply (uniform_post (IZR low) (IZR high)); apply Rlt_le, IZR_lt; exact O|].
  intros monthly_budget Hb.
  skip_bind.
  eapply post_bind; [apply sample_from_distribution_post|].
  intros platforms [Fp _].
  eapply post_bind; [apply item0_post|]. intros primary_platform Hpp.
  rewrite Forall_forall in Fp. specialize (Fp _ Hpp).
  eapply post_bind; [apply generate_order_value_post|].
  intros avg_product_price Hprice.
  eapply post_bind; [apply choice_post|]. intros target_demographic Htd.
  eapply post_bind; [apply randint_post|]. intros founded_year Hy.
  apply post_ret. unfold brand_row_ok. cbn.
  split; [exact Ft|].
  split; [exists prefix, suffix; repeat split; assumption|].
  split.
  { exists low, high. split; [exact G|].
    replace (IZR low) with (IZR (low * 100) / 10 ^ 2)
      by (rewrite mult_IZR; simpl; lra).
    replace (IZR high) with (IZR (high * 100) / 10 ^ 2)
      by (rewrite mult_IZR; simpl; lra).
    apply round_bounds. rewrite !mult_IZR. simpl. lra. }
  split; [exact Fp|]. split; [exact Htd|].
  split; [cbv beta in Hy; lia|exact Hprice].
Qed.

Lemma generate_brands_post :
  post (Gen.generate_brands cfg)
       (fun brands =>
          List.length brands = Z.to_nat (N_BRANDS cfg)
          /\ Forall (brand_row_ok cfg) brands).
Proof.
  unfold Gen.generate_brands.
  eapply post_bind; [apply sample_from_distribution_post|].
  intros tiers [Ft _].
  eapply post_weaken;
    [apply post_for_in_range; intros i; apply brand_row_post; exact Ft|].
  cbv beta. intros brands [F L]. split; assumption.
Qed.

End BrandTable.

Section BrandsReturn.

Local Open Scope R_scope.

Variable I : World -> Prop.
Hypothesis I_stable : stable I.

(** One iteration of [generate_brands] under the shipped tables. *)
Lemma brand_row_returns (tiers : list string) (i : Z) :
  (0 <= i < Z.of_nat (List.length tiers))%Z ->
  Forall (fun t => In t (keys (BRAND_TIERS config))) tiers ->
  total_in I (Gen.brand_row config tiers i) (fun _ => True).
Proof.
  intros Hi Ft. unfold Gen.brand_row.
  eapply total_in_bind with (P := fun t => In t (keys (BRAND_TIERS config))).
  { destruct (nth_error tiers (Z.to_nat i)) as [x|] eqn:E.
    - apply total_in_ret. rewrite Forall_forall in Ft. apply Ft.
      eapply nth_error_In. exact E.
    - apply nth_error_None in E. lia. }
  intros tier Ht.
  destruct (shipped_budget_ranges tier Ht) as ((low & high & G) & T).
  eapply total_in_bind; [apply choice_total; [exact I_stable|discriminate]|].
  intros prefix _.
  eapply total_in_bind; [apply choice_total; [exact I_stable|discriminate]|].
  intros suffix _. cbv zeta.
  eapply total_in_bind;
    [apply (total_in_lift _ _ _ (fun x => x = (low, high)) G); reflexivity|].
  intros x ->.
  eapply total_in_bind; [apply uniform_returns, I_stable|].
  intros monthly_budget _.
  eapply total_in_bind; [apply uuid4_total, I_stable|]. intros brand_id _.
  eapply total_in_bind;
    [apply sample_from_distribution_total;
       [exact I_stable|discriminate|lia|exact valid_platform_distribution]|].
  intros platforms [_ L]. destruct platforms as [|platform rest];
    [discriminate L|].
  eapply total_in_bind;
    [apply total_in_ret with (Q := fun _ => True); exact Logic.I|].
  intros primary_platform _.
  eapply total_in_bind;
    [apply generate_order_value_total; [exact I_stable|reflexivity|exact T]|].
  intros avg_product_price _.
  eapply total_in_bind; [apply choice_total; [exact I_stable|discriminate]|].
  intros target_demographic _.
  eapply total_in_bind; [apply (randint_total _ I_stable 1990 2022); lia|].
  intros founded_year _.
  apply total_in_ret. exact Logic.I.
Qed.

(** Under the shipped configuration [generate_brands] returns 25 rows from
    every world. *)
Lemma generate_brands_returns :
  total_in I (Gen.generate_brands config)
           (fun brands => List.length brands = 25%nat).
Proof.
  unfold Gen.generate_brands. change (N_BRANDS config) with 25%Z.
  eapply total_in_bind;
    [apply sample_from_distribution_total;
       [exact I_stable|discriminate|lia|exact valid_brand_tiers]|].
  intros tiers [Ft Lt].
  eapply total_in_weaken.
  - apply total_in_for_in_range with (Q := fun _ => True). intros i Hi.
    apply brand_row_returns; [lia|exact Ft].
  - cbv beta. intros brands [_ L]. rewrite L. reflexivity.
Qed.

End BrandsReturn.

Section BrandSpecs.

Local Open Scope R_scope.

(** Whatever the configuration, a table returned by [generate_brands] has
    [N_BRANDS] rows, and every row has a tier of [BRAND_TIERS], a name made
    of one of the prefixes, a space and one of the suffixes, a monthly budget
    inside the budget range of its tier, a platform of
    [PLATFORM_DISTRIBUTION], one of the four target demographics, a founding
    year from 1990 to 2021, and an average product price inside the clip
    range of [generate_order_value] for its tier. *)
Theorem generate_brands_rows (cfg : Config) (w : World)
  (brands : list Brand.t) (w' : World) :
  Gen.generate_brands cfg w = Ok (brands, w') ->
  List.length brands = Z.to_nat (N_BRANDS cfg)
  /\ Forall (brand_row_ok cfg) brands.
Proof. intros H. exact (generate_brands_post cfg w brands w' H). Qed.

(** The statement on the run of [generate_brands] under the shipped
    configuration from the world of zero variates. *)
Lemma generate_brands_rows_witness :
  exists brands w',
    Gen.generate_brands config (constant_world 0 0) = Ok (brands, w')
    /\ List.length brands = Z.to_nat (N_BRANDS config)
    /\ Forall (brand_row_ok config) brands.
Proof.
  destruct (generate_brands_returns (fun _ => True) stable_True
              (constant_world 0 0) Logic.I) as (brands & w' & E & _ & _).
  exists brands, w'. split; [exact E|].
  exact (generate_brands_rows config (constant_world 0 0) brands w' E).
Defined.

End BrandSpecs.

Section IndexedLoop.

(** The loop, with the index of each row: the row at position [k] is the
    one appended at iteration [i + k]. *)
Lemma post_for_range_indexed {A : Type} (body : Z -> M A)
  (Q : Z -> A -> Prop) :
  (forall i, post (body i) (Q i)) ->
  forall n i,
    post (for_range body i n)
         (fun rows =>
            List.length rows = n
            /\ forall k r, nth_error rows k = Some r ->
                           Q (i + Z.of_nat k)%Z r).
Proof.
  intros Hb. induction n as [|n IH]; intros i; simpl.
  - apply post_ret. split; [reflexivity|].
    intros k r E. destruct k; discriminate E.
  - eapply post_bind; [apply Hb|]. intros x Qx.
    eapply post_bind; [apply IH|]. intros xs [Len Qxs].
    apply post_ret. split; [simpl; congruence|].
    intros k r E. destruct k as [|k]; simpl in E.
    + injection E as <-. rewrite Z.add_0_r. exact Qx.
    + replace (i + Z.of_nat (S k))%Z with (i + 1 + Z.of_nat k)%Z by lia.
      apply Qxs. exact E.
Qed.

Lemma post_for_in_range_indexed {A : Type} (body : Z -> M A)
  (Q : Z -> A -> Prop) (n : Z) :
  (forall i, post (body i) (Q i)) ->
  post (for_in_range n body)
       (fun rows =>
          List.length rows = Z.to_nat n
          /\ forall k r, nth_error rows k = Some r -> Q (Z.of_nat k) r).
Proof.
  intros Hb. unfold for_in_range.
  eapply post_weaken; [apply post_for_range_indexed; exact Hb|].
  cbv beta. intros rows [L F]. split; [exact L|].
  intros k r E. exact (F k r E).
Qed.

End IndexedLoop.

Section InfluencerRows.

Local Open Scope R_scope.

Variable cfg : Config.

Lemma at_post (col : list string) (i : Z) :
  post (Gen.at_ col i) (fun x => In x col).
Proof. unfold Gen.at_. apply nth_error_post. Qed.

Lemma generate_follower_count_post (tier : string) :
  post (Dist.generate_follower_count cfg tier)
       (fun followers =>
          forall flo fhi,
            getitem String.eqb (TIER_FOLLOWER_RANGES cfg) tier = Ok (flo, fhi) ->
            (0 < flo < fhi)%Z -> (fhi <= 10 ^ 7)%Z ->
            (flo - 1 <= followers <= fhi)%Z).
Proof.
  intros w f w' E flo fhi G H B.
  destruct (generate_follower_count_range (fun _ => True) stable_True cfg
              tier flo fhi G H B w Logic.I) as (v & w0 & E0 & Q & _).
  rewrite E in E0. injection E0 as <- _. exact Q.
Qed.

Lemma generate_engagement_rate_post (tier : string) (add_noise : bool) :
  post (Dist.generate_engagement_rate cfg tier add_noise)
       (fun rate => 0.5 <= rate <= 12.0).
Proof.
  unfold Dist.generate_engagement_rate.
  skip_bind_pair. skip_bind. skip_bind.
  apply post_ret. apply clip_bounds. lra.
Qed.

Lemma generate_authenticity_score_post (tier : string) :
  post (Dist.generate_authenticity_score cfg tier)
       (fun score => 0.4 <= score <= 0.99).
Proof.
  unfold Dist.generate_authenticity_score.
  skip_bind_pair. skip_bind.
  apply post_ret. apply clip_bounds. lra.
Qed.

Lemma generate_cost_per_post_post (tier : string) (followers : Z) :
  post (Dist.generate_cost_per_post cfg tier followers)
       (fun cost =>
          forall low high flo fhi,
            getitem String.eqb (TIER_COST_PER_POST cfg) tier = Ok (low, high) ->
            getitem String.eqb (TIER_FOLLOWER_RANGES cfg) tier = Ok (flo, fhi) ->
            (flo < fhi)%Z -> (0 <= low <= high)%Z ->
            (flo <= followers <= fhi)%Z ->
            0.8 * IZR low <= cost <= 1.2 * IZR high).
Proof.
  intros w c w' E low high flo fhi C G Hf Hc Hin.
  destruct (generate_cost_per_post_range (fun _ => True) stable_True cfg
              tier followers low high flo fhi C G Hf Hc Hin w Logic.I)
    as (v & w0 & E0 & Q & _).
  rewrite E in E0. injection E0 as <- _. exact Q.
Qed.

Lemma influencer_row_post (cols : Gen.InfluencerColumns) (i : Z) :
  Forall (fun t => In t (keys (TIER_DISTRIBUTION cfg))) (Gen.tiers cols) ->
  Forall (fun t => In t (keys (PLATFORM_DISTRIBUTION cfg)))
         (Gen.platforms cols) ->
  Forall (fun t => In t (keys (COUNTRY_DISTRIBUTION cfg)))
         (Gen.countries cols) ->
  Forall (fun t => In t (keys (GENDER_DISTRIBUTION cfg))) (Gen.genders cols) ->
  Forall (fun t => In t (keys (AGE_GROUP_DISTRIBUTION cfg)))
         (Gen.age_groups cols) ->
  Forall (fun t => In t (CONTENT_CATEGORIES cfg)) (Gen.categories cols) ->
  post (Gen.influencer_row cfg cols i) (influencer_row_ok cfg i).
Proof.
  intros Ft Fp Fc Fg Fa Fk. rewrite Forall_forall in Ft, Fp, Fc, Fg, Fa, Fk.
  unfold Gen.influencer_row.
  eapply post_bind; [apply at_post|]. intros tier Ht.
  eapply post_bind; [apply generate_follower_count_post|]. intros followers Hf.
  eapply post_bind; [apply generate_engagement_rate_post|]. intros rate Hr.
  skip_bind.
  eapply post_bind; [apply at_post|]. intros platform Hp.
  eapply post_bind; [apply at_post|]. intros country Hc.
  eapply post_bind; [apply at_post|]. intros category Hk.
  skip_bind.
  eapply post_bind; [apply generate_authenticity_score_post|]. intros auth Ha.
  eapply post_bind; [apply generate_cost_per_post_post|]. intros cost Hcost.
  eapply post_bind; [apply randint_post|]. intros age Hage.
  eapply post_bind; [apply at_post|]. intros gender Hg.
  eapply post_bind; [apply at_post|]. intros age_group Hag.
  skip_bind. skip_bind.
  apply post_ret. unfold influencer_row_ok. cbn.
  split; [reflexivity|]. split; [exact (Ft _ Ht)|].
  split; [exact (Fp _ Hp)|]. split; [exact (Fc _ Hc)|].
  split; [exact (Fg _ Hg)|]. split; [exact (Fa _ Hag)|].
  split; [exact (Fk _ Hk)|].
  split.
  { replace 0.5 with (IZR 50 / 10 ^ 2) in * by (simpl; lra).
    replace 12.0 with (IZR 1200 / 10 ^ 2) in * by (simpl; lra).
    apply round_bounds. exact Hr. }
  split.
  { replace 0.4 with (IZR 40 / 10 ^ 2) in * by (simpl; lra).
    replace 0.99 with (IZR 99 / 10 ^ 2) in * by (simpl; lra).
    apply round_bounds. exact Ha. }
  split; [cbv beta in Hage; lia|].
  intros flo fhi G H B. pose proof (Hf flo fhi G H B) as F. split; [exact F|].
  intros low high C Hlh Hlo.
  apply (Hcost low high flo fhi C G); lia.
Qed.

Lemma choice_size_post {A : Type} (a : list A) (size : nat) :
  post (Np.choice_size a size) (fun xs => Forall (fun x => In x a) xs).
Proof.
  induction size as [|k IH]; simpl.
  - apply post_ret. constructor.
  - eapply post_bind; [apply choice_post|]. intros x Hx.
    eapply post_bind; [apply IH|]. intros xs Hxs.
    apply post_ret. constructor; assumption.
Qed.

Lemma generate_influencers_post :
  post (Gen.generate_influencers cfg)
       (fun rows =>
          List.length rows = Z.to_nat (N_INFLUENCERS cfg)
          /\ forall k r, nth_error rows k = Some r ->
                         influencer_row_ok cfg (Z.of_nat k) r).
Proof.
  unfold Gen.generate_influencers. cbv zeta.
  eapply post_bind; [apply sample_from_distribution_post|]. intros tiers [Ft _].
  eapply post_bind; [apply sample_from_distribution_post|].
  intros platforms [Fp _].
  eapply post_bind; [apply sample_from_distribution_post|].
  intros countries [Fc _].
  eapply post_bind; [apply sample_from_distribution_post|].
  intros genders [Fg _].
  eapply post_bind; [apply sample_from_distribution_post|].
  intros age_groups [Fa _].
  eapply post_bind
    with (P := fun xs => Forall (fun x => In x (CONTENT_CATEGORIES cfg)) xs).
  { destruct (N_INFLUENCERS cfg <? 0)%Z; [apply post_raise|].
    apply choice_size_post. }
  intros categories Fk.
  apply post_for_in_range_indexed. intros i.
  apply influencer_row_post; assumption.
Qed.

End InfluencerRows.

Section InfluencerSpecs.

Local Open Scope R_scope.

(** Whatever the configuration, a table returned by [generate_influencers]
    has [N_INFLUENCERS] rows, and the row at position [k] is named
    [creator_] followed by [k + 1] on five digits, draws its tier, platform,
    country, gender, age group and content category from the configured
    tables, has an engagement rate within [0.5, 12], an authenticity score
    within [0.40, 0.99] and an account age from 12 to 95 months; when its
    tier has a follower range [0 < flo < fhi <= 10^7] its follower count lies
    between [flo - 1] and [fhi], both ends included ([int(exp(log(flo)))] can
    fall one short of [flo], and the largest draw gives [fhi]), and when the
    count is at least [flo] the collaboration cost, its floating-point
    products read as real numbers, lies between 0.8 times the lower and 1.2
    times the upper end of the tier's cost range. *)
Theorem generate_influencers_rows (cfg : Config) (w : World)
  (rows : list Influencer.t) (w' : World) :
  Gen.generate_influencers cfg w = Ok (rows, w') ->
  List.length rows = Z.to_nat (N_INFLUENCERS cfg)
  /\ forall k r, nth_error rows k = Some r ->
                 influencer_row_ok cfg (Z.of_nat k) r.
Proof. intros H. exact (generate_influencers_post cfg w rows w' H). Qed.

(** The statement on the run of [generate_influencers] under the shipped
    configuration from the world of zero variates in which every result is
    rounded down; the first row is [creator_00001]. *)
Lemma generate_influencers_rows_witness :
  exists rows w',
    Gen.generate_influencers config (rounding_world 0 0 (-1)) = Ok (rows, w')
    /\ (List.length rows = Z.to_nat (N_INFLUENCERS config)
        /\ forall k r, nth_error rows k = Some r ->
                       influencer_row_ok config (Z.of_nat k) r)
    /\ exists r0, nth_error rows 0 = Some r0
                  /\ Influencer.username r0 = "creator_00001"%string.
Proof.
  destruct (generate_influencers_total (fun _ => True) stable_True
              (rounding_world 0 0 (-1)) Logic.I)
    as (rows & w' & E & (L & _) & _).
  pose proof (generate_influencers_rows config (rounding_world 0 0 (-1)) rows
                w' E) as R.
  exists rows, w'. split; [exact E|]. split; [exact R|].
  destruct rows as [|r0 rest]; [discriminate L|].
  exists r0. split; [reflexivity|].
  destruct R as [_ R]. destruct (R 0%nat r0 eq_refl) as [U _]. exact U.
Defined.

End InfluencerSpecs.

Section Lookups.

(** [has_duplicates] decides [NoDup]. *)
Lemma has_duplicates_NoDup (ids : list N) :
  Gen.has_duplicates ids = false <-> NoDup ids.
Proof.
  induction ids as [|x r IH]; simpl.
  - split; [constructor|reflexivity].
  - rewrite orb_false_iff, IH. split.
    + intros [E ND]. constructor; [|exact ND]. intros Hin.
      assert (existsb (N.eqb x) r = true) as X
        by (apply existsb_exists; exists x; split;
            [exact Hin|apply N.eqb_refl]).
      congruence.
    + intros ND. inversion ND as [|? ? Hnotin ND']. subst. split; [|exact ND'].
      destruct (existsb (N.eqb x) r) eqn:E; [|reflexivity]. exfalso.
      apply existsb_exists in E. destruct E as (y & Hy & Ey).
      apply N.eqb_eq in Ey. subst y. contradiction.
Qed.

Lemma to_dict_index_post {A : Type} (key : A -> N) (rows : list A) :
  post (Gen.to_dict_index key rows)
       (fun d => d = map (fun r => (key r, r)) rows
                 /\ NoDup (map key rows)).
Proof.
  unfold Gen.to_dict_index.
  destruct (Gen.has_duplicates (map key rows)) eqn:E; [apply post_raise|].
  apply post_ret. split; [reflexivity|]. apply has_duplicates_NoDup. exact E.
Qed.

(** A row found in the lookup built from a table is a row of the table
    filed under its own key. *)
Lemma getitem_lookup_inv {A : Type} (key : A -> N) (rows : list A) (k : N)
  (r : A) :
  getitem N.eqb (map (fun x => (key x, x)) rows) k = Ok r ->
  In r rows /\ key r = k.
Proof.
  induction rows as [|x rest IH]; simpl; [discriminate|].
  destruct (N.eqb k (key x)) eqn:E.
  - intros H. injection H as <-. apply N.eqb_eq in E.
    split; [left; reflexivity|symmetry; exact E].
  - intros H. destruct (IH H) as [Hin Hk]. split; [right; exact Hin|exact Hk].
Qed.

End Lookups.

Section PostRows.

Local Open Scope R_scope.

Variable cfg : Config.

Lemma generate_post_time_post :
  post (Dist.generate_post_time cfg)
       (fun hd => In (fst hd) (keys (POSTING_TIME_DISTRIBUTION cfg))
                  /\ In (snd hd) (keys (DAY_OF_WEEK_DISTRIBUTION cfg))).
Proof.
  unfold Dist.generate_post_time.
  eapply post_bind; [apply sample_from_distribution_post|]. intros hours [Fh _].
  eapply post_bind; [apply item0_post|]. intros hour Hh.
  eapply post_bind; [apply sample_from_distribution_post|]. intros days [Fd _].
  eapply post_bind; [apply item0_post|]. intros day Hd.
  apply post_ret. rewrite Forall_forall in Fh, Fd. cbn [fst snd].
  split; [exact (Fh _ Hh)|exact (Fd _ Hd)].
Qed.

Lemma generate_reach_impressions_post (followers : Z) (engagement_rate : R) :
  post (Dist.generate_reach_impressions followers engagement_rate)
       (fun ri =>
          (1 <= followers <= 10 ^ 14)%Z ->
          IZR (fst ri) <= 0.52 * IZR followers
          /\ (fst ri < followers)%Z
          /\ IZR (snd ri) <= 1.8 * IZR (fst ri)).
Proof.
  apply post_under. intros H. apply total_post, total_in_total.
  apply generate_reach_impressions_total; [exact stable_True|exact H].
Qed.

Lemma post_row_columns_post (ctx : Gen.PostContext) (i : Z) :
  post (Gen.post_row cfg ctx i) (post_row_columns cfg ctx).
Proof.
  unfold Gen.post_row.
  eapply post_bind; [apply post_true|]. intros inf_id _.
  eapply post_bind;
    [apply (post_lift _ (fun x => getitem N.eqb (Gen.pc_inf_lookup ctx) inf_id
                                  = Ok x)); intros x E; exact E|].
  intros inf_data G. cbv zeta.
  skip_bind. skip_bind.
  eapply post_bind; [apply generate_post_time_post|].
  intros [hour day_of_week] [Hh Hd]. cbn [fst snd] in Hh, Hd.
  eapply post_bind; [apply sample_from_distribution_post|].
  intros sampled [Fs _].
  eapply post_bind; [apply item0_post|]. intros content_type Hct.
  rewrite Forall_forall in Fs. specialize (Fs _ Hct).
  skip_bind.
  match goal with
  | |- context [Py.lt ?r (if ?c then 0.25 else 0.10)] =>
      generalize (Py.lt r (if c then 0.25 else 0.10))
  end.
  intros is_sponsored.
  skip_bind. skip_bind.
  eapply post_bind;
    [apply total_post, total_in_total,
       (generate_engagement_metrics_inv _ stable_True)|].
  intros base_engagement Hm.
  eapply post_bind; [apply generate_reach_impressions_post|].
  intros [reach impressions] Hri. cbn [fst snd] in Hri.
  skip_bind. skip_bind.
  eapply post_bind;
    [apply total_post, total_in_total,
       (generate_caption_length_range _ stable_True)|].
  intros caption_length Hcl.
  eapply post_bind;
    [apply total_post, total_in_total,
       (generate_hashtag_count_range _ stable_True)|].
  intros hashtag_count Hhc.
  skip_bind.
  eapply post_bind
    with (P := fun pc => (0 <= pc)%Z /\ (is_sponsored = false -> pc = 0%Z)).
  { destruct is_sponsored.
    - eapply post_weaken;
        [apply total_post, total_in_total,
           (poisson_total _ stable_True 2); lra|].
      intros pc Hpc. split; [exact Hpc|discriminate].
    - apply post_ret. split; [lia|reflexivity]. }
  intros product_count [Hpc0 Hpc].
  eapply post_bind; [apply sample_from_distribution_post|].
  intros styles [Fst _].
  eapply post_bind; [apply item0_post|]. intros visual_style Hvs.
  rewrite Forall_forall in Fst. specialize (Fst _ Hvs).
  eapply post_bind; [apply choice_post|]. intros dominant_color Hdc.
  eapply post_bind with (P := fun d => is_sponsored = false -> d = false).
  { destruct is_sponsored.
    - skip_bind. apply post_ret. discriminate.
    - apply post_ret. reflexivity. }
  intros discount Hdisc.
  apply post_ret. unfold post_row_columns. cbn.
  split.
  { exists inf_data. split; [exact G|]. split; [reflexivity|exact Hri]. }
  split; [exact Hh|]. split; [exact Hd|]. split; [exact Fs|].
  split; [exact Fst|]. split; [exact Hdc|].
  split; [destruct base_engagement; exact Hm|].
  split; [exact Hcl|]. split; [exact Hhc|]. split; [exact Hpc0|].
  intros E. split; [exact (Hpc E)|exact (Hdisc E)].
Qed.

(** Every row of [generate_posts] satisfies both row specifications, for the
    context built from the generator's tables, whose influencer ids are
    pairwise distinct. *)
Lemma generate_posts_columns_post (self : Gen.t) :
  post (Gen.generate_posts cfg self)
       (fun posts =>
          exists start_date end_date influencers ctx,
            Datetime.strptime (DATE_START cfg) = Ok start_date
            /\ Datetime.strptime (DATE_END cfg) = Ok end_date
            /\ Gen.influencers_df self = Some influencers
            /\ NoDup (map Influencer.influencer_id influencers)
            /\ Gen.pc_start_date ctx = start_date
            /\ Gen.pc_date_range ctx = (end_date - start_date)%Z
            /\ Gen.pc_inf_lookup ctx
               = map (fun r => (Influencer.influencer_id r, r)) influencers
            /\ Forall (fun p => post_row_ok ctx p /\ post_row_columns cfg ctx p)
                      posts).
Proof.
  unfold Gen.generate_posts.
  eapply post_bind; [apply lift_post|]. intros start_date Hs.
  eapply post_bind; [apply lift_post|]. intros end_date He. cbv zeta.
  eapply post_bind; [apply column_post|]. intros influencers [Hi _].
  skip_bind.
  eapply post_bind; [apply to_dict_index_post|]. intros lookup [-> ND].
  eapply post_weaken.
  - apply post_for_in_range. intros i.
    apply post_conj; [apply post_row_post|apply post_row_columns_post].
  - cbv beta. intros posts [F _].
    exists start_date, end_date, influencers. eexists.
    repeat split; try eassumption; reflexivity.
Qed.

End PostRows.

Section PostSpecs.

Local Open Scope R_scope.

(** Whatever the configuration, in every table [generate_posts] returns each
    post names an influencer of the generator's table, whose ids are pairwise
    distinct, carries that influencer's platform, has (for an influencer with
    at least one and at most [10^14] followers, where the rounding of the
    binary64 products stays below one unit) a reach of at most 0.52 times and
    strictly below the influencer's follower count and impressions of at most
    1.8 times the reach, and is dated from [DATE_START] on and strictly
    before [DATE_END]. *)
Theorem generate_posts_references (cfg : Config) (self : Gen.t) (w : World)
  (posts : list Post.t) (w' : World) :
  Gen.generate_posts cfg self w = Ok (posts, w') ->
  exists influencers start_date end_date,
    Gen.influencers_df self = Some influencers
    /\ NoDup (map Influencer.influencer_id influencers)
    /\ Datetime.strptime (DATE_START cfg) = Ok start_date
    /\ Datetime.strptime (DATE_END cfg) = Ok end_date
    /\ Forall (post_references_ok influencers start_date end_date) posts.
Proof.
  intros H. apply generate_posts_columns_post in H.
  destruct H as (s & e & influencers & ctx & Hs & He & Hi & ND & Ps & Pr & Pl & F).
  exists influencers, s, e.
  split; [exact Hi|]. split; [exact ND|]. split; [exact Hs|].
  split; [exact He|].
  eapply Forall_impl; [|exact F].
  intros p [(_ & _ & _ & Hd) ((inf & G & Hp & Hr) & _)].
  rewrite Pl in G. apply getitem_lookup_inv in G. destruct G as [Hin Hk].
  split; [|rewrite Ps, Pr in Hd; lia].
  exists inf. split; [exact Hin|]. split; [exact Hk|].
  split; [exact Hp|exact Hr].
Qed.

(** The statement on the run of [generate_posts] from the world of zero
    variates, with the one-row influencer and brand tables and the
    posting-time weights normalised. *)
Lemma generate_posts_references_witness :
  exists posts w' start_date end_date,
    Gen.generate_posts config_normalised generator0 (constant_world 0 0)
    = Ok (posts, w')
    /\ List.length posts = Z.to_nat 50000
    /\ NoDup (map Influencer.influencer_id [influencer0])
    /\ Datetime.strptime (DATE_START config_normalised) = Ok start_date
    /\ Datetime.strptime (DATE_END config_normalised) = Ok end_date
    /\ Forall (post_references_ok [influencer0] start_date end_date) posts.
Proof.
  destruct (generate_posts_total (fun _ => True) stable_True generator0
              [influencer0] [brand0] eq_refl ltac:(discriminate) eq_refl
              eq_refl ltac:(discriminate) (constant_world 0 0) Logic.I)
    as (posts & w' & E & L & _).
  destruct (generate_posts_references config_normalised generator0
              (constant_world 0 0) posts w' E)
    as (influencers & s & e & Hi & ND & Hs & He & F).
  injection Hi as <-.
  exists posts, w', s, e. repeat split; assumption.
Defined.

(** Whatever the configuration, in every table [generate_posts] returns each
    post has an hour and a weekday of the posting-time tables, a content type
    of its platform's table (or [photo]), a visual style and a colour of the
    configured lists, at least one like, comments, shares and saves bounded
    by 8%, 2.5% and 6% of the likes (the float products read as real
    numbers), a caption of 20 to 500 characters, a hashtag count in the range
    of its platform (1 to 30 for Instagram, 1 to 10 for TikTok, 0 to 5 for
    Twitter, 1 to 5 for any other), and a product count that is zero, with no
    discount code, when the post is not sponsored. *)
Theorem generate_posts_columns (cfg : Config) (self : Gen.t) (w : World)
  (posts : list Post.t) (w' : World) :
  Gen.generate_posts cfg self w = Ok (posts, w') ->
  Forall (post_columns_ok cfg) posts.
Proof.
  intros H. apply generate_posts_columns_post in H.
  destruct H as (s & e & influencers & ctx & _ & _ & _ & _ & _ & _ & _ & F).
  eapply Forall_impl; [|exact F].
  intros p [_ (_ & C)]. exact C.
Qed.

(** The statement on the same run. *)
Lemma generate_posts_columns_witness :
  exists posts w',
    Gen.generate_posts config_normalised generator0 (constant_world 0 0)
    = Ok (posts, w')
    /\ List.length posts = Z.to_nat 50000
    /\ Forall (post_columns_ok config_normalised) posts.
Proof.
  destruct (generate_posts_total (fun _ => True) stable_True generator0
              [influencer0] [brand0] eq_refl ltac:(discriminate) eq_refl
              eq_refl ltac:(discriminate) (constant_world 0 0) Logic.I)
    as (posts & w' & E & L & _).
  exists posts, w'. split; [exact E|]. split; [exact L|].
  exact (generate_posts_columns config_normalised generator0
           (constant_world 0 0) posts w' E).
Defined.

End PostSpecs.

Section ConversionRows.

Local Open Scope R_scope.

Variable cfg : Config.

Lemma conversion_row_columns_post (self : Gen.t) (ctx : Gen.ConversionContext)
  (i : Z) :
  post (Gen.conversion_row cfg self ctx i) (conversion_row_columns cfg self ctx).
Proof.
  unfold Gen.conversion_row.
  skip_bind. cbv zeta.
  eapply post_bind
    with (P := fun t =>
                 fst (fst (fst (fst t))) = None
                 /\ (exists brands b,
                       Gen.brands_df self = Some brands
                       /\ snd (fst (fst t)) = Some b
                       /\ In b (map Brand.brand_id brands))
                 /\ (Gen.cc_start_date ctx <= snd (fst t)
                     < Gen.cc_start_date ctx + Gen.cc_date_range ctx)%Z).
  { match goal with |- post (if ?c then _ else _) _ => destruct c end.
    - eapply post_bind; [apply post_true|]. intros p _. cbv zeta.
      eapply post_bind; [apply generate_customer_journey_length_post|].
      intros jl (n & -> & Hn).
      eapply post_bind;
        [apply (post_lift _ (fun _ => False)); intros x E; discriminate E|].
      intros days [].
    - eapply post_bind; [apply column_post|]. intros brands [Hb _].
      eapply post_bind; [apply choice_post|]. intros brand_id Hbid.
      eapply post_bind; [apply randint_post|]. intros random_days Hr.
      eapply post_bind;
        [apply (post_lift _ (fun x => x = (Gen.cc_start_date ctx
                                           + random_days)%Z));
         intros x E; apply add_days_inv in E; apply E|].
      intros conversion_date ->. skip_bind.
      apply post_ret. cbn [fst snd]. split; [reflexivity|]. split.
      + exists brands, brand_id. repeat split; assumption.
      + cbv beta in Hr. lia. }
  intros [[[[post_id influencer_id] brand_id] conversion_date] journey_length].
  cbn [fst snd]. intros (-> & Hbrand & Hdate).
  eapply post_bind
    with (P := fun tier =>
                 forall b, brand_id = Some b ->
                   exists brand,
                     getitem N.eqb (Gen.cc_brand_lookup ctx) b = Ok brand
                     /\ tier = Brand.brand_tier brand).
  { destruct brand_id as [b|].
    - eapply post_bind;
        [apply (post_lift _ (fun x => getitem N.eqb (Gen.cc_brand_lookup ctx) b
                                      = Ok x)); intros x E; exact E|].
      intros brand G. apply post_ret. intros b' E. injection E as <-.
      exists brand. split; [exact G|reflexivity].
    - apply post_ret. discriminate. }
  intros brand_tier Htier.
  skip_bind. skip_bind.
  eapply post_bind; [apply choice_p_post|]. intros attribution_type Hat.
  eapply post_bind; [apply choice_post|]. intros utm_source Hus.
  eapply post_bind; [apply choice_post|]. intros utm_medium Hum.
  eapply post_bind; [apply generate_order_value_post|]. intros order_value Hov.
  eapply post_bind; [apply choice_post|]. intros product_category Hpc.
  cbn [Gen.is_some].
  eapply post_bind with (P := fun d => d = false);
    [apply post_ret; reflexivity|].
  intros discount ->.
  eapply post_bind;
    [apply total_post, total_in_total,
       (generate_touchpoints_count_total _ stable_True)|].
  intros touchpoints_count Htc.
  apply post_ret. unfold conversion_row_columns. cbn.
  split; [exact Hat|]. split; [exact Htc|]. split; [exact Hus|].
  split; [exact Hum|]. split; [exact Hpc|]. split; [reflexivity|].
  split; [exact Hbrand|]. split; [exact Hdate|].
  intros b E. destruct (Htier b E) as (brand & G & ->).
  exists brand. split; [exact G|exact Hov].
Qed.

Lemma generate_conversions_columns_post (self : Gen.t) :
  post (Gen.generate_conversions cfg self)
       (fun conversions =>
          exists brands start_date end_date ctx,
            Gen.brands_df self = Some brands
            /\ NoDup (map Brand.brand_id brands)
            /\ Datetime.strptime (DATE_START cfg) = Ok start_date
            /\ Datetime.strptime (DATE_END cfg) = Ok end_date
            /\ Gen.cc_brand_lookup ctx
               = map (fun r => (Brand.brand_id r, r)) brands
            /\ Gen.cc_start_date ctx = start_date
            /\ Gen.cc_date_range ctx = (end_date - start_date)%Z
            /\ List.length conversions = Z.to_nat (N_CONVERSIONS cfg)
            /\ Forall (fun c => conversion_row_ok c
                                /\ conversion_row_columns cfg self ctx c)
                      conversions).
Proof.
  unfold Gen.generate_conversions.
  eapply post_bind; [apply column_post|]. intros posts [Hp _]. cbv zeta.
  eapply post_bind; [apply set_index_post|]. intros brands Hb.
  eapply post_bind; [apply to_dict_index_post|]. intros lookup [-> ND].
  eapply post_bind; [apply lift_post|]. intros start_date Hs.
  eapply post_bind; [apply lift_post|]. intros end_date He. cbv zeta.
  eapply post_weaken.
  - apply post_for_in_range. intros i.
    apply post_conj; [apply conversion_row_post|apply conversion_row_columns_post].
  - cbv beta. intros conversions [F L].
    exists brands, start_date, end_date. eexists.
    repeat split; try eassumption; reflexivity.
Qed.

End ConversionRows.

Section ConversionSpecs.

Local Open Scope R_scope.

(** Whatever the configuration and the generator's tables, a table returned
    by [generate_conversions] has [N_CONVERSIONS] rows and none of them is
    attributed to a post (the branch that attributes a conversion raises
    [TypeError] before its row is built): every row has no post and no
    influencer, used no discount code, names a brand of the generator's brand
    table, whose ids are pairwise distinct, has an order value in the clip
    range of that brand's tier, is dated from [DATE_START] on and strictly
    before [DATE_END], has a journey of 1 to 90 days, 1 to 15 touchpoints and
    one of the five attribution models, and draws its UTM source, UTM medium
    and product category from the lists of the method. *)
Theorem generate_conversions_rows (cfg : Config) (self : Gen.t) (w : World)
  (conversions : list Conversion.t) (w' : World) :
  Gen.generate_conversions cfg self w = Ok (conversions, w') ->
  exists brands start_date end_date,
    Gen.brands_df self = Some brands
    /\ NoDup (map Brand.brand_id brands)
    /\ Datetime.strptime (DATE_START cfg) = Ok start_date
    /\ Datetime.strptime (DATE_END cfg) = Ok end_date
    /\ List.length conversions = Z.to_nat (N_CONVERSIONS cfg)
    /\ Forall (conversion_columns_ok cfg brands start_date end_date)
              conversions.
Proof.
  intros Hconv.
  apply generate_conversions_columns_post in Hconv.
  destruct Hconv as (brands & s & e & ctx & Hb & ND & Hs & He & Cl & Cs & Cr
                     & L & Fc).
  exists brands, s, e.
  split; [exact Hb|]. split; [exact ND|].
  split; [exact Hs|]. split; [exact He|]. split; [exact L|].
  eapply Forall_impl; [|exact Fc].
  intros c [(Hjl & Hpid & Hn)
            (Hat & Htc & Hus & Hum & Hpc & Hdisc & Hbrand & Hdate & Hov)].
  destruct Hbrand as (brands' & b & Hb' & Eb & _).
  destruct (Hov b Eb) as (brand & G & Hval).
  rewrite Cl in G. apply getitem_lookup_inv in G. destruct G as [Hin Hk].
  split; [exact Hpid|]. split; [exact Hn|]. split; [exact Hdisc|].
  split.
  { exists brand. split; [exact Hin|]. split; [congruence|exact Hval]. }
  split; [rewrite Cs, Cr in Hdate; lia|].
  split; [exact Hjl|]. split; [exact Htc|]. split; [exact Hat|].
  split; [exact Hus|]. split; [exact Hum|exact Hpc].
Qed.

(** The statement on a run that returns: the generator holds a sponsored
    post, and every draw of the stream is 0.7, so that no conversion is
    attributed. *)
Lemma generate_conversions_rows_witness :
  exists conversions w' start_date end_date,
    Gen.generate_conversions config_normalised (generator0_with_posts [post0])
                             (constant_world 0.7 0)
    = Ok (conversions, w')
    /\ NoDup (map Brand.brand_id [brand0])
    /\ Datetime.strptime (DATE_START config_normalised) = Ok start_date
    /\ Datetime.strptime (DATE_END config_normalised) = Ok end_date
    /\ List.length conversions = Z.to_nat (N_CONVERSIONS config_normalised)
    /\ Forall (conversion_columns_ok config_normalised [brand0]
                                     start_date end_date) conversions.
Proof.
  destruct (generate_conversions_total late_world late_world_stable
              (generator0_with_posts [post0]) [post0] [brand0] random_late_ge
              eq_refl ltac:(discriminate) eq_refl ltac:(discriminate)
              eq_refl ltac:(repeat constructor; simpl; auto)
              (constant_world 0.7 0) (constant_world_late 0))
    as (conversions & w' & E & L & _).
  destruct (generate_conversions_rows config_normalised
              (generator0_with_posts [post0]) (constant_world 0.7 0)
              conversions w' E)
    as (brands & s & e & Hb & ND & Hs & He & L' & F).
  injection Hb as <-.
  exists conversions, w', s, e.
  repeat split; assumption.
Defined.

End ConversionSpecs.

Section TouchpointRows.

Local Open Scope R_scope.

Variable cfg : Config.

(** The head of the filtered column is the column of the first match. *)
Lemma filter_head_find {A B : Type} (f : A -> B) (g : A -> bool) (l : list A) :
  match map f (filter g l) with
  | x :: _ => Some x
  | [] => None
  end = option_map f (find g l).
Proof.
  induction l as [|a r IH]; simpl; [reflexivity|].
  destruct (g a); simpl; [reflexivity|exact IH].
Qed.

Lemma touchpoint_row_columns_post (self : Gen.t)
  (conversions_with_posts : list Conversion.t) (i : Z) :
  post (Gen.touchpoint_row cfg self conversions_with_posts i)
       (touchpoint_columns_ok cfg self).
Proof.
  unfold Gen.touchpoint_row.
  cbv zeta. eapply post_bind; [apply post_true|]. intros r_leads _.
  generalize (Py.lt r_leads 0.30). intros leads.
  eapply post_bind
    with (P := fun t =>
                 fst (fst (fst t)) = None ->
                 (forall pid, snd (fst t) = Some pid ->
                    exists posts,
                      Gen.posts_df self = Some posts
                      /\ In pid (map Post.post_id posts))
                 /\ exists start_date end_date,
                      Datetime.strptime (DATE_START cfg) = Ok start_date
                      /\ Datetime.strptime (DATE_END cfg) = Ok end_date
                      /\ (start_date <= snd t < end_date)%Z).
  { match goal with |- post (if ?c then _ else _) _ => destruct c end.
    - skip_bind. cbv zeta. skip_bind. skip_bind.
      apply post_ret. cbn [fst snd]. discriminate.
    - skip_bind. skip_bind.
      eapply post_bind
        with (P := fun o => forall pid, o = Some pid ->
                              exists posts,
                                Gen.posts_df self = Some posts
                                /\ In pid (map Post.post_id posts)).
      { match goal with |- post (if ?c then _ else _) _ => destruct c end.
        - eapply post_bind; [apply column_post|]. intros posts [Hp _].
          eapply post_bind; [apply choice_post|]. intros p Hin.
          apply post_ret. intros pid E. injection E as <-.
          exists posts. split; assumption.
        - apply post_ret. discriminate. }
      intros post_id Hpost.
      eapply post_bind; [apply lift_post|]. intros start_date Hs.
      eapply post_bind; [apply lift_post|]. intros end_date He.
      eapply post_bind; [apply randint_post|]. intros random_days Hr.
      eapply post_bind;
        [apply (post_lift _ (fun x => x = (start_date + random_days)%Z));
         intros x E; apply add_days_inv in E; apply E|].
      intros touchpoint_date ->.
      apply post_ret. cbn [fst snd]. intros _. split; [exact Hpost|].
      exists start_date, end_date. split; [exact Hs|]. split; [exact He|].
      cbv beta in Hr. lia. }
  intros [[[conversion_id customer_id] post_id] touchpoint_date].
  cbn [fst snd]. intros Hnone.
  eapply post_bind
    with (P := fun platform =>
                 (forall pid, post_id = Some pid ->
                    exists posts,
                      Gen.posts_df self = Some posts
                      /\ match find (fun p => N.eqb (Post.post_id p) pid)
                                    posts with
                         | Some p => platform = Post.platform p
                         | None =>
                             In platform
                                ["Instagram"; "TikTok"; "YouTube";
                                 "Twitter"]%string
                         end)
                 /\ (post_id = None ->
                     In platform
                        ["Instagram"; "TikTok"; "YouTube"; "Twitter";
                         "Website"]%string)).
  { destruct post_id as [pid|].
    - eapply post_bind; [apply column_post|]. intros posts [Hp _]. cbv zeta.
      pose proof (filter_head_find Post.platform
                    (fun p => N.eqb (Post.post_id p) pid) posts) as FH.
      destruct (map Post.platform
                    (filter (fun p => N.eqb (Post.post_id p) pid) posts))
        as [|x rest].
      + eapply post_weaken; [apply choice_post|]. intros platform Hin.
        split; [|discriminate]. intros pid' E. injection E as <-.
        exists posts. split; [exact Hp|].
        destruct (find _ posts); [discriminate FH|exact Hin].
      + apply post_ret. split; [|discriminate].
        intros pid' E. injection E as <-.
        exists posts. split; [exact Hp|].
        destruct (find _ posts) as [p|]; [|discriminate FH].
        simpl in FH. congruence.
    - eapply post_weaken; [apply choice_post|]. intros platform Hin.
      split; [discriminate|]. intros _. exact Hin. }
  intros platform [Hplat Hweb].
  skip_bind.
  eapply post_bind; [apply choice_p_post|]. intros touchpoint_type Htt.
  skip_bind.
  apply post_ret. unfold touchpoint_columns_ok. cbn.
  split; [exact Htt|]. split; [exact Hplat|]. split; [exact Hweb|exact Hnone].
Qed.

End TouchpointRows.

Section TouchpointSpecs.

Local Open Scope R_scope.

(** Whatever the configuration, in every table [generate_touchpoints]
    returns each touchpoint has one of the seven touchpoint types; one that
    names a post shows the platform of the first post of the generator's
    table with that id (one of the four social platforms if there is none);
    one that names no post shows one of the four social platforms or
    ["Website"]; and one without a conversion names, if any, a post of the
    table and is dated from [DATE_START] on and strictly before
    [DATE_END]. *)
Theorem generate_touchpoints_columns (cfg : Config) (self : Gen.t) (w : World)
  (touchpoints : list Touchpoint.t) (w' : World) :
  Gen.generate_touchpoints cfg self w = Ok (touchpoints, w') ->
  List.length touchpoints = Z.to_nat (N_TOUCHPOINTS cfg)
  /\ Forall (touchpoint_columns_ok cfg self) touchpoints.
Proof.
  revert w touchpoints w'.
  change (post (Gen.generate_touchpoints cfg self)
               (fun touchpoints =>
                  List.length touchpoints = Z.to_nat (N_TOUCHPOINTS cfg)
                  /\ Forall (touchpoint_columns_ok cfg self) touchpoints)).
  unfold Gen.generate_touchpoints.
  skip_bind. cbv zeta.
  eapply post_weaken;
    [apply post_for_in_range; intros i; apply touchpoint_row_columns_post|].
  cbv beta. intros touchpoints [F L]. split; assumption.
Qed.

(** The statement on the run of [generate_touchpoints] from the world of
    zero variates, on the generator holding [post0] and [conversion0]. *)
Lemma generate_touchpoints_columns_witness :
  exists touchpoints w',
    Gen.generate_touchpoints config (generator_with_conversions [conversion0])
                             (constant_world 0 0)
    = Ok (touchpoints, w')
    /\ List.length touchpoints = Z.to_nat (N_TOUCHPOINTS config)
    /\ Forall (touchpoint_columns_ok
                 config (generator_with_conversions [conversion0]))
              touchpoints.
Proof.
  destruct (generate_touchpoints_zero
              (generator_with_conversions [conversion0]) [conversion0] [post0]
              eq_refl ltac:(discriminate) eq_refl ltac:(discriminate)
              conversion0_dated (constant_world 0 0) (constant_world_zero 0))
    as (touchpoints & w' & E & _ & _).
  exists touchpoints, w'. split; [exact E|].
  exact (generate_touchpoints_columns config
           (generator_with_conversions [conversion0]) (constant_world 0 0)
           touchpoints w' E).
Defined.

End TouchpointSpecs.

(* ===================================================================== *)
(** * Theorems: the order of the tables, duplicate ids, and [main] *)
(* ===================================================================== *)

Section RaisesRules.

Lemma raises_after {A B : Type} (c : M A) (k : A -> M B) (e : exn) :
  (forall w a w', c w = Ok (a, w') -> k a w' = Raise e) ->
  (forall w e', c w = Raise e' -> e' = e) ->
  raises (bind c k) e.
Proof.
  intros Hk He w. unfold bind. destruct (c w) as [[a w']|e'] eqn:E.
  - exact (Hk w a w' E).
  - rewrite (He w e' E). reflexivity.
Qed.

Lemma raises_ret_bind {A B : Type} (a : A) (k : A -> M B) (e : exn) :
  raises (k a) e -> raises (bind (ret a) k) e.
Proof. intros H w. exact (H w). Qed.

Lemma raises_lift_ok {A B : Type} (r : result A) (a : A) (k : A -> M B)
  (e : exn) :
  r = Ok a -> raises (k a) e -> raises (bind (lift r) k) e.
Proof. intros -> H w. exact (H w). Qed.

End RaisesRules.

Section OutOfOrder.

Local Open Scope R_scope.

(** Each table is generated from the ones before it: on a generator fresh
    from [__init__], whose tables are all [None], [generate_conversions] and
    [generate_touchpoints] raise [TypeError], and so does [generate_posts]
    once the two dates of the window are parsed. *)
Theorem generating_out_of_order_raises_TypeError (cfg : Config) (seed : Z)
  (w : World) (g : Gen.t) (w' : World) :
  Gen.init seed w = Ok (g, w') ->
  raises (Gen.generate_conversions cfg g) TypeError
  /\ raises (Gen.generate_touchpoints cfg g) TypeError
  /\ (forall start_date end_date,
        Datetime.strptime (DATE_START cfg) = Ok start_date ->
        Datetime.strptime (DATE_END cfg) = Ok end_date ->
        raises (Gen.generate_posts cfg g) TypeError).
Proof.
  intros H. unfold Gen.init, bind, Np.seed, ret in H.
  destruct ((0 <=? seed) && (seed <? 2 ^ 32))%Z; [|discriminate H].
  injection H as <- _.
  split; [intros w0; reflexivity|]. split; [intros w0; reflexivity|].
  intros s e Hs He w0. unfold Gen.generate_posts, bind, lift.
  rewrite Hs, He. reflexivity.
Qed.

(** The statement for the generator seeded with 42, under the shipped
    configuration. *)
Lemma generating_out_of_order_raises_TypeError_witness :
  exists g w',
    Gen.init 42 (constant_world 0 0) = Ok (g, w')
    /\ raises (Gen.generate_conversions config g) TypeError
    /\ raises (Gen.generate_touchpoints config g) TypeError
    /\ raises (Gen.generate_posts config g) TypeError.
Proof.
  eexists. eexists. split; [reflexivity|].
  destruct (generating_out_of_order_raises_TypeError
              config 42 (constant_world 0 0) _ _ eq_refl) as (H1 & H2 & H3).
  split; [exact H1|]. split; [exact H2|].
  exact (H3 _ _ (proj1 shipped_window) (proj2 shipped_window)).
Defined.

(** [DataFrame.to_dict("index")] refuses a duplicated index: with two
    influencer rows of the same id, [generate_posts] raises [ValueError]
    before it generates any post. *)
Theorem duplicate_influencer_ids_stop_generate_posts (cfg : Config)
  (self : Gen.t) (influencers : list Influencer.t) (brands : list Brand.t)
  (start_date end_date : Z) :
  Datetime.strptime (DATE_START cfg) = Ok start_date ->
  Datetime.strptime (DATE_END cfg) = Ok end_date ->
  Gen.influencers_df self = Some influencers ->
  Gen.brands_df self = Some brands -> brands <> [] ->
  ~ NoDup (map Influencer.influencer_id influencers) ->
  raises (Gen.generate_posts cfg self) ValueError.
Proof.
  intros Hs He Hi Hb Nb D w. unfold Gen.generate_posts.
  unfold bind at 1. unfold lift at 1. rewrite Hs.
  unfold bind at 1. unfold lift at 1. rewrite He. cbv zeta.
  rewrite Hi, Hb.
  destruct influencers as [|i0 irest]; [exfalso; apply D; constructor|].
  destruct brands as [|b0 brest]; [congruence|].
  unfold bind at 1. cbn [Gen.column ret].
  unfold bind at 1. cbn [Gen.column ret].
  unfold bind at 1. unfold Gen.to_dict_index.
  destruct (Gen.has_duplicates (map Influencer.influencer_id (i0 :: irest)))
    eqn:E; [reflexivity|].
  exfalso. apply D. apply has_duplicates_NoDup. exact E.
Qed.

(** The statement on the generator holding [influencer0] twice. *)
Lemma duplicate_influencer_ids_stop_generate_posts_witness :
  raises (Gen.generate_posts config generator_with_twins) ValueError.
Proof.
  apply (duplicate_influencer_ids_stop_generate_posts
           config generator_with_twins [influencer0; influencer0] [brand0]
           738917 739282 eq_refl eq_refl eq_refl eq_refl).
  - discriminate.
  - intros ND. inversion ND as [|x l Hnotin _]. apply Hnotin. left. reflexivity.
Defined.

End OutOfOrder.

Section ShippedMain.

Local Open Scope R_scope.

(** Under the shipped configuration the first iteration of [generate_posts]
    stops at the posting time. *)
Lemma shipped_post_row_raises (ctx : Gen.PostContext) (i : Z) :
  Gen.pc_influencer_ids ctx <> [] ->
  (forall id, In id (Gen.pc_influencer_ids ctx) ->
     exists data, getitem N.eqb (Gen.pc_inf_lookup ctx) id = Ok data) ->
  (0 < Gen.pc_date_range ctx)%Z ->
  (1 <= Gen.pc_start_date ctx)%Z ->
  (Gen.pc_start_date ctx + Gen.pc_date_range ctx <= Datetime._MAXORDINAL)%Z ->
  raises (Gen.post_row config ctx i) ValueError.
Proof.
  intros Hids Hlookup Hrange Hstart Hend. unfold Gen.post_row.
  eapply total_bind_raises;
    [apply total_in_total, choice_total; [exact stable_True|exact Hids]|].
  intros inf_id Hin. destruct (Hlookup inf_id Hin) as (inf_data & G).
  apply (raises_lift_ok _ inf_data); [exact G|]. cbv zeta.
  eapply total_bind_raises;
    [apply total_in_total, randint_total; [exact stable_True|exact Hrange]|].
  intros random_days Hr. cbv beta in Hr.
  apply (raises_lift_ok _ (Gen.pc_start_date ctx + random_days)%Z);
    [apply add_days_ok; lia|].
  apply raises_bind. exact shipped_generate_post_time_raises.
Qed.

(** On a generator holding an influencer and a brand table, both non-empty,
    [generate_posts] raises [ValueError] under the shipped configuration:
    from the index of the lookup if two influencers share an id, from the
    posting-time weights otherwise. *)
Lemma shipped_generate_posts_raises (self : Gen.t)
  (influencers : list Influencer.t) (brands : list Brand.t) :
  Gen.influencers_df self = Some influencers -> influencers <> [] ->
  Gen.brands_df self = Some brands -> brands <> [] ->
  raises (Gen.generate_posts config self) ValueError.
Proof.
  intros Hi Ni Hb Nb. unfold Gen.generate_posts.
  destruct shipped_window as [Ws We].
  apply (raises_lift_ok _ 738917%Z); [exact Ws|].
  apply (raises_lift_ok _ 739282%Z); [exact We|]. cbv zeta.
  rewrite Hi, Hb.
  destruct influencers as [|i0 irest]; [congruence|].
  destruct brands as [|b0 brest]; [congruence|].
  cbn [Gen.column].
  apply raises_ret_bind. apply raises_ret_bind.
  unfold Gen.to_dict_index.
  destruct (Gen.has_duplicates (map Influencer.influencer_id (i0 :: irest)))
    eqn:D; [intros w; reflexivity|].
  apply raises_ret_bind.
  unfold for_in_range. change (N_POSTS config) with 50000%Z.
  replace (Z.to_nat 50000) with (S (Z.to_nat 49999)) by lia.
  cbn [for_range]. apply raises_bind.
  apply shipped_post_row_raises;
    cbn [Gen.pc_influencer_ids Gen.pc_inf_lookup Gen.pc_date_range
         Gen.pc_start_date].
  - discriminate.
  - intros id Hin. apply in_map_iff in Hin. destruct Hin as (r & <- & Hr).
    destruct (getitem_of_row Influencer.influencer_id _ _ Hr) as (r' & G & _).
    exists r'. exact G.
  - lia.
  - lia.
  - unfold Datetime._MAXORDINAL. lia.
Qed.

(** The entry point of [data_generator.py] never completes as shipped: from
    every world, whatever numpy's stream and the entropy of the ids,
    [main()] generates the brands and the influencers and then raises
    [ValueError] in [generate_posts], because the weights of
    [POSTING_TIME_DISTRIBUTION] sum to 1.19. *)
Theorem shipped_main_raises_ValueError :
  raises (Gen.main config) ValueError.
Proof.
  unfold Gen.main.
  eapply total_bind_raises with (P := fun _ => True).
  { apply total_in_total. unfold Gen.init.
    eapply total_in_bind;
      [apply seed_total; [exact stable_True|simpl; lia]|].
    intros _ _. apply total_in_ret. exact Logic.I. }
  intros generator _. unfold Gen.generate_all.
  eapply total_bind_raises;
    [apply total_in_total, generate_brands_returns, stable_True|].
  intros brands Lb. cbv zeta.
  eapply total_bind_raises;
    [apply total_in_total, generate_influencers_total, stable_True|].
  intros influencers [Li _].
  apply raises_bind.
  apply (shipped_generate_posts_raises _ influencers brands).
  - reflexivity.
  - destruct influencers; [discriminate Li|discriminate].
  - reflexivity.
  - destruct brands; [discriminate Lb|discriminate].
Qed.

End ShippedMain.

(* ===================================================================== *)
(** * Theorems: validators.py *)
(* ===================================================================== *)

Section ValidatorFacts.

Import Validators.




Lemma tally_counts {V : Type} (passes : V -> bool) (items : list (string * V))
  (t p : Z) :
  let counts := tally passes items (t, p) in
  fst counts = (t + Z.of_nat (List.length items))%Z
  /\ (snd counts <= p + Z.of_nat (List.length items))%Z
  /\ (snd counts = p + Z.of_nat (List.length items)
      <-> Forall (fun item => passes (snd item) = true) items)%Z.
Proof.
  cbv zeta. unfold tally. revert t p.
  induction items as [|item r IH]; intros t p.
  - cbn [fold_left fst snd List.length Z.of_nat].
    split; [lia|]. split; [lia|]. split; [constructor|lia].
  - cbn [fold_left fst snd].
    specialize (IH (t + 1)%Z (if passes (snd item) then (p + 1)%Z else p)).
    destruct IH as (T & P & E).
    rewrite T. cbn [List.length]. rewrite Nat2Z.inj_succ.
    split; [lia|].
    destruct (passes (snd item)) eqn:Pi.
    + split; [lia|]. split.
      * intros H. constructor; [exact Pi|]. apply E. lia.
      * intros H. inversion H. subst. apply E in H3. lia.
    + split; [lia|]. split.
      * intros H. lia.
      * intros H. inversion H. congruence.
Qed.

Lemma sum_marks_shift (marks : list bool) (acc : Z) :
  fold_left (fun acc (b : bool) => if b then (acc + 1)%Z else acc) marks acc
  = (acc + fold_left (fun acc (b : bool) => if b then (acc + 1)%Z else acc)
                     marks 0%Z)%Z.
Proof.
  revert acc. induction marks as [|b r IH]; intros acc; simpl; [lia|].
  destruct b; [rewrite IH, (IH 1%Z); lia|apply IH].
Qed.

Lemma sum_marks_zero (marks : list bool) :
  (0 <= fold_left (fun acc (b : bool) => if b then (acc + 1)%Z else acc)
                  marks 0)%Z
  /\ (fold_left (fun acc (b : bool) => if b then (acc + 1)%Z else acc) marks
                0%Z
      = 0%Z <-> Forall (fun b => b = false) marks).
Proof.
  induction marks as [|b r [P E]]; simpl.
  - split; [lia|]. split; [constructor|reflexivity].
  - destruct b.
    + rewrite sum_marks_shift. split; [lia|]. split; [lia|].
      intros H. inversion H. discriminate.
    + split; [exact P|]. rewrite E. split.
      * intros H. constructor; [reflexivity|exact H].
      * intros H. inversion H. assumption.
Qed.

Lemma duplicated_from_none (seen ids : list N) :
  Forall (fun b => b = false) (duplicated_from seen ids)
  <-> NoDup ids /\ forall x, In x ids -> ~ In x seen.
Proof.
  revert seen. induction ids as [|x r IH]; intros seen; simpl.
  - split; [intros _; split; [constructor|contradiction]|constructor].
  - split.
    + intros H. inversion H as [|? ? X F]. subst.
      apply IH in F. destruct F as [ND Hs].
      assert (~ In x seen) as Nx.
      { intros Hin.
        assert (existsb (N.eqb x) seen = true) as Y
          by (apply existsb_exists; exists x; split;
              [exact Hin|apply N.eqb_refl]).
        congruence. }
      split.
      * constructor; [|exact ND]. intros Hin. apply (Hs x Hin). left.
        reflexivity.
      * intros y [<-|Hy]; [exact Nx|].
        intros Hin. apply (Hs y Hy). right. exact Hin.
    + intros [ND Hs]. inversion ND as [|? ? Hnotin ND']. subst.
      constructor.
      * destruct (existsb (N.eqb x) seen) eqn:X; [|reflexivity]. exfalso.
        apply existsb_exists in X. destruct X as (y & Hy & Exy).
        apply N.eqb_eq in Exy. subst y.
        apply (Hs x); [left; reflexivity|exact Hy].
      * apply IH. split; [exact ND'|].
        intros y Hy [<-|Hin]; [contradiction|].
        apply (Hs y); [right; exact Hy|exact Hin].
Qed.

Lemma duplicates_zero (ids : list N) : duplicates ids = 0%Z <-> NoDup ids.
Proof.
  unfold duplicates, duplicated.
  rewrite (proj2 (sum_marks_zero _)), duplicated_from_none. split.
  - intros [ND _]. exact ND.
  - intros ND. split; [exact ND|]. intros x _ [].
Qed.

End ValidatorFacts.

Section ValidatorSpecs.

Import Validators.
Local Open Scope R_scope.

(** [generate_report] returns ["PASS"] exactly when every correlation check
    that was recorded has a true ["valid"] entry and every referential check
    that was recorded is true, and ["REVIEW"] otherwise; with no check
    recorded at all it returns ["PASS"]. *)
Theorem generate_report_passes_iff (validation_results : ValidationResults) :
  (generate_report validation_results = "PASS"%string
   <-> (forall items, correlations validation_results = Some items ->
          Forall (fun item => snd item = Some true) items)
       /\ (forall items, referential_integrity validation_results = Some items ->
             Forall (fun item => snd item = true) items))
  /\ (generate_report validation_results <> "PASS"%string ->
      generate_report validation_results = "REVIEW"%string)
  /\ generate_report (mk_results None None) = "PASS"%string.
Proof.
  split; [|split; [|reflexivity]].
  - unfold generate_report. destruct validation_results as [cs rs].
    cbn [correlations referential_integrity]. cbv zeta.
    set (valid := fun val : option bool =>
                    match val with Some b => b | None => false end).
    assert (forall items,
              Forall (fun item : string * option bool =>
                        valid (snd item) = true) items
              <-> Forall (fun item => snd item = Some true) items) as V.
    { intros items. split; intros H; (eapply Forall_impl; [|exact H]);
        intros [k [[|]|]]; simpl; congruence. }
    destruct cs as [cs|]; destruct rs as [rs|].
    + destruct (tally_counts valid cs 0 0) as (T1 & P1 & E1). cbv zeta in *.
      destruct (tally valid cs (0%Z, 0%Z)) as [t1 p1] eqn:C1.
      cbn [fst snd] in *.
      destruct (tally_counts (fun val : bool => val) rs t1 p1) as (T2 & P2 & E2).
      cbv zeta in *.
      destruct (tally (fun val : bool => val) rs (t1, p1)) as [t2 p2] eqn:C2.
      cbn [fst snd] in *.
      destruct (p2 =? t2)%Z eqn:Q.
      * apply Z.eqb_eq in Q. split; [intros _|reflexivity].
        split; intros items H; injection H as <-;
          [apply V, E1; lia|apply E2; lia].
      * apply Z.eqb_neq in Q. split; [discriminate|]. intros [Hc Hr].
        exfalso. apply Q.
        specialize (Hc cs eq_refl). specialize (Hr rs eq_refl).
        apply V, E1 in Hc. apply E2 in Hr. lia.
    + destruct (tally_counts valid cs 0 0) as (T1 & P1 & E1). cbv zeta in *.
      destruct (tally valid cs (0%Z, 0%Z)) as [t1 p1] eqn:C1.
      cbn [fst snd] in *.
      destruct (p1 =? t1)%Z eqn:Q.
      * apply Z.eqb_eq in Q. split; [intros _|reflexivity].
        split; intros items H; [|discriminate H]. injection H as <-.
        apply V, E1. lia.
      * apply Z.eqb_neq in Q. split; [discriminate|]. intros [Hc _].
        exfalso. apply Q. specialize (Hc cs eq_refl). apply V, E1 in Hc. lia.
    + destruct (tally_counts (fun val : bool => val) rs 0 0) as (T2 & P2 & E2).
      cbv zeta in *.
      destruct (tally (fun val : bool => val) rs (0%Z, 0%Z)) as [t2 p2] eqn:C2.
      cbn [fst snd] in *.
      destruct (p2 =? t2)%Z eqn:Q.
      * apply Z.eqb_eq in Q. split; [intros _|reflexivity].
        split; intros items H; [discriminate H|]. injection H as <-.
        apply E2. lia.
      * apply Z.eqb_neq in Q. split; [discriminate|]. intros [_ Hr].
        exfalso. apply Q. specialize (Hr rs eq_refl). apply E2 in Hr. lia.
    + cbn [fst snd Z.eqb]. split; [intros _|reflexivity].
      split; intros items H; discriminate H.
  - unfold generate_report. cbv zeta.
    match goal with |- context [if ?c then _ else _] => destruct c end;
      [intros H; exfalso; apply H; reflexivity|reflexivity].
Qed.

(** The duplicate count of [check_data_quality] is zero exactly when the
    ids of the column are pairwise distinct. *)
Theorem duplicates_zero_iff_distinct (ids : list N) :
  duplicates ids = 0%Z <-> NoDup ids.
Proof. exact (duplicates_zero ids). Qed.

(** [check_data_quality] lists a column among those with missing values
    when the rounded percentage of missing cells is positive: with fewer
    than one missing cell in 20000 rows the percentage rounds to 0.00 and
    the column is reported as complete; with more than one in 20000 it is
    listed. *)
Theorem missing_values_below_the_rounding (missing len_df : Z) :
  (0 <= missing <= len_df)%Z -> (0 < len_df)%Z ->
  ((20000 * missing < len_df)%Z -> in_cols_with_missing missing len_df = false)
  /\ ((len_df < 20000 * missing)%Z ->
      in_cols_with_missing missing len_df = true).
Proof.
  intros [M0 M1] L.
  assert (0 < IZR len_df) as PL by (apply IZR_lt; exact L).
  assert (0 <= IZR missing) as PM by (apply IZR_le; exact M0).
  unfold in_cols_with_missing, missing_pct.
  destruct (len_df =? 0)%Z eqn:E; [apply Z.eqb_eq in E; lia|].
  unfold Py.round.
  replace (IZR missing / IZR len_df * 100 * 10 ^ 2)
    with (IZR missing * 10000 / IZR len_df) by (simpl; field; lra).
  set (y := IZR missing * 10000 / IZR len_df).
  assert (0 <= y) as Y0.
  { unfold y, Rdiv. apply Rmult_le_pos; [lra|].
    left. apply Rinv_0_lt_compat. exact PL. }
  split; intros H.
  - assert (y < 1 / 2) as Y1.
    { unfold y. apply Rmult_lt_reg_r with (IZR len_df); [exact PL|].
      unfold Rdiv. rewrite Rmult_assoc, Rinv_l by lra.
      apply IZR_lt in H. rewrite mult_IZR in H. lra. }
    assert (Py.round_half_even y = 0%Z) as R0.
    { unfold Py.round_half_even.
      rewrite (Zfloor_eq 0 y) by (simpl; lra).
      destruct (Rlt_dec (y - 0) (1 / 2)) as [|N]; [reflexivity|].
      exfalso. apply N. lra. }
    rewrite R0. apply lt_false. simpl. lra.
  - assert (1 / 2 < y) as Y1.
    { unfold y. apply Rmult_lt_reg_r with (IZR len_df); [exact PL|].
      unfold Rdiv at 2. rewrite Rmult_assoc, Rinv_l by lra.
      apply IZR_lt in H. rewrite mult_IZR in H. lra. }
    assert (1 <= Py.round_half_even y)%Z as R1.
    { pose proof (round_half_even_floor y) as F.
      destruct (Z_le_gt_dec 1 (Zfloor y)) as [G|G]; [lia|].
      assert (Zfloor y = 0%Z) as Z0
        by (pose proof (Zfloor_lub 0 y Y0); lia).
      unfold Py.round_half_even. rewrite Z0.
      destruct (Rlt_dec (y - 0) (1 / 2)) as [B|_]; [lra|].
      destruct (Rlt_dec (1 / 2) (y - 0)) as [_|N]; [lia|].
      exfalso. apply N. lra. }
    apply gt_true. apply IZR_le in R1.
    unfold Rdiv. apply Rmult_lt_0_compat; [lra|].
    apply Rinv_0_lt_compat. simpl. lra.
Qed.

(** The statement for a table of 100000 rows: with four missing cells the
    column is reported as complete, with six it is listed. *)
Lemma missing_values_below_the_rounding_witness :
  in_cols_with_missing 4 100000 = false
  /\ in_cols_with_missing 6 100000 = true.
Proof.
  split.
  - apply (missing_values_below_the_rounding 4 100000); lia.
  - apply (missing_values_below_the_rounding 6 100000); lia.
Defined.

End ValidatorSpecs.

(* ===================================================================== *)
(** * Theorems: a completed run against the validator *)
(* ===================================================================== *)

Section CompletedRun.

Local Open Scope R_scope.

Variable cfg : Config.



End CompletedRun.

(* ===================================================================== *)
(** * Theorems: a complete run of the small configuration *)
(* ===================================================================== *)

Section TouchpointsReturn.

Local Open Scope R_scope.

Variable I : World -> Prop.
Hypothesis I_stable : stable I.


End TouchpointsReturn.

Section SmallRun.

Local Open Scope R_scope.

Variable I : World -> Prop.
Hypothesis I_stable : stable I.

(** No draw of [np.random.random()] is below 0.65: no conversion is
    attributed to a post. *)
Hypothesis Late : total_in I Np.random (fun r => 0.65 <= r).








End SmallRun.

Section CompletedRunSpecs.



End CompletedRunSpecs.
